(** * Serving pipeline of the Papallacta weather-prediction API

    A shallow embedding of the serving-time code under [src/src]:
    the geographic locator, the station model registry, the historical
    data fetcher, the sequence preprocessor, the prediction validator and
    the [/predict] request handler, followed by the properties the
    specification states about them.

    Conventions of the embedding.
    - Python [float] values are the type [pyfloat]: a real number, one of
      the two infinities, or NaN.  Comparisons are exact, and the special
      values follow the IEEE rules the code relies on ([float('inf')],
      [math.isnan], [np.isinf]); signed zeros are not modelled.  The
      distance of the locator is computed on the real numbers, without
      rounding, so what is stated of the locator's choice is stated on the
      distances it has computed, whatever they are.  The arithmetic of the
      interpolation is the interpreter's own, rounding and overflow
      included: its four operations are fields of the class [Environment].
      [float] of an integer is exact up to 2^53 in magnitude, rounds
      beyond, and raises [OverflowError] beyond the range of a double.
    - Exceptions are the error side of [result]; [try]/[except] is a
      [match] on it.
    - JSON values and the dictionaries built from them are [pyval]; a
      dictionary keeps its keys in insertion order, which is the order
      Python iterates in.  The registry's two dictionaries, whose order is
      never observed, are [gmap string _].
    - What the serving code calls but does not define (file system, date
      parsing, HTTP, the model and scaler artifacts) is a field of the
      class [Environment]; so is the narrative analysis adapter, which the
      specification treats as an external service.
    - Logging calls have no effect on any value and are left out. *)

From Stdlib Require Import Reals Lra Lia ZArith.
From stdpp Require Import gmap strings list sorting pretty.

#[local] Set Warnings "-register-all".

(** ** Python floats *)

Inductive pyfloat : Type :=
| Fin (r : R)
| PInf
| NInf
| NaN.

Definition Rltb (a b : R) : bool := if Rlt_dec a b then true else false.
Definition Rleb (a b : R) : bool := if Rle_dec a b then true else false.
Definition Reqb (a b : R) : bool := if Req_dec_T a b then true else false.

Module PyFloat.

(** [math.isnan], [math.isinf] / [np.isnan], [np.isinf]. *)
Definition isnan (x : pyfloat) : bool :=
  match x with NaN => true | _ => false end.

Definition isinf (x : pyfloat) : bool :=
  match x with PInf | NInf => true | _ => false end.

(** [x < y] and [x <= y]: every comparison with NaN is [False]. *)
Definition lt (x y : pyfloat) : bool :=
  match x, y with
  | NaN, _ | _, NaN => false
  | Fin a, Fin b => Rltb a b
  | NInf, (Fin _ | PInf) => true
  | Fin _, PInf => true
  | _, _ => false
  end.

Definition le (x y : pyfloat) : bool :=
  match x, y with
  | NaN, _ | _, NaN => false
  | Fin a, Fin b => Rleb a b
  | NInf, _ => true
  | _, PInf => true
  | _, _ => false
  end.

Definition neg (x : pyfloat) : pyfloat :=
  match x with
  | Fin r => Fin (- r)
  | PInf => NInf
  | NInf => PInf
  | NaN => NaN
  end.

Definition add (x y : pyfloat) : pyfloat :=
  match x, y with
  | NaN, _ | _, NaN => NaN
  | Fin a, Fin b => Fin (a + b)
  | PInf, NInf | NInf, PInf => NaN
  | PInf, _ | _, PInf => PInf
  | NInf, _ | _, NInf => NInf
  end.

Definition sub (x y : pyfloat) : pyfloat := add x (neg y).

(** Sign of a product with an infinity: [inf * 0] is NaN. *)
Definition scale_inf (positive : bool) (a : R) : pyfloat :=
  if Rltb 0 a then (if positive then PInf else NInf)
  else if Rltb a 0 then (if positive then NInf else PInf)
  else NaN.

Definition mul (x y : pyfloat) : pyfloat :=
  match x, y with
  | NaN, _ | _, NaN => NaN
  | Fin a, Fin b => Fin (a * b)
  | Fin a, PInf | PInf, Fin a => scale_inf true a
  | Fin a, NInf | NInf, Fin a => scale_inf false a
  | PInf, PInf | NInf, NInf => PInf
  | PInf, NInf | NInf, PInf => NInf
  end.

(** [x / y].  Python raises [ZeroDivisionError] for a zero divisor; the
    only division of the embedded code divides by a positive index
    difference (see [interpolate_divisor_pos]). *)
Definition div (x y : pyfloat) : pyfloat :=
  match x, y with
  | NaN, _ | _, NaN => NaN
  | Fin a, Fin b => Fin (a / b)
  | Fin _, (PInf | NInf) => Fin 0
  | PInf, Fin b => if Rltb b 0 then NInf else PInf
  | NInf, Fin b => if Rltb b 0 then PInf else NInf
  | _, _ => NaN
  end.

(** [x ** 2]. *)
Definition pow2 (x : pyfloat) : pyfloat := mul x x.

(** [math.sqrt].  Python raises [ValueError] on a negative argument; the
    only caller passes a sum of two squares (see [sum_squares_domain]). *)
Definition sqrt (x : pyfloat) : pyfloat :=
  match x with
  | Fin r => Fin (R_sqrt.sqrt r)
  | PInf => PInf
  | NInf | NaN => NaN
  end.

(** [float(n)] for a Python [int]. *)
Definition of_Z (z : Z) : pyfloat := Fin (IZR z).

(** Truthiness of a float: [bool(x)] is [x != 0]. *)
Definition truthy (x : pyfloat) : bool :=
  match x with Fin r => negb (Reqb r 0) | _ => true end.

End PyFloat.

(** ** Exceptions *)

Inductive exn : Type :=
| ValidationError (msg : string)      (* utils/validators.py *)
| ValueError (msg : string)
| TypeError (msg : string)
| FileNotFoundError (msg : string)
| RequestException (msg : string)     (* requests.exceptions *)
| OverflowError (msg : string)
| OtherException (msg : string).

(** [str(e)]. *)
Definition exn_str (e : exn) : string :=
  match e with
  | ValidationError m | ValueError m | TypeError m
  | FileNotFoundError m | RequestException m | OverflowError m | OtherException m => m
  end.

(** [isinstance(e, ValidationError)]: [ValidationError] derives from
    [Exception] directly, so no built-in exception is one. *)
Definition is_ValidationError (e : exn) : bool :=
  match e with ValidationError _ => true | _ => false end.

Inductive result (A : Type) : Type :=
| Ok (a : A)
| Raise (e : exn).
Arguments Ok {A} a.
Arguments Raise {A} e.

Definition rbind {A B} (m : result A) (k : A → result B) : result B :=
  match m with
  | Ok a => k a
  | Raise e => Raise e
  end.

#[global] Instance result_ret : MRet result := λ A a, Ok a.
#[global] Instance result_bind : MBind result := λ A B k m, rbind m k.

(** Lookup in a dictionary kept as an association list (unique keys). *)
Fixpoint assoc_get {V : Type} (k : string) (d : list (string * V)) : option V :=
  match d with
  | [] => None
  | (k', v) :: d' => if decide (k' = k) then Some v else assoc_get k d'
  end.

(** ** config/settings.py *)

Module AppConfig.
Definition TIME_STEP : nat := 30.
Definition HISTORICAL_DAYS : nat := 30.
End AppConfig.

Record Coordinates : Type := { lat : pyfloat; lon : pyfloat }.

Module StationConfig.
Open Scope R_scope.

(** The dictionary in insertion order, which is its iteration order. *)
Definition STATIONS_COORDINATES : list (string * Coordinates) :=
  [ ("M5023", {| lat := Fin (-0.3798); lon := Fin (-78.1959) |});
    ("M5025", {| lat := Fin (-0.3337); lon := Fin (-78.1985) |});
    ("P34",   {| lat := Fin (-0.3809); lon := Fin (-78.1411) |});
    ("P63",   {| lat := Fin (-0.3206); lon := Fin (-78.1917) |}) ].

Definition FEATURE_COLUMNS : list string :=
  [ "Precipitacion (mm)"; "Temperatura (°C)"; "Humedad_Relativa (%)" ]%string.

Definition get_station_names : list string := STATIONS_COORDINATES.*1.

(** [STATIONS_COORDINATES.get(station_name, {})]; [None] stands for the
    empty dictionary of the default. *)
Definition get_station_coordinates (station_name : string) : option Coordinates :=
  assoc_get station_name STATIONS_COORDINATES.
End StationConfig.

(** ** utils/validators.py: GeographicCalculator *)

Module GeographicCalculator.
Definition calculate_euclidean_distance (lat1 lon1 lat2 lon2 : pyfloat) : pyfloat :=
  PyFloat.sqrt (PyFloat.add (PyFloat.pow2 (PyFloat.sub lat1 lat2))
                            (PyFloat.pow2 (PyFloat.sub lon1 lon2))).
End GeographicCalculator.

(** ** Python values

    What [request.get_json()] and [response.json()] return, and what
    [jsonify] takes. *)

Inductive pyval : Type :=
| VNone
| VBool (b : bool)
| VInt (z : Z)
| VFloat (x : pyfloat)
| VStr (s : string)
| VList (l : list pyval)
| VDict (d : list (string * pyval)).

(** [d[k] = v]: overwrite in place, or append a new key. *)
Fixpoint dict_set {V : Type} (k : string) (v : V) (d : list (string * V)) : list (string * V) :=
  match d with
  | [] => [(k, v)]
  | (k', v') :: d' => if decide (k' = k) then (k, v) :: d' else (k', v') :: dict_set k v d'
  end.

(** [d.update(other)]. *)
Definition dict_update {V : Type} (d other : list (string * V)) : list (string * V) :=
  foldl (λ acc kv, dict_set kv.1 kv.2 acc) d other.

(** [bool(v)]. *)
Definition py_truthy (v : pyval) : bool :=
  match v with
  | VNone => false
  | VBool b => b
  | VInt z => negb (Z.eqb z 0)
  | VFloat x => PyFloat.truthy x
  | VStr s => negb (String.eqb s "")
  | VList l => match l with [] => false | _ => true end
  | VDict d => match d with [] => false | _ => true end
  end.

(** [needle in haystack] for two strings. *)
Fixpoint is_substring (needle haystack : string) : bool :=
  String.prefix needle haystack ||
  match haystack with
  | EmptyString => false
  | String _ rest => is_substring needle rest
  end.

Definition is_str (key : string) (v : pyval) : bool :=
  match v with VStr s => String.eqb s key | _ => false end.

(** [key in container]. *)
Definition py_contains (key : string) (container : pyval) : result bool :=
  match container with
  | VDict d => Ok (bool_decide (is_Some (assoc_get key d)))
  | VList l => Ok (existsb (is_str key) l)
  | VStr s => Ok (is_substring key s)
  | _ => Raise (TypeError "argument is not iterable")
  end.

(** [container[key]] for a string key. *)
Definition py_getitem (container : pyval) (key : string) : result pyval :=
  match container with
  | VDict d =>
      match assoc_get key d with
      | Some v => Ok v
      | None => Raise (OtherException key)          (* KeyError *)
      end
  | _ => Raise (TypeError "indices must be integers")
  end.

(** [for item in v]: the elements of a list, the keys of a dictionary,
    the characters of a string. *)
Definition py_iter (v : pyval) : result (list pyval) :=
  match v with
  | VList l => Ok l
  | VDict d => Ok (VStr <$> d.*1)
  | VStr s => Ok ((λ c, VStr (String c EmptyString)) <$> String.list_ascii_of_string s)
  | _ => Raise (TypeError "object is not iterable")
  end.

(** ** The world around the serving code *)

Class Environment : Type := {
  (** Artifacts: [tensorflow.keras.models.load_model], [joblib.load],
      [os.path.exists]. *)
  Model : Type;
  Scaler : Type;
  path_exists : string → bool;
  keras_load_model : string → result Model;
  joblib_load : string → result Scaler;
  (** [model.predict(X, verbose=0)], [scaler.transform],
      [scaler.inverse_transform]. *)
  model_predict : Model → list (list (list pyfloat)) → result (list (list pyfloat));
  scaler_transform : Scaler → list (list pyfloat) → result (list (list pyfloat));
  scaler_inverse_transform : Scaler → list (list pyfloat) → result (list (list pyfloat));
  (** [datetime.strptime(s, '%Y-%m-%d')] ([None] is its [ValueError]),
      [d - timedelta(days=n)], [d.strftime('%Y-%m-%d')]. *)
  Date : Type;
  strptime : string → option Date;
  minus_days : Date → nat → Date;
  strftime : Date → string;
  (** [float(s)] for a string ([None] is its [ValueError]), [str(x)] and
      [round(x, ndigits)] for a float. *)
  float_of_string : string → option pyfloat;
  str_of_float : pyfloat → string;
  py_round : pyfloat → Z → pyfloat;
  (** [float(n)] for an integer above 2^53 in magnitude and within the
      range of a double: the double nearest to it. *)
  round_int : Z → pyfloat;
  (** [x + y], [x - y], [x * y] and [x / y] on floats as the interpreter
      computes them: binary64 arithmetic, with its rounding and its
      overflow to an infinity.  The code divides by counts that are not
      zero only. *)
  float_add : pyfloat → pyfloat → pyfloat;
  float_sub : pyfloat → pyfloat → pyfloat;
  float_mul : pyfloat → pyfloat → pyfloat;
  float_truediv : pyfloat → pyfloat → pyfloat;
  (** [requests.get(base_url, params, timeout)], [raise_for_status()] and
      [response.json()], for the parameters the fetcher varies. *)
  requests_get_json : pyfloat → pyfloat → string → string → result pyval;
  (** [AnalysisService.analyze_predictions], the text-service adapter. *)
  analyze_predictions : list (list pyfloat) → pyval → option pyval * option string;
}.

(** [float(n)] of an integer raises [OverflowError] when [n] rounds
    beyond the largest double: from [2^1024 - 2^970] on, in magnitude. *)
Definition float_overflows (n : Z) : bool :=
  (2 ^ 1024 - 2 ^ 970 <=? Z.abs n)%Z.
#[global] Arguments float_overflows : simpl never.

(** [float(n)] of an integer within the range of a double: the integer
    itself up to 2^53 in magnitude, the nearest double beyond. *)
Definition float_of_int `{Environment} (n : Z) : pyfloat :=
  if (Z.abs n <=? 2 ^ 53)%Z then PyFloat.of_Z n else round_int n.
#[global] Arguments float_of_int : simpl never.

(** [float(v)]. *)
Definition py_float `{Environment} (v : pyval) : result pyfloat :=
  match v with
  | VBool b => Ok (Fin (if b then 1 else 0))
  | VInt z =>
      if float_overflows z then Raise (OverflowError "int too large to convert to float")
      else Ok (float_of_int z)
  | VFloat x => Ok x
  | VStr s =>
      match float_of_string s with
      | Some x => Ok x
      | None => Raise (ValueError "could not convert string to float")
      end
  | VNone | VList _ | VDict _ =>
      Raise (TypeError "float() argument must be a string or a real number")
  end.

(** ** utils/validators.py *)

Module CoordinateValidator.
Definition validate_latitude (latitude : pyfloat) : bool :=
  PyFloat.le (PyFloat.of_Z (-90)) latitude && PyFloat.le latitude (PyFloat.of_Z 90).

Definition validate_longitude (longitude : pyfloat) : bool :=
  PyFloat.le (PyFloat.of_Z (-180)) longitude && PyFloat.le longitude (PyFloat.of_Z 180).

Definition validate_coordinates `{Environment} (latitude longitude : pyfloat) : result () :=
  if negb (validate_latitude latitude) then
    Raise (ValidationError ("Latitud inválida: " +:+ str_of_float latitude
                            +:+ ". Debe estar entre -90 y 90"))
  else if negb (validate_longitude longitude) then
    Raise (ValidationError ("Longitud inválida: " +:+ str_of_float longitude
                            +:+ ". Debe estar entre -180 y 180"))
  else Ok ().
End CoordinateValidator.

Module DateValidator.
Definition validate_date_format `{Environment} (date_str : string) : bool :=
  match strptime date_str with
  | Some _ => true
  | None => false
  end.

Definition validate_date_string `{Environment} (date_str : string) : result () :=
  if negb (validate_date_format date_str) then
    Raise (ValidationError ("Formato de fecha inválido: " +:+ date_str +:+ ". Usar YYYY-MM-DD"))
  else Ok ().
End DateValidator.

Module RequestValidator.
(** [[field for field in required_fields if field not in data]]. *)
Fixpoint missing_fields (data : pyval) (required_fields : list string) : result (list string) :=
  match required_fields with
  | [] => Ok []
  | field :: rest =>
      present ← py_contains field data;
      missing ← missing_fields data rest;
      mret (if (present : bool) then missing else field :: missing)
  end.

Definition validate_required_fields (data : pyval) (required_fields : list string) : result () :=
  missing ← missing_fields data required_fields;
  match missing with
  | [] => Ok ()
  | _ => Raise (ValidationError ("Campos requeridos faltantes: " +:+ String.concat ", " missing))
  end.

Definition is_dict (data : pyval) : bool :=
  match data with VDict _ => true | _ => false end.

Definition validate_json_data (data : pyval) : result () :=
  if negb (py_truthy data) || negb (is_dict data) then
    Raise (ValidationError "Se requieren datos JSON válidos")
  else Ok ().
End RequestValidator.

Module ListValidator.
Definition validate_list_items (items valid_items : list string) : result () :=
  let invalid_items := filter (λ item, item ∉ valid_items) items in
  match invalid_items with
  | [] => Ok ()
  | _ =>
      Raise (ValidationError ("Elementos inválidos: " +:+ String.concat ", " invalid_items
                              +:+ ". " +:+ "Elementos válidos: "
                              +:+ String.concat ", " valid_items))
  end.
End ListValidator.

Module DataCleaner.
(** An entry of the column: [None] is Python's [None]. *)
Definition is_valid (val : option pyfloat) : bool :=
  match val with
  | Some x => negb (PyFloat.isnan x)
  | None => false
  end.

(** [[i for i, val in enumerate(data) if val is not None and not math.isnan(val)]],
    counting from [i]. *)
Fixpoint valid_indices_from (i : nat) (data : list (option pyfloat)) : list nat :=
  match data with
  | [] => []
  | val :: rest =>
      if is_valid val then i :: valid_indices_from (S i) rest
      else valid_indices_from (S i) rest
  end.

Definition valid_indices (data : list (option pyfloat)) : list nat :=
  valid_indices_from 0 data.

(** The inner [for idx in valid_indices] loop: the last index below [i]
    and, where the loop breaks, the first index above it. *)
Fixpoint find_neighbors (i : nat) (valid : list nat) (prev_idx : option nat)
  : option nat * option nat :=
  match valid with
  | [] => (prev_idx, None)
  | idx :: rest =>
      if idx <? i then find_neighbors i rest (Some idx)
      else if i <? idx then (prev_idx, Some idx)
      else find_neighbors i rest prev_idx
  end.

(** [y0 + (y1 - y0) * (i - x0) / (x1 - x0)]: the two differences of
    indices are integers, which the product and the quotient take as
    floats. *)
Definition linear `{Environment} (x0 : nat) (y0 : pyfloat) (x1 : nat) (y1 : pyfloat) (i : nat)
  : pyfloat :=
  float_add y0
    (float_truediv (float_mul (float_sub y1 y0) (PyFloat.of_Z (Z.of_nat i - Z.of_nat x0)))
                   (PyFloat.of_Z (Z.of_nat x1 - Z.of_nat x0))).

(** The float behind an entry taken at a valid index; such an entry is
    never [None] (see [valid_index_holds_float]). *)
Definition num (val : option pyfloat) : pyfloat := default NaN val.

(** The value the [for i in range(len(data))] loop stores at [i], if it
    stores one: nothing at a valid index, else by the neighbours found. *)
Definition fill_value `{Environment} (data : list (option pyfloat)) (valid : list nat) (i : nat)
  : option (option pyfloat) :=
  if bool_decide (i ∈ valid) then None
  else
    match find_neighbors i valid None with
    | (Some prev_idx, Some next_idx) =>
        Some (Some (linear prev_idx (num (data !!! prev_idx))
                           next_idx (num (data !!! next_idx)) i))
    | (Some prev_idx, None) => Some (data !!! prev_idx)
    | (None, Some next_idx) => Some (data !!! next_idx)
    | (None, None) => None
    end.

(** One turn of that loop: [result[i] = ...]. *)
Definition interpolate_at `{Environment} (data : list (option pyfloat)) (valid : list nat)
    (result : list (option pyfloat)) (i : nat) : list (option pyfloat) :=
  match fill_value data valid i with
  | Some value => <[i := value]> result
  | None => result
  end.

Definition interpolate_missing_values `{Environment} (data : list (option pyfloat))
  : list (option pyfloat) :=
  match data with
  | [] => data
  | _ =>
      let valid := valid_indices data in
      if length valid <? 2 then data
      else foldl (interpolate_at data valid) data (seq 0 (length data))
  end.


End DataCleaner.

(** ** models/data_models.py *)

Module WeatherDataRequest.
Record t : Type := {
  date : string;
  latitude : pyfloat;
  longitude : pyfloat;
  include_analysis : pyval;
  analysis_types : pyval;
}.

(** [datetime.strptime] raises [TypeError] for an argument that is not a
    string; [_validate_date] only catches [ValueError]. *)
Definition _validate_date `{Environment} (date : pyval) : result string :=
  match date with
  | VStr s =>
      match strptime s with
      | Some _ => Ok s
      | None => Raise (ValueError "Formato de fecha inválido. Usar YYYY-MM-DD")
      end
  | _ => Raise (TypeError "strptime() argument 1 must be str")
  end.

Definition _validate_coordinates (latitude longitude : pyfloat) : result () :=
  if negb (PyFloat.le (PyFloat.of_Z (-90)) latitude && PyFloat.le latitude (PyFloat.of_Z 90)) then
    Raise (ValueError "Latitud debe estar entre -90 y 90")
  else if negb (PyFloat.le (PyFloat.of_Z (-180)) longitude
                && PyFloat.le longitude (PyFloat.of_Z 180)) then
    Raise (ValueError "Longitud debe estar entre -180 y 180")
  else Ok ().

(** The generated [__init__] followed by [__post_init__]. *)
Definition init `{Environment} (date : pyval) (latitude longitude : pyfloat)
    (include_analysis analysis_types : pyval) : result t :=
  date_str ← _validate_date date;
  _validate_coordinates latitude longitude;;
  mret {| date := date_str; latitude := latitude; longitude := longitude;
          include_analysis := include_analysis; analysis_types := analysis_types |}.
End WeatherDataRequest.

Module StationInfo.
Record t : Type := {
  name : string;
  latitude : pyfloat;
  longitude : pyfloat;
  distance : pyfloat;
  model_available : bool;
}.

Definition to_dict `{Environment} (self : t) : pyval :=
  VDict [ ("name", VStr (name self));
          ("coordinates", VDict [("lat", VFloat (latitude self)); ("lon", VFloat (longitude self))]);
          ("distance", VFloat (py_round (distance self) 6));
          ("model_available", VBool (model_available self)) ].
End StationInfo.

Module HistoricalWeatherData.
Record t : Type := {
  temperatures : list pyfloat;
  precipitations : list pyfloat;
  humidity : list pyfloat;
  timestamps : pyval;
  start_date : string;
  end_date : string;
}.

(** The three feature entries of [to_dict], as lists of floats. *)
Definition feature_items (self : t) : list (string * list pyfloat) :=
  [ ("Precipitacion (mm)", precipitations self);
    ("Temperatura (°C)", temperatures self);
    ("Humedad_Relativa (%)", humidity self) ].

Definition to_dict (self : t) : pyval :=
  VDict (((λ kv, (kv.1, VList (VFloat <$> kv.2))) <$> feature_items self)
         ++ [ ("timestamps", timestamps self);
              ("periodo", VDict [ ("inicio", VStr (start_date self));
                                  ("fin", VStr (end_date self)) ]) ]).
End HistoricalWeatherData.

Module PredictionStats.
Record t : Type := {
  total_predictions : nat;
  avg_precipitation : pyfloat;
  avg_temperature : pyfloat;
  avg_humidity : pyfloat;
  min_precipitation : pyfloat;
  max_precipitation : pyfloat;
  min_temperature : pyfloat;
  max_temperature : pyfloat;
  min_humidity : pyfloat;
  max_humidity : pyfloat;
}.

(** [[pred[col] for pred in predictions if len(pred) >= 3]]. *)
Definition component (col : nat) (predictions : list (list pyfloat)) : list pyfloat :=
  omap (λ pred : list pyfloat, if 3 <=? length pred then pred !! col else None) predictions.

(** [sum(values)]: additions from the left, starting from [0]. *)
Definition py_sum (values : list pyfloat) : pyfloat := foldl PyFloat.add (Fin 0) values.

(** [min(values)] and [max(values)] on a list that is not empty: the
    running value is replaced by an item that compares below (above) it. *)
Definition py_min (first : pyfloat) (others : list pyfloat) : pyfloat :=
  foldl (λ current item, if PyFloat.lt item current then item else current) first others.

Definition py_max (first : pyfloat) (others : list pyfloat) : pyfloat :=
  foldl (λ current item, if PyFloat.lt current item then item else current) first others.

(** [sum(values) / len(values) if values else 0]. *)
Definition average (values : list pyfloat) : pyfloat :=
  match values with
  | [] => Fin 0
  | _ => PyFloat.div (py_sum values) (PyFloat.of_Z (Z.of_nat (length values)))
  end.

(** [min(values) if values else 0], [max(values) if values else 0]. *)
Definition minimum (values : list pyfloat) : pyfloat :=
  match values with
  | [] => Fin 0
  | first :: others => py_min first others
  end.

Definition maximum (values : list pyfloat) : pyfloat :=
  match values with
  | [] => Fin 0
  | first :: others => py_max first others
  end.

Definition from_predictions (predictions : list (list pyfloat)) : result t :=
  match predictions with
  | [] => Raise (ValueError "No hay predicciones para calcular estadísticas")
  | _ =>
      let precipitations := component 0 predictions in
      let temperatures := component 1 predictions in
      let humidities := component 2 predictions in
      Ok {| total_predictions := length predictions;
            avg_precipitation := average precipitations;
            avg_temperature := average temperatures;
            avg_humidity := average humidities;
            min_precipitation := minimum precipitations;
            max_precipitation := maximum precipitations;
            min_temperature := minimum temperatures;
            max_temperature := maximum temperatures;
            min_humidity := minimum humidities;
            max_humidity := maximum humidities |}
  end.
End PredictionStats.

Module APIResponse.
Record t : Type := {
  success : bool;
  data : option (list (string * pyval));
  error : option string;
  details : option pyval;
}.

Definition to_dict (self : t) : pyval :=
  let result := [("success", VBool (success self))] in
  let result :=
    match data self with
    | Some (kv :: d) => dict_update result (kv :: d)
    | _ => result
    end in
  let result :=
    match error self with
    | Some msg => if negb (String.eqb msg "") then dict_set "error" (VStr msg) result else result
    | None => result
    end in
  let result :=
    match details self with
    | Some d => if py_truthy d then dict_set "details" d result else result
    | None => result
    end in
  VDict result.
End APIResponse.

(** The dictionary [get_stations_summary] returns. *)
Module StationsSummary.
Record t : Type := {
  total_stations : nat;
  loaded_stations : nat;
  failed_stations : nat;
  available_stations : list string;
  failed_stations_list : list string;
  coordinates : list (string * Coordinates);
}.
End StationsSummary.

(** ** services/station_service.py *)

Module StationService.
Record t `{Environment} : Type := {
  models : gmap string Model;
  scalers : gmap string Scaler;
  loaded_stations : list string;
  failed_stations : list string;
}.

(** [__init__]. *)
Definition init `{Environment} : t :=
  {| models := ∅; scalers := ∅; loaded_stations := []; failed_stations := [] |}.

Definition MODEL_BASE_PATH : string := "modelo_final_lstm/modelos".

Definition _load_lstm_model `{Environment} (station_name : string) : result Model :=
  let model_path := MODEL_BASE_PATH +:+ "/" +:+ station_name +:+ "_lstm_model.h5" in
  if negb (path_exists model_path) then
    Raise (FileNotFoundError ("No se encontró el modelo: " +:+ model_path))
  else keras_load_model model_path.

Definition _load_scaler `{Environment} (station_name : string) : result Scaler :=
  let scaler_path := MODEL_BASE_PATH +:+ "/" +:+ station_name +:+ "_scaler.pkl" in
  if negb (path_exists scaler_path) then
    Raise (FileNotFoundError ("No se encontró el scaler: " +:+ scaler_path))
  else joblib_load scaler_path.

(** The body of the loop of [load_all_models]: the [try] block and its
    [except Exception]. *)
Definition load_station `{Environment} (self : t) (station_name : string) : t :=
  match (model ← _load_lstm_model station_name;
         scaler ← _load_scaler station_name;
         mret (model, scaler)) with
  | Ok (model, scaler) =>
      {| models := <[station_name := model]> (models self);
         scalers := <[station_name := scaler]> (scalers self);
         loaded_stations := loaded_stations self ++ [station_name];
         failed_stations := failed_stations self |}
  | Raise _ =>
      {| models := models self;
         scalers := scalers self;
         loaded_stations := loaded_stations self;
         failed_stations := failed_stations self ++ [station_name] |}
  end.

(** The service after [load_all_models]; the method returns its
    [loaded_stations] and [failed_stations]. *)
Definition load_all_models `{Environment} (self : t) : t :=
  foldl load_station self StationConfig.get_station_names.

(** The locator.  The [if distance < min_distance] of its loop, on
    [(nearest_station, min_distance)]: *)
Definition nearest_update (acc : option string * pyfloat) (station_name : string)
    (distance : pyfloat) : option string * pyfloat :=
  if PyFloat.lt distance acc.2 then (Some station_name, distance) else acc.

(** one turn of the loop, then the loop from [(None, float('inf'))]. *)
Definition nearest_step (target_lat target_lon : pyfloat)
    (acc : option string * pyfloat) (item : string * Coordinates) : option string * pyfloat :=
  let distance :=
    GeographicCalculator.calculate_euclidean_distance
      target_lat target_lon (lat item.2) (lon item.2) in
  nearest_update acc item.1 distance.

Definition find_nearest_station_in (stations : list (string * Coordinates))
    (target_lat target_lon : pyfloat) : option string * pyfloat :=
  foldl (nearest_step target_lat target_lon) (None, PInf) stations.

Definition find_nearest_station (target_lat target_lon : pyfloat) : option string * pyfloat :=
  find_nearest_station_in StationConfig.STATIONS_COORDINATES target_lat target_lon.

Definition is_model_available `{Environment} (self : t) (station_name : string) : bool :=
  bool_decide (is_Some (models self !! station_name))
  && bool_decide (is_Some (scalers self !! station_name)).

Definition get_station_info `{Environment} (self : t) (station_name : string)
    (target_lat target_lon : pyfloat) : result StationInfo.t :=
  match StationConfig.get_station_coordinates station_name with
  | None => Raise (ValueError ("Estación " +:+ station_name +:+ " no encontrada"))
  | Some coords =>
      Ok {| StationInfo.name := station_name;
            StationInfo.latitude := lat coords;
            StationInfo.longitude := lon coords;
            StationInfo.distance :=
              GeographicCalculator.calculate_euclidean_distance
                target_lat target_lon (lat coords) (lon coords);
            StationInfo.model_available := is_model_available self station_name |}
  end.

Definition get_model_and_scaler `{Environment} (self : t) (station_name : string)
  : result (Model * Scaler) :=
  if negb (is_model_available self station_name) then
    Raise (ValueError ("Modelo para la estación " +:+ station_name +:+ " no está disponible"))
  else
    match models self !! station_name, scalers self !! station_name with
    | Some model, Some scaler => Ok (model, scaler)
    | _, _ => Raise (OtherException station_name)      (* KeyError *)
    end.

Definition get_available_stations `{Environment} (self : t) : list string :=
  filter (λ station, is_model_available self station) (loaded_stations self).

(** [get_all_stations_info]: a station whose information cannot be built
    is logged and left out. *)
Definition get_all_stations_info `{Environment} (self : t) (target_lat target_lon : pyfloat)
  : list (string * StationInfo.t) :=
  foldl (λ stations_info station_name,
           match get_station_info self station_name target_lat target_lon with
           | Ok info => dict_set station_name info stations_info
           | Raise _ => stations_info
           end)
        [] StationConfig.get_station_names.

Definition get_stations_summary `{Environment} (self : t) : StationsSummary.t :=
  {| StationsSummary.total_stations := length StationConfig.get_station_names;
     StationsSummary.loaded_stations := length (loaded_stations self);
     StationsSummary.failed_stations := length (failed_stations self);
     StationsSummary.available_stations := get_available_stations self;
     StationsSummary.failed_stations_list := failed_stations self;
     StationsSummary.coordinates := StationConfig.STATIONS_COORDINATES |}.
End StationService.

(** ** services/weather_service.py *)

Module WeatherDataService.
Definition required_keys : list string :=
  ["temperature_2m"; "precipitation"; "relative_humidity_2m"].

(** The [for key in required_keys] loop of [_validate_api_response]. *)
Fixpoint check_required_keys (hourly_data : pyval) (keys : list string) : result () :=
  match keys with
  | [] => Ok ()
  | key :: rest =>
      present ← py_contains key hourly_data;
      if (present : bool) then check_required_keys hourly_data rest
      else Raise (ValueError ("Clave '" +:+ key +:+ "' no encontrada en los datos de la API"))
  end.

Definition _validate_api_response (data : pyval) : result () :=
  present ← py_contains "hourly" data;
  if negb present then
    Raise (ValueError "No se encontraron datos horarios en la respuesta de la API")
  else
    hourly_data ← py_getitem data "hourly";
    check_required_keys hourly_data required_keys.

(** One turn of the loop of [_clean_numeric_data]: [None] becomes [0.0],
    and so does an entry on which [float] raises [ValueError] or
    [TypeError], the two exceptions the loop catches.  Any other exception
    of [float] leaves the loop. *)
Definition clean_item `{Environment} (item : pyval) : result pyfloat :=
  match item with
  | VNone => Ok (Fin 0)
  | _ =>
      match py_float item with
      | Ok x => Ok x
      | Raise (ValueError _) | Raise (TypeError _) => Ok (Fin 0)
      | Raise e => Raise e
      end
  end.

Definition _clean_numeric_data `{Environment} (data : list pyval) : result (list pyfloat) :=
  mapM clean_item data.

(** [hourly_data.get('time', [])]. *)
Definition get_time (hourly_data : pyval) : pyval :=
  match hourly_data with
  | VDict d => default (VList []) (assoc_get "time" d)
  | _ => VList []
  end.

Definition _process_api_response `{Environment} (data : pyval) (start_date end_date : string)
  : result HistoricalWeatherData.t :=
  hourly_data ← py_getitem data "hourly";
  temperatures ← py_getitem hourly_data "temperature_2m";
  precipitations ← py_getitem hourly_data "precipitation";
  humidity ← py_getitem hourly_data "relative_humidity_2m";
  let timestamps := get_time hourly_data in
  temperatures ← py_iter temperatures ≫= _clean_numeric_data;
  precipitations ← py_iter precipitations ≫= _clean_numeric_data;
  humidity ← py_iter humidity ≫= _clean_numeric_data;
  mret {| HistoricalWeatherData.temperatures := temperatures;
          HistoricalWeatherData.precipitations := precipitations;
          HistoricalWeatherData.humidity := humidity;
          HistoricalWeatherData.timestamps := timestamps;
          HistoricalWeatherData.start_date := start_date;
          HistoricalWeatherData.end_date := end_date |}.

(** The [try] block of [_fetch_data_from_api] and its
    [except requests.exceptions.RequestException]. *)
Definition _fetch_data_from_api `{Environment} (lat lon : pyfloat) (start_date end_date : string)
  : result pyval :=
  match (data ← requests_get_json lat lon start_date end_date;
         _validate_api_response data;;
         mret data) with
  | Raise (RequestException msg) =>
      Raise (ValueError ("Error de conexión con Open-Meteo: " +:+ msg))
  | r => r
  end.

(** [get_historical_data]; its [except Exception] logs and re-raises. *)
Definition get_historical_data `{Environment} (date_str : string) (lat lon : pyfloat)
  : result HistoricalWeatherData.t :=
  DateValidator.validate_date_string date_str;;
  CoordinateValidator.validate_coordinates lat lon;;
  match strptime date_str with
  | None => Raise (ValueError "time data does not match format '%Y-%m-%d'")
  | Some end_date =>
      let start_date := minus_days end_date AppConfig.HISTORICAL_DAYS in
      let start_date_str := strftime start_date in
      let end_date_str := strftime end_date in
      data ← _fetch_data_from_api lat lon start_date_str end_date_str;
      _process_api_response data start_date_str end_date_str
  end.
End WeatherDataService.

(** ** services/prediction_service.py *)

(** A two-dimensional [np.ndarray] of floats is the list of its rows; all
    rows of an array have the same length. *)
Module np.
Definition size (a : list (list pyfloat)) : nat := length (concat a).

(** [a.shape[1]], read on an array that has a row. *)
Definition shape1 (a : list (list pyfloat)) : nat :=
  match a with
  | [] => 0
  | row :: _ => length row
  end.

(** [a[:, col].tolist()]. *)
Definition column (col : nat) (a : list (list pyfloat)) : list pyfloat :=
  omap (λ row : list pyfloat, row !! col) a.

(** [a[:, col] = values]. *)
Definition set_column (col : nat) (values : list pyfloat) (a : list (list pyfloat))
  : list (list pyfloat) :=
  zip_with (λ (row : list pyfloat) x, <[col := x]> row) a values.

(** [np.array(columns).T] for lists of floats: the rows of the transpose,
    or the [ValueError] of an inhomogeneous shape. *)
Definition array_T (columns : list (list pyfloat)) : result (list (list pyfloat)) :=
  match columns with
  | [] => Ok []
  | first :: _ =>
      if forallb (λ c : list pyfloat, length c =? length first) columns then
        Ok ((λ i, omap (λ c : list pyfloat, c !! i) columns) <$> seq 0 (length first))
      else Raise (ValueError "setting an array element with a sequence: inhomogeneous shape")
  end.

(** [a[i:j]] for [0 <= i <= j]. *)
Definition slice {A : Type} (i j : nat) (a : list A) : list A := take (j - i) (drop i a).
End np.

Module PredictionService.
Record t : Type := {
  time_step : nat;
  feature_columns : list string;
}.

(** [__init__]. *)
Definition init : t :=
  {| time_step := AppConfig.TIME_STEP; feature_columns := StationConfig.FEATURE_COLUMNS |}.

(** [np.array(interpolated)] stored into a column of floats: a [None]
    entry cannot be converted. *)
Definition as_floats (values : list (option pyfloat)) : result (list pyfloat) :=
  mapM (λ v : option pyfloat,
          match v with
          | Some x => Ok x
          | None => Raise (TypeError "float() argument must be a string or a real number")
          end) values.

(** One turn of the [for col in range(data.shape[1])] loop. *)
Definition clean_column `{Environment} (data : list (list pyfloat)) (col : nat)
  : result (list (list pyfloat)) :=
  let column_data := np.column col data in
  let interpolated := DataCleaner.interpolate_missing_values (Some <$> column_data) in
  values ← as_floats interpolated;
  mret (np.set_column col values data).

Definition _clean_nan_values `{Environment} (data : list (list pyfloat))
  : result (list (list pyfloat)) :=
  if existsb PyFloat.isnan (concat data) then
    foldl (λ acc col, data' ← acc; clean_column data' col) (Ok data) (seq 0 (np.shape1 data))
  else Ok data.

Definition _create_sequences (self : t) (data_scaled : list (list pyfloat))
  : result (list (list (list pyfloat))) :=
  if length data_scaled <? time_step self then
    Raise (ValueError ("Datos insuficientes para crear secuencias. "
                       +:+ "Se requieren al menos " +:+ pretty (time_step self) +:+ " puntos, "
                       +:+ "pero se obtuvieron " +:+ pretty (length data_scaled) +:+ "."))
  else
    Ok ((λ i, np.slice i (i + time_step self) data_scaled)
          <$> seq 0 (length data_scaled - time_step self + 1)).

(** [data_dict[feature]]. *)
Definition feature_column (data_dict : list (string * list pyfloat)) (feature : string)
  : result (list pyfloat) :=
  match assoc_get feature data_dict with
  | Some values => Ok values
  | None => Raise (OtherException feature)       (* KeyError *)
  end.

(** [preprocess_data]: the [try] block, and the [except Exception] that
    wraps whatever it raised in a [ValueError]. *)
Definition preprocess_data `{Environment} (self : t)
    (historical_data : HistoricalWeatherData.t) (scaler : Scaler)
  : result (list (list (list pyfloat))) :=
  match (let data_dict := HistoricalWeatherData.feature_items historical_data in
         columns ← mapM (feature_column data_dict) (feature_columns self);
         data ← np.array_T columns;
         if np.size data =? 0 then Raise (ValueError "No hay datos para procesar")
         else
           data ← _clean_nan_values data;
           data_scaled ← scaler_transform scaler data;
           _create_sequences self data_scaled) with
  | Ok X => Ok X
  | Raise e => Raise (ValueError ("Error en el preprocesamiento: " +:+ exn_str e))
  end.

Definition predict `{Environment} (model : Model) (X_test : list (list (list pyfloat)))
    (scaler : Scaler) : result (list (list pyfloat)) :=
  match (predictions ← model_predict model X_test;
         scaler_inverse_transform scaler predictions) with
  | Ok predictions_denorm => Ok predictions_denorm
  | Raise e => Raise (ValueError ("Error en la predicción: " +:+ exn_str e))
  end.

Definition validate_predictions (predictions : list (list pyfloat)) : bool :=
  if np.size predictions =? 0 then false
  else if existsb PyFloat.isinf (concat predictions)
          || existsb PyFloat.isnan (concat predictions) then false
  else if 3 <=? np.shape1 predictions then
    let temps := np.column 1 predictions in
    if existsb (λ temp, PyFloat.lt temp (PyFloat.of_Z (-50))) temps
       || existsb (λ temp, PyFloat.lt (PyFloat.of_Z 60) temp) temps then false
    else true
  else true.

Definition calculate_prediction_stats (predictions : list (list pyfloat))
  : result PredictionStats.t :=
  match PredictionStats.from_predictions predictions with
  | Ok stats => Ok stats
  | Raise e => Raise (ValueError ("Error calculando estadísticas: " +:+ exn_str e))
  end.
End PredictionService.

(** ** routes/prediction_routes.py *)

(** The service calls of the handler that reach outside the process or
    run the model; a run of the handler records them in order. *)
Inductive event : Type :=
| GetHistoricalData (date_str : string) (lat lon : pyfloat)
| PreprocessData
| Predict
| AnalyzePredictions.

Record traced (A : Type) : Type := Traced {
  trace : list event;
  outcome : result A;
}.
Arguments Traced {A} trace outcome.
Arguments trace {A} _.
Arguments outcome {A} _.

#[global] Instance traced_ret : MRet traced := λ A a, Traced [] (Ok a).
#[global] Instance traced_bind : MBind traced := λ A B k m,
  match outcome m with
  | Ok a => let next := k a in Traced (trace m ++ trace next) (outcome next)
  | Raise e => Traced (trace m) (Raise e)
  end.

(** A computation that records nothing, and a recorded service call. *)
Definition quiet {A : Type} (r : result A) : traced A := Traced [] r.
Definition call {A : Type} (ev : event) (r : result A) : traced A := Traced [ev] r.

Module prediction_routes.
(** [data.get(key, default)] on the request dictionary. *)
Definition data_get (data : pyval) (key : string) (default_value : pyval) : pyval :=
  match data with
  | VDict d => default default_value (assoc_get key d)
  | _ => default_value
  end.

(** [predictions.tolist()]. *)
Definition tolist (predictions : list (list pyfloat)) : pyval :=
  VList ((λ row : list pyfloat, VList (VFloat <$> row)) <$> predictions).

(** A station name as the locator returns it: a string, or [None]. *)
Definition station_value (nearest_station : option string) : pyval :=
  match nearest_station with
  | Some name => VStr name
  | None => VNone
  end.

(** The response of step 2 when the model is not available. *)
Definition unavailable `{Environment} (self : StationService.t)
    (nearest_station : option string) (distance : pyfloat) : pyval * nat :=
  let available_stations := StationService.get_available_stations self in
  (APIResponse.to_dict
     {| APIResponse.success := false;
        APIResponse.data := None;
        APIResponse.error :=
          Some ("Modelo para la estación más cercana ("
                +:+ default "None" nearest_station +:+ ") no está disponible");
        APIResponse.details :=
          Some (VDict [ ("nearest_station", station_value nearest_station);
                        ("distance", VFloat (py_round distance 6));
                        ("available_stations", VList (VStr <$> available_stations)) ]) |},
   503).

(** Steps 3 to 9, for a station whose model is available. *)
Definition serve `{Environment} (self : StationService.t) (data : pyval)
    (weather_request : WeatherDataRequest.t) (nearest_station : string) (distance : pyfloat)
  : traced (pyval * nat) :=
  let date := WeatherDataRequest.date weather_request in
  let latitude := WeatherDataRequest.latitude weather_request in
  let longitude := WeatherDataRequest.longitude weather_request in
  ms ← quiet (StationService.get_model_and_scaler self nearest_station);
  historical_data ←
    call (GetHistoricalData date latitude longitude)
         (WeatherDataService.get_historical_data date latitude longitude);
  X_test ←
    call PreprocessData
         (PredictionService.preprocess_data PredictionService.init historical_data ms.2);
  predictions ← call Predict (PredictionService.predict ms.1 X_test ms.2);
  if negb (PredictionService.validate_predictions predictions) then
    mret (APIResponse.to_dict
            {| APIResponse.success := false; APIResponse.data := None;
               APIResponse.error := Some "Las predicciones generadas no son válidas";
               APIResponse.details := None |}, 500)
  else
    analysis ←
      (if py_truthy (WeatherDataRequest.include_analysis weather_request) then
         call AnalyzePredictions (Ok (analyze_predictions predictions data))
       else mret (None, None));
    station_info ←
      quiet (StationService.get_station_info self nearest_station latitude longitude);
    let response_data :=
      [ ("predictions", tolist predictions);
        ("model_info",
         VDict [ ("selected_station", VStr nearest_station);
                 ("station_coordinates",
                  VDict [ ("lat", VFloat (StationInfo.latitude station_info));
                          ("lon", VFloat (StationInfo.longitude station_info)) ]);
                 ("distance_to_station", VFloat (py_round distance 6));
                 ("distance_unit", VStr "grados (lat/lon)") ]);
        ("historical_data", HistoricalWeatherData.to_dict historical_data);
        ("total_predictions", VInt (Z.of_nat (length predictions)));
        ("input_coordinates",
         VDict [ ("latitude", VFloat latitude); ("longitude", VFloat longitude) ]);
        ("requested_date", VStr date);
        ("analysis_included", VBool (bool_decide (is_Some analysis.1))) ] in
    let response_data :=
      match analysis with
      | (Some a, analysis_error) =>
          if py_truthy a then dict_set "agricultural_analysis" a response_data
          else match analysis_error with
               | Some msg =>
                   if negb (String.eqb msg "")
                   then dict_set "analysis_error" (VStr msg) response_data
                   else response_data
               | None => response_data
               end
      | (None, Some msg) =>
          if negb (String.eqb msg "") then dict_set "analysis_error" (VStr msg) response_data
          else response_data
      | (None, None) => response_data
      end in
    mret (APIResponse.to_dict
            {| APIResponse.success := true; APIResponse.data := Some response_data;
               APIResponse.error := None; APIResponse.details := None |}, 200).

(** The [try] block of [predict]. *)
Definition predict_body `{Environment} (self : StationService.t) (data : pyval)
  : traced (pyval * nat) :=
  quiet (RequestValidator.validate_json_data data);;
  quiet (RequestValidator.validate_required_fields data ["date"; "latitude"; "longitude"]);;
  date ← quiet (py_getitem data "date");
  latitude ← quiet (py_getitem data "latitude" ≫= py_float);
  longitude ← quiet (py_getitem data "longitude" ≫= py_float);
  weather_request ←
    quiet (WeatherDataRequest.init date latitude longitude
             (data_get data "include_analysis" (VBool true))
             (data_get data "analysis_types" VNone));
  let found :=
    StationService.find_nearest_station
      (WeatherDataRequest.latitude weather_request)
      (WeatherDataRequest.longitude weather_request) in
  match found.1 with
  | Some nearest_station =>
      if negb (StationService.is_model_available self nearest_station) then
        mret (unavailable self found.1 found.2)
      else serve self data weather_request nearest_station found.2
  | None => mret (unavailable self found.1 found.2)
  end.

(** [predict]: the [try] block with its two handlers.  The result is the
    JSON body and the HTTP status, with the record of the service calls
    made on the way. *)
Definition predict `{Environment} (self : StationService.t) (data : pyval)
  : list event * (pyval * nat) :=
  let run := predict_body self data in
  match outcome run with
  | Ok response => (trace run, response)
  | Raise e =>
      let failure :=
        APIResponse.to_dict
          {| APIResponse.success := false; APIResponse.data := None;
             APIResponse.error := Some (exn_str e); APIResponse.details := None |} in
      if is_ValidationError e then (trace run, (failure, 400))
      else (trace run, (failure, 500))
  end.
End prediction_routes.

(** ** routes/station_routes.py *)

Module station_routes.
(** A pair of coordinates as a JSON object. *)
Definition coordinates_value (coords : Coordinates) : pyval :=
  VDict [("lat", VFloat (lat coords)); ("lon", VFloat (lon coords))].

(** The [try] block of [get_stations_info]; a dictionary comprehension
    assigns its keys in order. *)
Definition get_stations_info_body `{Environment} (self : StationService.t) : result pyval :=
  let summary := StationService.get_stations_summary self in
  available ←
    foldl (λ acc station,
             entries ← acc;
             info ← StationService.get_station_info self station (Fin 0) (Fin 0);
             mret (dict_set station (StationInfo.to_dict info) entries))
          (Ok []) (StationsSummary.available_stations summary);
  unavailable ←
    foldl (λ acc station,
             entries ← acc;
             match assoc_get station (StationsSummary.coordinates summary) with
             | Some coords =>
                 mret (dict_set station
                         (VDict [("name", VStr station);
                                 ("coordinates", coordinates_value coords)]) entries)
             | None => Raise (OtherException station)        (* KeyError *)
             end)
          (Ok []) (StationsSummary.failed_stations_list summary);
  mret (APIResponse.to_dict
          {| APIResponse.success := true;
             APIResponse.data :=
               Some [ ("available_stations", VDict available);
                      ("unavailable_stations", VDict unavailable);
                      ("total_stations",
                       VInt (Z.of_nat (StationsSummary.total_stations summary)));
                      ("models_loaded",
                       VInt (Z.of_nat (StationsSummary.loaded_stations summary))) ];
             APIResponse.error := None;
             APIResponse.details := None |}).

Definition get_stations_info `{Environment} (self : StationService.t) : pyval * nat :=
  match get_stations_info_body self with
  | Ok body => (body, 200)
  | Raise e =>
      (APIResponse.to_dict
         {| APIResponse.success := false; APIResponse.data := None;
            APIResponse.error := Some (exn_str e); APIResponse.details := None |}, 500)
  end.

(** [all_stations_info[nearest_station]], where the key may be [None]. *)
Definition station_info_of (all_stations_info : list (string * StationInfo.t))
    (nearest_station : option string) : result StationInfo.t :=
  match nearest_station with
  | Some name =>
      match assoc_get name all_stations_info with
      | Some info => Ok info
      | None => Raise (OtherException name)                  (* KeyError *)
      end
  | None => Raise (OtherException "None")                    (* KeyError *)
  end.

(** The [try] block of [get_nearest_station]. *)
Definition get_nearest_station_body `{Environment} (self : StationService.t) (data : pyval)
  : result pyval :=
  RequestValidator.validate_json_data data;;
  RequestValidator.validate_required_fields data ["latitude"; "longitude"];;
  latitude ← py_getitem data "latitude" ≫= py_float;
  longitude ← py_getitem data "longitude" ≫= py_float;
  CoordinateValidator.validate_coordinates latitude longitude;;
  let found := StationService.find_nearest_station latitude longitude in
  let all_stations_info := StationService.get_all_stations_info self latitude longitude in
  nearest_info ← station_info_of all_stations_info found.1;
  mret (APIResponse.to_dict
          {| APIResponse.success := true;
             APIResponse.data :=
               Some [ ("input_coordinates",
                       VDict [("latitude", VFloat latitude); ("longitude", VFloat longitude)]);
                      ("nearest_station", StationInfo.to_dict nearest_info);
                      ("all_stations",
                       VDict ((λ kv, (kv.1, StationInfo.to_dict kv.2)) <$> all_stations_info));
                      ("distance_unit", VStr "grados (lat/lon)") ];
             APIResponse.error := None;
             APIResponse.details := None |}).

Definition get_nearest_station `{Environment} (self : StationService.t) (data : pyval)
  : pyval * nat :=
  match get_nearest_station_body self data with
  | Ok body => (body, 200)
  | Raise e =>
      let failure :=
        APIResponse.to_dict
          {| APIResponse.success := false; APIResponse.data := None;
             APIResponse.error := Some (exn_str e); APIResponse.details := None |} in
      if is_ValidationError e then (failure, 400) else (failure, 500)
  end.
End station_routes.

(** ** routes/weather_routes.py *)

Module weather_routes.
(** The [try] block of [get_weather_data]. *)
Definition get_weather_data_body `{Environment} (data : pyval) : result pyval :=
  RequestValidator.validate_json_data data;;
  RequestValidator.validate_required_fields data ["date"; "latitude"; "longitude"];;
  date ← py_getitem data "date";
  latitude ← py_getitem data "latitude" ≫= py_float;
  longitude ← py_getitem data "longitude" ≫= py_float;
  weather_request ← WeatherDataRequest.init date latitude longitude (VBool true) VNone;
  historical_data ←
    WeatherDataService.get_historical_data
      (WeatherDataRequest.date weather_request)
      (WeatherDataRequest.latitude weather_request)
      (WeatherDataRequest.longitude weather_request);
  mret (APIResponse.to_dict
          {| APIResponse.success := true;
             APIResponse.data :=
               Some [ ("data", HistoricalWeatherData.to_dict historical_data);
                      ("total_records",
                       VInt (Z.of_nat (length (HistoricalWeatherData.temperatures
                                                 historical_data))));
                      ("coordinates",
                       VDict [ ("latitude", VFloat (WeatherDataRequest.latitude weather_request));
                               ("longitude",
                                VFloat (WeatherDataRequest.longitude weather_request)) ]);
                      ("requested_date", VStr (WeatherDataRequest.date weather_request)) ];
             APIResponse.error := None;
             APIResponse.details := None |}).

Definition get_weather_data `{Environment} (data : pyval) : pyval * nat :=
  match get_weather_data_body data with
  | Ok body => (body, 200)
  | Raise e =>
      let failure :=
        APIResponse.to_dict
          {| APIResponse.success := false; APIResponse.data := None;
             APIResponse.error := Some (exn_str e); APIResponse.details := None |} in
      if is_ValidationError e then (failure, 400) else (failure, 500)
  end.
End weather_routes.

(** ** A sample environment

    A concrete world to run the embedding in: the artifacts that exist on
    disk are listed, every artifact loads, the scaler is the identity and
    the model repeats the last row of each window, every ten-character
    string is a date, and the archive API answers [response]. *)

Definition sample_env (artifacts : list string) (response : result pyval) : Environment :=
  {| Model := ();
     Scaler := ();
     path_exists := λ path, bool_decide (path ∈ artifacts);
     keras_load_model := λ _, Ok ();
     joblib_load := λ _, Ok ();
     model_predict := λ _ X, Ok ((λ window : list (list pyfloat), default [] (last window)) <$> X);
     scaler_transform := λ _ a, Ok a;
     scaler_inverse_transform := λ _ a, Ok a;
     Date := string;
     strptime := λ s, if String.length s =? 10 then Some s else None;
     minus_days := λ d _, d;
     strftime := λ d, d;
     float_of_string := λ _, None;
     str_of_float := λ _, "?";
     py_round := λ x _, x;
     round_int := PyFloat.of_Z;
     float_add := PyFloat.add;
     float_sub := PyFloat.sub;
     float_mul := PyFloat.mul;
     float_truediv := PyFloat.div;
     requests_get_json := λ _ _ _ _, response;
     analyze_predictions := λ _ _, (None, Some "Servicio de análisis no disponible") |}.

(** ** Vocabulary of the properties *)

(** The locator's distance from a query point to a configured station. *)
Definition station_distance (target_lat target_lon : pyfloat) (coords : Coordinates) : pyfloat :=
  GeographicCalculator.calculate_euclidean_distance
    target_lat target_lon (lat coords) (lon coords).

(** The same distance as a real number, for a station at finite
    coordinates. *)
Definition real_distance (target_lat target_lon : R) (coords : Coordinates) : R :=
  match lat coords, lon coords with
  | Fin a, Fin b =>
      R_sqrt.sqrt ((target_lat - a) * (target_lat - a) + (target_lon - b) * (target_lon - b))
  | _, _ => 0
  end.

Definition finite_coordinates (coords : Coordinates) : Prop :=
  ∃ a b, coords = {| lat := Fin a; lon := Fin b |}.

(** The distances the locator computes for a query: each station, in
    iteration order, with what [calculate_euclidean_distance] returns for
    it. *)
Definition computed_distances (stations : list (string * Coordinates))
    (target_lat target_lon : pyfloat) : list (string * pyfloat) :=
  (λ item, (item.1, station_distance target_lat target_lon item.2)) <$> stations.

(** The loop of the locator on distances that have been computed: the
    turns of [find_nearest_station], each reading its distance from the
    table. *)
Definition nearest_among (computed : list (string * pyfloat)) : option string * pyfloat :=
  foldl (λ acc entry, StationService.nearest_update acc entry.1 entry.2) (None, PInf) computed.



(** Both artifacts of a station load. *)
Definition artifacts_load `{Environment} (station_name : string) : bool :=
  match StationService._load_lstm_model station_name,
        StationService._load_scaler station_name with
  | Ok _, Ok _ => true
  | _, _ => false
  end.

(** Index [i] of a column holds a valid entry: a float that is not NaN. *)
Definition valid_at (data : list (option pyfloat)) (i : nat) : Prop :=
  ∃ y, data !! i = Some (Some y) ∧ PyFloat.isnan y = false.

(** [p] is the nearest valid index before [i]; [n] the nearest after. *)
Definition nearest_before (data : list (option pyfloat)) (i p : nat) : Prop :=
  p < i ∧ valid_at data p ∧ ∀ k, p < k < i → ¬ valid_at data k.

Definition nearest_after (data : list (option pyfloat)) (i n : nat) : Prop :=
  i < n ∧ valid_at data n ∧ ∀ k, i < k < n → ¬ valid_at data k.

(** The interpreter's arithmetic is exact on integers of small
    magnitude, as binary64 arithmetic is: the sum, the difference and the
    product of two integers below 2^53 in magnitude are computed without
    rounding when they are below 2^53 themselves, and so is their quotient
    when it is an integer. *)
Definition integer_arithmetic_exact `{Environment} : Prop :=
  ∀ a b : Z,
    (Z.abs a < 2 ^ 53)%Z → (Z.abs b < 2 ^ 53)%Z →
    ((Z.abs (a + b) < 2 ^ 53)%Z →
     float_add (PyFloat.of_Z a) (PyFloat.of_Z b) = PyFloat.of_Z (a + b))
    ∧ ((Z.abs (a - b) < 2 ^ 53)%Z →
       float_sub (PyFloat.of_Z a) (PyFloat.of_Z b) = PyFloat.of_Z (a - b))
    ∧ ((Z.abs (a * b) < 2 ^ 53)%Z →
       float_mul (PyFloat.of_Z a) (PyFloat.of_Z b) = PyFloat.of_Z (a * b))
    ∧ (b ≠ 0%Z → (b | a)%Z →
       float_truediv (PyFloat.of_Z a) (PyFloat.of_Z b) = PyFloat.of_Z (a / b)).

(** An API response lacks the hourly block, or its hourly block lacks one
    of the required series. *)
Definition lacks_required (data : pyval) : Prop :=
  ∃ d, data = VDict d
       ∧ (assoc_get "hourly" d = None
          ∨ ∃ h key, assoc_get "hourly" d = Some (VDict h)
                     ∧ key ∈ WeatherDataService.required_keys
                     ∧ assoc_get key h = None).

(** A value on which a membership test raises [TypeError]: JSON's null,
    booleans and numbers. *)
Definition not_container (v : pyval) : Prop :=
  match v with
  | VNone | VBool _ | VInt _ | VFloat _ => True
  | VStr _ | VList _ | VDict _ => False
  end.

(** An API response that is no container, or a JSON object whose hourly
    entry is none. *)
Definition unreadable_block (data : pyval) : Prop :=
  not_container data
  ∨ ∃ d hourly, data = VDict d
                ∧ assoc_get "hourly" d = Some hourly
                ∧ not_container hourly.

(** The entries of a series of the response, as the fetcher reads them. *)
Definition raw_series (data : pyval) (key : string) : result (list pyval) :=
  hourly_data ← py_getitem data "hourly";
  series ← py_getitem hourly_data key;
  py_iter series.

(** A response whose temperature and humidity series have two entries and
    whose precipitation series has one. *)
Definition ragged_response : pyval :=
  VDict [ ("hourly",
           VDict [ ("time", VList [VStr "2024-05-02T00:00"; VStr "2024-05-02T01:00"]);
                   ("temperature_2m", VList [VFloat (Fin 10); VFloat (Fin 11)]);
                   ("precipitation", VList [VFloat (Fin 0)]);
                   ("relative_humidity_2m", VList [VFloat (Fin 80); VFloat (Fin 81)]) ]) ].

(** A response without a precipitation series. *)
Definition partial_response : pyval :=
  VDict [ ("hourly",
           VDict [ ("time", VList [VStr "2024-05-02T00:00"]);
                   ("temperature_2m", VList [VFloat (Fin 10)]);
                   ("relative_humidity_2m", VList [VFloat (Fin 80)]) ]) ].

(** The consequence C3 draws, as the specification words it: the three
    feature series of every [HistoricalWeatherData] the fetcher builds have
    the same length. *)
Definition series_lengths_checked_as_stated : Prop :=
  ∀ (env : Environment) (date_str : string) (lat lon : pyfloat) (h : HistoricalWeatherData.t),
    @WeatherDataService.get_historical_data env date_str lat lon = Ok h →
    length (HistoricalWeatherData.temperatures h) = length (HistoricalWeatherData.precipitations h)
    ∧ length (HistoricalWeatherData.precipitations h) = length (HistoricalWeatherData.humidity h).

(** The rows the preprocessor hands to the scaler when the three series
    have one length: for each hour, precipitation, temperature, humidity. *)
Definition feature_rows (h : HistoricalWeatherData.t) : list (list pyfloat) :=
  zip_with (λ p rest, p :: rest) (HistoricalWeatherData.precipitations h)
    (zip_with (λ t u, [t; u]) (HistoricalWeatherData.temperatures h)
                              (HistoricalWeatherData.humidity h)).

(** A response of a route: a JSON object whose [success] entry tells
    whether the status is 200. *)
Definition well_formed_response (response : pyval * nat) : Prop :=
  ∃ fields, response.1 = VDict fields
            ∧ assoc_get "success" fields = Some (VBool (response.2 =? 200)).

(** The service calls of a complete run of [/predict], in order. *)
Definition full_trace (date_str : string) (latitude longitude : pyfloat) : list event :=
  [GetHistoricalData date_str latitude longitude; PreprocessData; Predict; AnalyzePredictions].

(** [lo] and [hi] are entries of [values] that bound every entry. *)
Definition extremes (values : list pyfloat) (lo hi : pyfloat) : Prop :=
  lo ∈ values ∧ hi ∈ values
  ∧ ∀ x, x ∈ values → PyFloat.le lo x = true ∧ PyFloat.le x hi = true.

(** The keys of the two listings of [/stations], when the body has them. *)
Definition listed_stations (body : pyval) (key : string) : option (list string) :=
  match body with
  | VDict fields =>
      match assoc_get key fields with
      | Some (VDict entries) => Some entries.*1
      | _ => None
      end
  | _ => None
  end.

(** * Properties *)

(** ** Floats *)

Lemma Rltb_true a b : Rltb a b = true ↔ (a < b)%R.
Proof. unfold Rltb. destruct (Rlt_dec a b); split; (done || lra || congruence). Qed.

Lemma Rltb_false a b : Rltb a b = false ↔ (b <= a)%R.
Proof. unfold Rltb. destruct (Rlt_dec a b); split; (done || lra || congruence). Qed.

Lemma Rleb_true a b : Rleb a b = true ↔ (a <= b)%R.
Proof. unfold Rleb. destruct (Rle_dec a b); split; (done || lra || congruence). Qed.

Lemma Rleb_false a b : Rleb a b = false ↔ (b < a)%R.
Proof. unfold Rleb. destruct (Rle_dec a b); split; (done || lra || congruence). Qed.

(** The argument of [math.sqrt] in the locator is never negative, so the
    call cannot raise. *)
Lemma sum_squares_domain (x y : R) : (0 <= x * x + y * y)%R.
Proof. nra. Qed.

Lemma station_distance_finite (target_lat target_lon : R) (coords : Coordinates) :
  finite_coordinates coords →
  station_distance (Fin target_lat) (Fin target_lon) coords
    = Fin (real_distance target_lat target_lon coords).
Proof.
  intros (a & b & ->). unfold station_distance, real_distance.
  unfold GeographicCalculator.calculate_euclidean_distance. reflexivity.
Qed.

Lemma real_distance_nonneg (target_lat target_lon : R) (coords : Coordinates) :
  (0 <= real_distance target_lat target_lon coords)%R.
Proof.
  unfold real_distance. destruct (lat coords), (lon coords); try lra.
  apply sqrt_pos.
Qed.

Lemma real_distance_zero (target_lat target_lon : R) (coords : Coordinates) :
  finite_coordinates coords →
  real_distance target_lat target_lon coords = 0%R
  ↔ coords = {| lat := Fin target_lat; lon := Fin target_lon |}.
Proof.
  intros (a & b & ->). unfold real_distance. simpl. split.
  - intros Hz. apply sqrt_eq_0 in Hz; [| apply sum_squares_domain].
    destruct (Rplus_sqr_eq_0 (target_lat - a) (target_lon - b)) as [Ha Hb];
      [exact Hz |].
    assert (target_lat = a) by lra. assert (target_lon = b) by lra. by subst.
  - intros [= -> ->]. rewrite <- sqrt_0. f_equal. lra.
Qed.

(** ** The locator *)

Section Locator.
Variables target_lat target_lon : R.

#[local] Abbreviation step := (StationService.nearest_step (Fin target_lat) (Fin target_lon)).
#[local] Abbreviation rd := (real_distance target_lat target_lon).

Lemma nearest_step_finite (acc : option string * pyfloat) (item : string * Coordinates) :
  finite_coordinates item.2 →
  step acc item
  = if PyFloat.lt (Fin (rd item.2)) acc.2 then (Some item.1, Fin (rd item.2)) else acc.
Proof.
  intros Hfin. unfold StationService.nearest_step.
  fold (station_distance (Fin target_lat) (Fin target_lon) item.2).
  by rewrite station_distance_finite.
Qed.

(** The loop answers the first station, in iteration order, among those
    at the least distance. *)
Lemma nearest_fold (stations : list (string * Coordinates)) :
  Forall (λ item, finite_coordinates item.2) stations →
  stations ≠ [] →
  ∃ i name c,
    stations !! i = Some (name, c)
    ∧ foldl step (None, PInf) stations = (Some name, Fin (rd c))
    ∧ (∀ j item, stations !! j = Some item → (rd c <= rd item.2)%R)
    ∧ (∀ j item, j < i → stations !! j = Some item → (rd c < rd item.2)%R).
Proof.
  induction stations as [| x l IH] using rev_ind; [done |].
  intros Hall _. apply Forall_app in Hall as [Hl Hx].
  apply Forall_inv in Hx. simpl in Hx. rewrite foldl_snoc.
  rewrite (nearest_step_finite _ x Hx).
  destruct l as [| y l'].
  - exists 0, x.1, x.2. simpl. destruct x as [n c]. repeat split; simpl.
    + intros [| j] item; simpl; [intros [= <-]; simpl; lra | done].
    + intros j item Hj. lia.
  - destruct IH as (i & name & c & Hi & -> & Hle & Hlt); [done | done |].
    cbn [snd]. unfold PyFloat.lt.
    destruct (Rltb (rd x.2) (rd c)) eqn:Hcmp.
    + apply Rltb_true in Hcmp. exists (length (y :: l')), x.1, x.2.
      destruct x as [n cx]. cbn [fst snd] in *. repeat split.
      * by rewrite lookup_app_r, Nat.sub_diag by lia.
      * intros j item Hj. apply lookup_snoc_Some in Hj as [[_ Hj] | [_ <-]].
        -- specialize (Hle _ _ Hj). lra.
        -- simpl. lra.
      * intros j item Hj1 Hj. rewrite lookup_app_l in Hj by done.
        specialize (Hle _ _ Hj). lra.
    + apply Rltb_false in Hcmp. exists i, name, c. repeat split.
      * rewrite lookup_app_l; [done |]. by eapply lookup_lt_Some.
      * intros j item Hj. apply lookup_snoc_Some in Hj as [[_ Hj] | [_ <-]].
        -- by eapply Hle.
        -- done.
      * intros j item Hj1 Hj. apply lookup_snoc_Some in Hj as [[_ Hj] | [-> <-]].
        -- by eapply Hlt.
        -- apply lookup_lt_Some in Hi. lia.
Qed.

(** That station is determined by the distances alone. *)
Lemma nearest_fold_first (stations : list (string * Coordinates)) i name c :
  Forall (λ item, finite_coordinates item.2) stations →
  stations !! i = Some (name, c) →
  (∀ j item, stations !! j = Some item → (rd c <= rd item.2)%R) →
  (∀ j item, j < i → stations !! j = Some item → (rd c < rd item.2)%R) →
  foldl step (None, PInf) stations = (Some name, Fin (rd c)).
Proof.
  intros Hall Hi Hle Hlt.
  destruct (nearest_fold stations Hall) as (i' & name' & c' & Hi' & -> & Hle' & Hlt').
  { intros ->. done. }
  destruct (Nat.lt_total i i') as [Hlt_i | [-> | Hlt_i]].
  - specialize (Hlt' _ _ Hlt_i Hi). specialize (Hle _ _ Hi'). simpl in *. lra.
  - rewrite Hi in Hi'. by injection Hi' as -> ->.
  - specialize (Hlt _ _ Hlt_i Hi'). specialize (Hle' _ _ Hi). simpl in *. lra.
Qed.
End Locator.

Lemma configured_stations_finite :
  Forall (λ item : string * Coordinates, finite_coordinates item.2)
         StationConfig.STATIONS_COORDINATES.
Proof. unfold StationConfig.STATIONS_COORDINATES. repeat constructor; simpl; by eexists _, _. Qed.

(** Comparison of two concrete distances: both are square roots of sums
    of squares of decimal constants. *)
Ltac compare_distances :=
  unfold real_distance; simpl;
  first [ apply sqrt_le_1_alt; lra
        | apply sqrt_lt_1_alt; split; [apply sum_squares_domain | lra] ].

Ltac each_station_rec j Hj :=
  destruct j as [| j]; simpl in Hj;
  [ injection Hj as <-; try lia
  | first [ discriminate Hj | each_station_rec j Hj ] ].

Ltac each_station j Hj :=
  unfold StationConfig.STATIONS_COORDINATES in Hj; each_station_rec j Hj.

(** C7. For every query coordinate the locator answers a configured
    station with a distance that is not negative, and the distance is 0
    exactly when the query is the position of a configured station. *)
Theorem find_nearest_station_sound (target_lat target_lon : R) :
  ∃ name d,
    StationService.find_nearest_station (Fin target_lat) (Fin target_lon) = (Some name, Fin d)
    ∧ name ∈ StationConfig.get_station_names
    ∧ (0 <= d)%R
    ∧ (d = 0%R ↔
       ∃ name', (name', {| lat := Fin target_lat; lon := Fin target_lon |})
                  ∈ StationConfig.STATIONS_COORDINATES).
Proof.
  destruct (nearest_fold target_lat target_lon StationConfig.STATIONS_COORDINATES
              configured_stations_finite)
    as (i & name & c & Hi & Hfold & Hle & _); [done |].
  exists name, (real_distance target_lat target_lon c). repeat split.
  - exact Hfold.
  - unfold StationConfig.get_station_names. apply list_elem_of_fmap.
    exists (name, c). split; [done |]. by eapply list_elem_of_lookup_2.
  - apply real_distance_nonneg.
  - intros Hz. exists name. apply real_distance_zero in Hz as <-.
    + by eapply list_elem_of_lookup_2.
    + pose proof configured_stations_finite as Hall.
      rewrite Forall_forall in Hall. apply (Hall (name, c)).
      by eapply list_elem_of_lookup_2.
  - intros [name' Hin]. apply list_elem_of_lookup_1 in Hin as [j Hj].
    specialize (Hle _ _ Hj). simpl in Hle.
    assert (real_distance target_lat target_lon
              {| lat := Fin target_lat; lon := Fin target_lon |} = 0%R) as Hz.
    { apply real_distance_zero; [by eexists _, _ | done]. }
    pose proof (real_distance_nonneg target_lat target_lon c). lra.
Qed.

(** *** The loop on computed distances *)

Lemma pyfloat_lt_irrefl (x : pyfloat) : PyFloat.lt x x = false.
Proof. destruct x as [r | | |]; simpl; [| done..]. apply Rltb_false. lra. Qed.

Lemma pyfloat_lt_trans (x y z : pyfloat) :
  PyFloat.lt x y = true → PyFloat.lt y z = true → PyFloat.lt x z = true.
Proof.
  destruct x as [a | | |], y as [b | | |], z as [c | | |]; simpl; try done.
  rewrite !Rltb_true. lra.
Qed.


(** The locator's loop is the loop on the distances it computes. *)
Lemma find_nearest_station_computed (stations : list (string * Coordinates))
    (target_lat target_lon : pyfloat) :
  StationService.find_nearest_station_in stations target_lat target_lon
  = nearest_among (computed_distances stations target_lat target_lon).
Proof.
  unfold StationService.find_nearest_station_in, nearest_among, computed_distances.
  generalize (@None string, PInf) as acc.
  induction stations as [| item rest IH]; intros acc; [done |].
  simpl. by rewrite IH.
Qed.



(** The answer of the loop: a station of the table at its distance there,
    with no distance of the table strictly below; or no station at all when
    no distance is below infinity. *)
Lemma nearest_among_least (computed : list (string * pyfloat)) :
  (nearest_among computed = (None, PInf)
   ∧ ∀ entry, entry ∈ computed → PyFloat.lt entry.2 PInf = false)
  ∨ (∃ name d,
       (name, d) ∈ computed
       ∧ nearest_among computed = (Some name, d)
       ∧ PyFloat.lt d PInf = true
       ∧ ∀ entry, entry ∈ computed → PyFloat.lt entry.2 d = false).
Proof.
  unfold nearest_among.
  induction computed as [| entry computed IH] using rev_ind.
  - left. split; [done |]. intros entry Hentry. by apply elem_of_nil in Hentry.
  - rewrite foldl_snoc.
    destruct IH as [[-> Hnone] | (name & d & Hin & -> & Hd & Hleast)];
      unfold StationService.nearest_update; cbn [snd].
    + destruct (PyFloat.lt entry.2 PInf) eqn:Hcmp.
      * right. exists entry.1, entry.2. split; [| split; [done | split; [done |]]].
        { apply elem_of_app. right. destruct entry. by left. }
        intros e [He | ->%list_elem_of_singleton]%elem_of_app.
        -- destruct (PyFloat.lt e.2 entry.2) eqn:Hlt; [| done].
           specialize (Hnone e He).
           by rewrite (pyfloat_lt_trans _ _ _ Hlt Hcmp) in Hnone.
        -- apply pyfloat_lt_irrefl.
      * left. split; [done |].
        intros e [He | ->%list_elem_of_singleton]%elem_of_app; [by apply Hnone | done].
    + right. destruct (PyFloat.lt entry.2 d) eqn:Hcmp.
      * exists entry.1, entry.2. split; [| split; [done | split]].
        { apply elem_of_app. right. destruct entry. by left. }
        { by apply (pyfloat_lt_trans _ d). }
        intros e [He | ->%list_elem_of_singleton]%elem_of_app.
        -- destruct (PyFloat.lt e.2 entry.2) eqn:Hlt; [| done].
           specialize (Hleast e He). by rewrite (pyfloat_lt_trans _ _ _ Hlt Hcmp) in Hleast.
        -- apply pyfloat_lt_irrefl.
      * exists name, d. split; [| split; [done | split; [done |]]].
        { apply elem_of_app. by left. }
        intros e [He | ->%list_elem_of_singleton]%elem_of_app; [by apply Hleast | done].
Qed.





(** ** The station model registry *)

Section Registry.
Context `{Environment}.

Lemma load_station_loaded (self : StationService.t) (station_name : string) :
  artifacts_load station_name = true →
  ∃ model scaler,
    StationService.load_station self station_name
    = {| StationService.models := <[station_name := model]> (StationService.models self);
         StationService.scalers := <[station_name := scaler]> (StationService.scalers self);
         StationService.loaded_stations :=
           StationService.loaded_stations self ++ [station_name];
         StationService.failed_stations := StationService.failed_stations self |}.
Proof.
  unfold artifacts_load, StationService.load_station. intros Hok.
  destruct (StationService._load_lstm_model station_name) as [model |]; [| done].
  destruct (StationService._load_scaler station_name) as [scaler |]; [| done].
  by exists model, scaler.
Qed.

Lemma load_station_failed (self : StationService.t) (station_name : string) :
  artifacts_load station_name = false →
  StationService.load_station self station_name
  = {| StationService.models := StationService.models self;
       StationService.scalers := StationService.scalers self;
       StationService.loaded_stations := StationService.loaded_stations self;
       StationService.failed_stations :=
         StationService.failed_stations self ++ [station_name] |}.
Proof.
  unfold artifacts_load, StationService.load_station. intros Hko.
  destruct (StationService._load_lstm_model station_name) as [model |]; [| done].
  destruct (StationService._load_scaler station_name) as [scaler |]; done.
Qed.

(** The state after the loop has gone through [names], from a fresh
    service. *)
Lemma load_loop_invariant (names : list string) :
  let self := foldl StationService.load_station StationService.init names in
  StationService.loaded_stations self = filter (λ s, artifacts_load s) names
  ∧ StationService.failed_stations self = filter (λ s, ¬ artifacts_load s) names
  ∧ (∀ s, is_Some (StationService.models self !! s) ↔ s ∈ StationService.loaded_stations self)
  ∧ (∀ s, is_Some (StationService.scalers self !! s) ↔ s ∈ StationService.loaded_stations self).
Proof.
  induction names as [| x l IH] using rev_ind.
  - simpl. repeat split; try done.
    + intros [? Hs]. by rewrite lookup_empty in Hs.
    + intros Hs. by apply elem_of_nil in Hs.
    + intros [? Hs]. by rewrite lookup_empty in Hs.
    + intros Hs. by apply elem_of_nil in Hs.
  - simpl in *. rewrite foldl_snoc, !filter_app.
    destruct IH as (Hloaded & Hfailed & Hmodels & Hscalers).
    destruct (artifacts_load x) eqn:Hx.
    + destruct (load_station_loaded (foldl StationService.load_station StationService.init l)
                  x Hx) as (model & scaler & ->). simpl.
      rewrite Hloaded, Hfailed.
      rewrite (filter_cons_True (λ s, artifacts_load s) x []) by (rewrite Hx; simpl; tauto).
      rewrite (filter_cons_False (λ s, ¬ artifacts_load s) x []) by (rewrite Hx; simpl; tauto).
      rewrite !filter_nil, app_nil_r. repeat split; try done.
      * intros Hs. apply elem_of_app. destruct (decide (x = s)) as [-> | Hne].
        -- right. by apply list_elem_of_singleton.
        -- left. rewrite lookup_insert_ne in Hs by done. rewrite <- Hloaded. by apply Hmodels.
      * intros [Hs | Hs%list_elem_of_singleton]%elem_of_app.
        -- destruct (decide (x = s)) as [-> | Hne]; [by rewrite lookup_insert_eq |].
           rewrite lookup_insert_ne by done. apply Hmodels. by rewrite Hloaded.
        -- subst. by rewrite lookup_insert_eq.
      * intros Hs. apply elem_of_app. destruct (decide (x = s)) as [-> | Hne].
        -- right. by apply list_elem_of_singleton.
        -- left. rewrite lookup_insert_ne in Hs by done. rewrite <- Hloaded. by apply Hscalers.
      * intros [Hs | Hs%list_elem_of_singleton]%elem_of_app.
        -- destruct (decide (x = s)) as [-> | Hne]; [by rewrite lookup_insert_eq |].
           rewrite lookup_insert_ne by done. apply Hscalers. by rewrite Hloaded.
        -- subst. by rewrite lookup_insert_eq.
    + rewrite (load_station_failed _ x Hx). simpl.
      rewrite Hloaded, Hfailed.
      rewrite (filter_cons_False (λ s, artifacts_load s) x []) by (rewrite Hx; simpl; tauto).
      rewrite (filter_cons_True (λ s, ¬ artifacts_load s) x []) by (rewrite Hx; simpl; tauto).
      rewrite !filter_nil, app_nil_r. repeat split; try done.
      * intros Hs. rewrite <- Hloaded. by apply Hmodels.
      * intros Hs. apply Hmodels. by rewrite Hloaded.
      * intros Hs. rewrite <- Hloaded. by apply Hscalers.
      * intros Hs. apply Hscalers. by rewrite Hloaded.
Qed.
End Registry.

Lemma station_names_NoDup : NoDup StationConfig.get_station_names.
Proof. apply (bool_decide_unpack _). by vm_compute. Qed.

(** C10. After [load_all_models] on a fresh service every configured
    station is in exactly one of the loaded and the failed list, the two
    lists hold configured stations only, each once; a failed station has
    an entry in neither dictionary; and [is_model_available] holds exactly
    of the stations of the loaded list. *)
Theorem load_all_models_partition `{Environment} :
  let self := StationService.load_all_models StationService.init in
  (∀ s, s ∈ StationConfig.get_station_names →
        (s ∈ StationService.loaded_stations self ∧ s ∉ StationService.failed_stations self)
        ∨ (s ∈ StationService.failed_stations self ∧ s ∉ StationService.loaded_stations self))
  ∧ NoDup (StationService.loaded_stations self ++ StationService.failed_stations self)
  ∧ (∀ s, s ∈ StationService.loaded_stations self ++ StationService.failed_stations self →
          s ∈ StationConfig.get_station_names)
  ∧ (∀ s, s ∈ StationService.failed_stations self →
          StationService.models self !! s = None ∧ StationService.scalers self !! s = None)
  ∧ (∀ s, StationService.is_model_available self s = true
          ↔ s ∈ StationService.loaded_stations self).
Proof.
  pose proof (load_loop_invariant StationConfig.get_station_names) as Hinv.
  cbv zeta in Hinv. fold (StationService.load_all_models StationService.init) in Hinv.
  intros self. fold self in Hinv.
  destruct Hinv as (Hloaded & Hfailed & Hmodels & Hscalers).
  assert (∀ s, s ∈ StationService.failed_stations self →
               s ∉ StationService.loaded_stations self) as Hdisjoint.
  { intros s. rewrite Hloaded, Hfailed, !list_elem_of_filter. tauto. }
  repeat split.
  - intros s Hs. rewrite Hloaded, Hfailed, !list_elem_of_filter.
    destruct (artifacts_load s); simpl; tauto.
  - apply NoDup_app. rewrite Hloaded, Hfailed. repeat split.
    + apply NoDup_filter, station_names_NoDup.
    + intros s. rewrite !list_elem_of_filter. tauto.
    + apply NoDup_filter, station_names_NoDup.
  - intros s. rewrite elem_of_app, Hloaded, Hfailed, !list_elem_of_filter. tauto.
  - apply eq_None_not_Some. rewrite Hmodels. by apply Hdisjoint.
  - apply eq_None_not_Some. rewrite Hscalers. by apply Hdisjoint.
  - unfold StationService.is_model_available. intros Hs.
    apply andb_true_iff in Hs as [Hs _]. apply bool_decide_eq_true in Hs. by apply Hmodels.
  - unfold StationService.is_model_available. intros Hs.
    apply andb_true_iff. split; apply bool_decide_eq_true; [by apply Hmodels | by apply Hscalers].
Qed.

Lemma load_all_models_partition_witness :
  let env := sample_env [ "modelo_final_lstm/modelos/M5023_lstm_model.h5";
                          "modelo_final_lstm/modelos/M5023_scaler.pkl";
                          "modelo_final_lstm/modelos/P34_lstm_model.h5" ] (Ok VNone) in
  let self := @StationService.load_all_models env (@StationService.init env) in
  @StationService.loaded_stations env self = ["M5023"]
  ∧ @StationService.failed_stations env self = ["M5025"; "P34"; "P63"]
  ∧ (∀ s, @StationService.is_model_available env self s = true
          ↔ s ∈ @StationService.loaded_stations env self).
Proof.
  intros env self. split; [by vm_compute |]. split; [by vm_compute |].
  apply (@load_all_models_partition env).
Defined.

(** ** Windowing *)

(** C2. A history of [L] rows and a window length [W] give, when
    [W <= L], exactly [L - W + 1] windows, the [i]-th being rows [i] to
    [i + W - 1], each of length [W]; when [L < W] the call fails with the
    [ValueError] of insufficient data. *)
Theorem create_sequences_windows (self : PredictionService.t)
    (data_scaled : list (list pyfloat)) :
  let W := PredictionService.time_step self in
  let L := length data_scaled in
  (W ≤ L →
   ∃ X, PredictionService._create_sequences self data_scaled = Ok X
        ∧ length X = L - W + 1
        ∧ (∀ i, i < L - W + 1 → X !! i = Some (take W (drop i data_scaled)))
        ∧ Forall (λ window, length window = W) X)
  ∧ (L < W →
     ∃ msg, PredictionService._create_sequences self data_scaled = Raise (ValueError msg)).
Proof.
  intros W L. unfold PredictionService._create_sequences. fold W L. split.
  - intros HWL. destruct (L <? W) eqn:Hlt; [apply Nat.ltb_lt in Hlt; lia |].
    eexists. split; [reflexivity |].
    assert (∀ i, i < L - W + 1 →
              np.slice i (i + W) data_scaled = take W (drop i data_scaled)) as Hslice.
    { intros i Hi. unfold np.slice. f_equal. lia. }
    repeat split.
    + by rewrite length_fmap, length_seq.
    + intros i Hi. rewrite list_lookup_fmap, lookup_seq_lt by done. simpl.
      by rewrite Hslice.
    + apply Forall_fmap, Forall_seq. intros i Hi. simpl.
      rewrite Hslice by lia. rewrite length_take, length_drop. fold L. lia.
  - intros HLW. apply Nat.ltb_lt in HLW. rewrite HLW. by eexists.
Qed.

Lemma create_sequences_windows_witness :
  30 ≤ 31
  ∧ ∃ X, PredictionService._create_sequences PredictionService.init
           (replicate 31 [Fin 0; Fin 0; Fin 0]) = Ok X
         ∧ length X = 2.
Proof.
  split; [lia |].
  destruct (create_sequences_windows PredictionService.init
              (replicate 31 [Fin 0; Fin 0; Fin 0])) as [Hwin _].
  destruct Hwin as (X & HX & Hlen & _); [rewrite length_replicate; vm_compute; lia |].
  exists X. split; [exact HX |]. rewrite Hlen. reflexivity.
Defined.

(** ** Validation of predictions *)

Lemma existsb_false {A : Type} (f : A → bool) (l : list A) :
  existsb f l = false ↔ ∀ x, x ∈ l → f x = false.
Proof.
  induction l as [| y l IH]; simpl.
  - split; [intros _ x Hx; by apply elem_of_nil in Hx | done].
  - rewrite orb_false_iff, IH. split.
    + intros [Hy Hl] x [-> | Hx]%elem_of_cons; auto.
    + intros Hall. split; [apply Hall; left | intros x Hx; apply Hall; by right].
Qed.

Lemma elem_of_concat {A : Type} (ls : list (list A)) (x : A) :
  x ∈ concat ls ↔ ∃ l, l ∈ ls ∧ x ∈ l.
Proof.
  rewrite list_elem_of_In, in_concat. split.
  - intros (l & Hl & Hx). exists l. by rewrite !list_elem_of_In.
  - intros (l & Hl & Hx). exists l. by rewrite <- !list_elem_of_In.
Qed.

Lemma elem_of_column (col : nat) (a : list (list pyfloat)) (x : pyfloat) :
  x ∈ np.column col a ↔ ∃ row, row ∈ a ∧ row !! col = Some x.
Proof. unfold np.column. apply list_elem_of_omap. Qed.

(** C5. A prediction batch is the array the station model's output layer
    of three units gives after the inverse scaling: one row per window, with
    the components precipitation, temperature, humidity.  On such a batch,
    and on any array whose rows have one length of at least three,
    validation answers true exactly when the batch is not empty, every
    value is finite, and every temperature (column 1) lies in [-50, 60]; so
    it answers false for a batch that is empty, holds a NaN or an infinity,
    or has a temperature below -50 or above 60. *)
Theorem validate_predictions_spec (predictions : list (list pyfloat)) (m : nat) :
  3 ≤ m →
  Forall (λ row, length row = m) predictions →
  PredictionService.validate_predictions predictions = true
  ↔ predictions ≠ []
    ∧ (∀ row x, row ∈ predictions → x ∈ row → ∃ r, x = Fin r)
    ∧ (∀ row r, row ∈ predictions → row !! 1 = Some (Fin r) → (-50 <= r <= 60)%R).
Proof.
  intros Hm Hrect. unfold PredictionService.validate_predictions.
  destruct predictions as [| row0 rest].
  { simpl. split; [done | by intros [? _]]. }
  assert (length row0 = m) as Hrow0 by (by inversion Hrect).
  assert ((np.size (row0 :: rest) =? 0) = false) as ->.
  { apply Nat.eqb_neq. unfold np.size. simpl. rewrite length_app. lia. }
  assert ((3 <=? np.shape1 (row0 :: rest)) = true) as Hshape.
  { apply Nat.leb_le. simpl. lia. }
  rewrite Hshape. clear Hshape.
  set (batch := row0 :: rest) in *.
  destruct (existsb PyFloat.isinf (concat batch)) eqn:Hinf.
  { cbn [orb]. split; [done |]. intros (_ & Hfin & _). exfalso.
    apply existsb_exists in Hinf as (x & Hx & Hisinf).
    apply list_elem_of_In, elem_of_concat in Hx as (row & Hrow & Hxrow).
    destruct (Hfin row x Hrow Hxrow) as [r ->]. done. }
  destruct (existsb PyFloat.isnan (concat batch)) eqn:Hnan.
  { cbn [orb]. split; [done |]. intros (_ & Hfin & _). exfalso.
    apply existsb_exists in Hnan as (x & Hx & Hisnan).
    apply list_elem_of_In, elem_of_concat in Hx as (row & Hrow & Hxrow).
    destruct (Hfin row x Hrow Hxrow) as [r ->]. done. }
  cbn [orb]. rewrite existsb_false in Hinf, Hnan.
  assert (∀ row x, row ∈ batch → x ∈ row → ∃ r, x = Fin r) as Hfin.
  { intros row x Hrow Hx.
    assert (x ∈ concat batch) as Hc by (apply elem_of_concat; eauto).
    specialize (Hinf x Hc). specialize (Hnan x Hc). destruct x; try done. by eexists. }
  destruct (existsb (λ temp, PyFloat.lt temp (PyFloat.of_Z (-50))) (np.column 1 batch))
    eqn:Hlow.
  { cbn [orb]. split; [done |]. intros (_ & _ & Hband). exfalso.
    apply existsb_exists in Hlow as (t & Ht & Hcmp).
    apply list_elem_of_In, elem_of_column in Ht as (row & Hrow & Hlook).
    destruct (Hfin row t Hrow) as [r ->]; [by eapply list_elem_of_lookup_2 |].
    specialize (Hband row r Hrow Hlook). simpl in Hcmp. apply Rltb_true in Hcmp. lra. }
  destruct (existsb (λ temp, PyFloat.lt (PyFloat.of_Z 60) temp) (np.column 1 batch))
    eqn:Hhigh.
  { cbn [orb]. split; [done |]. intros (_ & _ & Hband). exfalso.
    apply existsb_exists in Hhigh as (t & Ht & Hcmp).
    apply list_elem_of_In, elem_of_column in Ht as (row & Hrow & Hlook).
    destruct (Hfin row t Hrow) as [r ->]; [by eapply list_elem_of_lookup_2 |].
    specialize (Hband row r Hrow Hlook). simpl in Hcmp. apply Rltb_true in Hcmp. lra. }
  cbn [orb]. split; [intros _ | done]. repeat split; try done.
  - rewrite existsb_false in Hlow. apply Rltb_false, (Hlow (Fin r)).
    apply elem_of_column. eauto.
  - rewrite existsb_false in Hhigh. apply Rltb_false, (Hhigh (Fin r)).
    apply elem_of_column. eauto.
Qed.

Ltac elements H :=
  repeat (apply elem_of_cons in H as [-> | H]); try (by apply elem_of_nil in H).

Lemma validate_predictions_spec_witness :
  PredictionService.validate_predictions [[Fin 0; Fin 12; Fin 80]; [Fin 1; Fin 9; Fin 85]] = true
  ∧ PredictionService.validate_predictions [[Fin 0; Fin 61; Fin 80]] = false
  ∧ PredictionService.validate_predictions [[Fin 0; NaN; Fin 80]] = false.
Proof.
  split; [| split].
  - apply (validate_predictions_spec _ 3); [lia | by repeat constructor |].
    split; [done |]. split.
    + intros row x Hrow Hx. elements Hrow; elements Hx; by eexists.
    + intros row r Hrow Hlook.
      elements Hrow; simpl in Hlook; injection Hlook as <-; lra.
  - apply not_true_is_false. intros Hv.
    apply (validate_predictions_spec _ 3) in Hv as (_ & _ & Hband);
      [| lia | by repeat constructor].
    assert (-50 <= 61 <= 60)%R; [| lra].
    apply (Hband [Fin 0; Fin 61; Fin 80]); [by left | done].
  - apply not_true_is_false. intros Hv.
    apply (validate_predictions_spec _ 3) in Hv as (_ & Hfin & _);
      [| lia | by repeat constructor].
    destruct (Hfin [Fin 0; NaN; Fin 80] NaN) as [r Hr]; [by left | by right; left | done].
Defined.

(** ** Interpolation of missing values *)

Lemma valid_at_is_valid (data : list (option pyfloat)) (i : nat) :
  valid_at data i ↔ ∃ val, data !! i = Some val ∧ DataCleaner.is_valid val = true.
Proof.
  unfold valid_at. split.
  - intros (y & Hy & Hnan). exists (Some y). simpl. by rewrite Hnan.
  - intros ([y |] & Hval & Hvalid); [| done]. exists y. split; [done |].
    simpl in Hvalid. by apply negb_true_iff.
Qed.

Lemma valid_at_cons_0 (val : option pyfloat) (rest : list (option pyfloat)) :
  valid_at (val :: rest) 0 ↔ DataCleaner.is_valid val = true.
Proof.
  rewrite valid_at_is_valid. simpl. split.
  - by intros (v & [= <-] & Hv).
  - intros Hv. by exists val.
Qed.

Lemma elem_of_valid_indices_from (s : nat) (data : list (option pyfloat)) (k : nat) :
  k ∈ DataCleaner.valid_indices_from s data ↔ s ≤ k ∧ valid_at data (k - s).
Proof.
  revert s. induction data as [| val rest IH]; intros s; simpl.
  - split; [intros Hk; by apply elem_of_nil in Hk |].
    intros [_ (y & Hy & _)]. by rewrite lookup_nil in Hy.
  - destruct (decide (k = s)) as [-> | Hne].
    + rewrite Nat.sub_diag, valid_at_cons_0.
      destruct (DataCleaner.is_valid val) eqn:Hval.
      * split; [done | intros _; by left].
      * rewrite IH. split; [lia | by intros [_ ?]].
    + assert (valid_at (val :: rest) (k - s) ∧ s ≤ k ↔ valid_at rest (k - S s) ∧ S s ≤ k)
        as Hshift.
      { split; intros [Hv Hle]; (split; [| lia]).
        - replace (k - s) with (S (k - S s)) in Hv by lia. exact Hv.
        - replace (k - s) with (S (k - S s)) by lia. exact Hv. }
      destruct (DataCleaner.is_valid val).
      * rewrite elem_of_cons, IH. tauto.
      * rewrite IH. tauto.
Qed.

Lemma elem_of_valid_indices (data : list (option pyfloat)) (k : nat) :
  k ∈ DataCleaner.valid_indices data ↔ valid_at data k.
Proof.
  unfold DataCleaner.valid_indices. rewrite elem_of_valid_indices_from, Nat.sub_0_r.
  split; [by intros [_ ?] | intros ?; split; [lia | done]].
Qed.

Lemma valid_indices_from_sorted (s : nat) (data : list (option pyfloat)) :
  StronglySorted lt (DataCleaner.valid_indices_from s data).
Proof.
  revert s. induction data as [| val rest IH]; intros s; simpl; [constructor |].
  destruct (DataCleaner.is_valid val); [| apply IH].
  apply StronglySorted_cons. split; [| apply IH].
  apply Forall_forall. intros k Hk. apply elem_of_valid_indices_from in Hk. lia.
Qed.

(** What the inner loop finds in an increasing list of indices that does
    not hold [i]: the greatest index below [i] (or what it started with),
    and the least index above it. *)
Lemma find_neighbors_sorted (i : nat) (valid : list nat) (prev : option nat) :
  StronglySorted lt valid →
  i ∉ valid →
  let found := DataCleaner.find_neighbors i valid prev in
  match found.1 with
  | Some p =>
      (p ∈ valid ∧ p < i ∧ ∀ k, k ∈ valid → k < i → k ≤ p)
      ∨ (prev = Some p ∧ ∀ k, k ∈ valid → ¬ k < i)
  | None => prev = None ∧ ∀ k, k ∈ valid → ¬ k < i
  end
  ∧ match found.2 with
    | Some n => n ∈ valid ∧ i < n ∧ ∀ k, k ∈ valid → i < k → n ≤ k
    | None => ∀ k, k ∈ valid → ¬ i < k
    end.
Proof.
  revert prev. induction valid as [| x rest IH]; intros prev Hsorted Hnotin; simpl.
  - split; [destruct prev; [right |]; (split; [done |]) |];
      intros k Hk; by apply elem_of_nil in Hk.
  - apply StronglySorted_cons in Hsorted as [Hx Hrest]. rewrite Forall_forall in Hx.
    apply not_elem_of_cons in Hnotin as [Hne Hnotin].
    destruct (x <? i) eqn:Hxi.
    + apply Nat.ltb_lt in Hxi. specialize (IH (Some x) Hrest Hnotin). simpl in IH.
      destruct IH as [IHp IHn]. split.
      * destruct (DataCleaner.find_neighbors i rest (Some x)).1 as [p |].
        -- left. destruct IHp as [(Hp & Hpi & Hmax) | [[= <-] Hnone]].
           ++ split; [by right |]. split; [done |].
              intros k [-> | Hk]%elem_of_cons Hki; [specialize (Hx p Hp); lia | auto].
           ++ split; [by left |]. split; [done |].
              intros k [-> | Hk]%elem_of_cons Hki; [done | by destruct (Hnone k Hk)].
        -- by destruct IHp.
      * destruct (DataCleaner.find_neighbors i rest (Some x)).2 as [n |].
        -- destruct IHn as (Hn & Hin & Hmin). split; [by right |]. split; [done |].
           intros k [-> | Hk]%elem_of_cons Hik; [lia | auto].
        -- intros k [-> | Hk]%elem_of_cons; [lia | auto].
    + apply Nat.ltb_ge in Hxi. assert (i < x) as Hix by lia.
      apply Nat.ltb_lt in Hix as Hix'. rewrite Hix'. simpl.
      assert (∀ k, k ∈ x :: rest → ¬ k < i) as Hnone.
      { intros k [-> | Hk]%elem_of_cons; [lia | specialize (Hx k Hk); lia]. }
      split.
      * destruct prev; [right |]; done.
      * split; [by left |]. split; [done |].
        intros k [-> | Hk]%elem_of_cons _; [done | specialize (Hx k Hk); lia].
Qed.

(** What the inner loop finds in the valid indices of a column, from
    [None], around an index that is not valid. *)
Lemma find_neighbors_nearest (data : list (option pyfloat)) (i : nat) :
  ¬ valid_at data i →
  let found := DataCleaner.find_neighbors i (DataCleaner.valid_indices data) None in
  (∀ p, nearest_before data i p → found.1 = Some p)
  ∧ ((∀ k, k < i → ¬ valid_at data k) → found.1 = None)
  ∧ (∀ n, nearest_after data i n → found.2 = Some n)
  ∧ ((∀ k, i < k → ¬ valid_at data k) → found.2 = None).
Proof.
  intros Hi found.
  destruct (find_neighbors_sorted i (DataCleaner.valid_indices data) None) as [Hp Hn].
  { apply valid_indices_from_sorted. }
  { by rewrite elem_of_valid_indices. }
  fold found in Hp, Hn. repeat split.
  - intros p (Hpi & Hvalid & Hgap). destruct found.1 as [q |].
    + destruct Hp as [(Hq & Hqi & Hmax) | [? _]]; [| done].
      apply elem_of_valid_indices in Hq.
      assert (p ≤ q) by (apply Hmax; [by apply elem_of_valid_indices | done]).
      destruct (decide (p = q)) as [-> | Hne]; [done |].
      destruct (Hgap q); [lia | done].
    + destruct Hp as [_ Hnone]. destruct (Hnone p); [by apply elem_of_valid_indices | done].
  - intros Hnone. destruct found.1 as [q |]; [| done].
    destruct Hp as [(Hq & Hqi & _) | [? _]]; [| done].
    apply elem_of_valid_indices in Hq. by destruct (Hnone q).
  - intros n (Hin & Hvalid & Hgap). destruct found.2 as [q |].
    + destruct Hn as (Hq & Hiq & Hmin). apply elem_of_valid_indices in Hq.
      assert (q ≤ n) by (apply Hmin; [by apply elem_of_valid_indices | done]).
      destruct (decide (n = q)) as [-> | Hne]; [done |].
      destruct (Hgap q); [lia | done].
    + destruct (Hn n); [by apply elem_of_valid_indices | done].
  - intros Hnone. destruct found.2 as [q |]; [| done].
    destruct Hn as (Hq & Hiq & _). apply elem_of_valid_indices in Hq. by destruct (Hnone q).
Qed.

(** The divisor of the interpolation is a positive integer, so the
    division cannot raise. *)
Lemma interpolate_divisor_pos (data : list (option pyfloat)) (i p n : nat) :
  nearest_before data i p → nearest_after data i n → (0 < Z.of_nat n - Z.of_nat p)%Z.
Proof. intros (Hp & _) (Hn & _). lia. Qed.

(** An entry read at a valid index is a float, never [None]. *)
Lemma valid_index_holds_float (data : list (option pyfloat)) (k : nat) :
  k ∈ DataCleaner.valid_indices data → ∃ y, data !!! k = Some y.
Proof.
  intros (y & Hy & _)%elem_of_valid_indices. exists y.
  by apply list_lookup_total_correct.
Qed.

Lemma fill_value_valid `{Environment} (data : list (option pyfloat)) (i : nat) :
  valid_at data i → DataCleaner.fill_value data (DataCleaner.valid_indices data) i = None.
Proof.
  intros Hi. unfold DataCleaner.fill_value.
  rewrite bool_decide_eq_true_2; [done | by apply elem_of_valid_indices].
Qed.

Lemma fill_value_missing `{Environment} (data : list (option pyfloat)) (i : nat) :
  ¬ valid_at data i →
  DataCleaner.fill_value data (DataCleaner.valid_indices data) i
  = match DataCleaner.find_neighbors i (DataCleaner.valid_indices data) None with
    | (Some prev_idx, Some next_idx) =>
        Some (Some (DataCleaner.linear prev_idx (DataCleaner.num (data !!! prev_idx))
                                       next_idx (DataCleaner.num (data !!! next_idx)) i))
    | (Some prev_idx, None) => Some (data !!! prev_idx)
    | (None, Some next_idx) => Some (data !!! next_idx)
    | (None, None) => None
    end.
Proof.
  intros Hi. unfold DataCleaner.fill_value.
  rewrite bool_decide_eq_false_2; [done | by rewrite elem_of_valid_indices].
Qed.

(** Turn [i] of the outer loop touches index [i] only. *)
Lemma interpolate_loop_length `{Environment} (data : list (option pyfloat)) (valid : list nat)
    (result : list (option pyfloat)) (s n : nat) :
  length (foldl (DataCleaner.interpolate_at data valid) result (seq s n)) = length result.
Proof.
  revert result s. induction n as [| n IH]; intros result s; simpl; [done |].
  rewrite IH. unfold DataCleaner.interpolate_at.
  destruct (DataCleaner.fill_value data valid s); [apply length_insert | done].
Qed.

Lemma interpolate_loop_lookup `{Environment} (data : list (option pyfloat)) (valid : list nat)
    (result : list (option pyfloat)) (s n i : nat) :
  i < length result →
  foldl (DataCleaner.interpolate_at data valid) result (seq s n) !! i
  = if bool_decide (s ≤ i < s + n) then
      match DataCleaner.fill_value data valid i with
      | Some value => Some value
      | None => result !! i
      end
    else result !! i.
Proof.
  revert result s. induction n as [| n IH]; intros result s Hi; simpl.
  - rewrite bool_decide_eq_false_2; [done | lia].
  - rewrite IH.
    2:{ unfold DataCleaner.interpolate_at.
        destruct (DataCleaner.fill_value data valid s); [by rewrite length_insert | done]. }
    unfold DataCleaner.interpolate_at.
    destruct (decide (i = s)) as [-> | Hne].
    + rewrite bool_decide_eq_false_2 by lia. rewrite bool_decide_eq_true_2 by lia.
      destruct (DataCleaner.fill_value data valid s); [| done].
      by apply list_lookup_insert_eq.
    + assert ((match DataCleaner.fill_value data valid s with
               | Some value => <[s := value]> result
               | None => result
               end) !! i = result !! i) as ->.
      { destruct (DataCleaner.fill_value data valid s); [| done].
        by apply list_lookup_insert_ne. }
      destruct (decide (S s ≤ i < S s + n)).
      * rewrite !bool_decide_eq_true_2 by lia. done.
      * rewrite !bool_decide_eq_false_2 by lia. done.
Qed.

Lemma interpolate_unfold `{Environment} (data : list (option pyfloat)) :
  DataCleaner.interpolate_missing_values data
  = if length (DataCleaner.valid_indices data) <? 2 then data
    else foldl (DataCleaner.interpolate_at data (DataCleaner.valid_indices data))
               data (seq 0 (length data)).
Proof. by destruct data. Qed.

(** The sample environment computes on real numbers, so it is exact on
    integers. *)
Lemma sample_env_integer_arithmetic (artifacts : list string) (response : result pyval) :
  @integer_arithmetic_exact (sample_env artifacts response).
Proof.
  intros a b _ _. unfold PyFloat.of_Z. cbn. repeat split.
  - intros _. by rewrite plus_IZR.
  - intros _. by rewrite minus_IZR.
  - intros _. by rewrite mult_IZR.
  - intros Hb [q ->]. rewrite Z.div_mul by done. f_equal.
    rewrite mult_IZR. field. by apply not_0_IZR.
Qed.

(** C4. A column with fewer than two valid entries comes back unchanged.
    Otherwise the column keeps its length and its valid entries; a missing
    entry at [i] with a valid entry on both sides, the nearest ones being
    [y0] at [p] and [y1] at [n], becomes
    [y0 + (y1 - y0) * (i - p) / (n - p)], the linear interpolation between
    the two as the interpreter's arithmetic computes it; a missing entry
    with valid entries on one side only takes the value of the nearest
    one.  So [None, 2, 3] becomes [2, 2, 3], and [1, None, None, 4]
    becomes [1, 2, 3, 4] because floating-point arithmetic is exact on
    these integers. *)
Theorem interpolate_missing_values_spec `{Environment} (data : list (option pyfloat)) :
  let result := DataCleaner.interpolate_missing_values data in
  (length (DataCleaner.valid_indices data) < 2 → result = data)
  ∧ (2 ≤ length (DataCleaner.valid_indices data) →
     length result = length data
     ∧ ∀ i, i < length data →
         (valid_at data i → result !! i = data !! i)
         ∧ (¬ valid_at data i →
            (∀ p n y0 y1,
               nearest_before data i p → nearest_after data i n →
               data !! p = Some (Some y0) → data !! n = Some (Some y1) →
               result !! i
               = Some (Some (float_add y0
                               (float_truediv
                                  (float_mul (float_sub y1 y0)
                                             (PyFloat.of_Z (Z.of_nat i - Z.of_nat p)))
                                  (PyFloat.of_Z (Z.of_nat n - Z.of_nat p))))))
            ∧ (∀ p, nearest_before data i p → (∀ k, i < k → ¬ valid_at data k) →
                    result !! i = data !! p)
            ∧ (∀ n, (∀ k, k < i → ¬ valid_at data k) → nearest_after data i n →
                    result !! i = data !! n)))
  ∧ (integer_arithmetic_exact →
     DataCleaner.interpolate_missing_values [Some (Fin 1); None; None; Some (Fin 4)]
     = [Some (Fin 1); Some (Fin 2); Some (Fin 3); Some (Fin 4)])
  ∧ DataCleaner.interpolate_missing_values [None; Some (Fin 2); Some (Fin 3)]
    = [Some (Fin 2); Some (Fin 2); Some (Fin 3)].
Proof.
  intros result. subst result. rewrite interpolate_unfold. split; [| split; [| split]].
  - intros Hfew. apply Nat.ltb_lt in Hfew. by rewrite Hfew.
  - intros Hmany. apply Nat.ltb_ge in Hmany. rewrite Hmany.
    split; [apply interpolate_loop_length |].
    intros i Hi. rewrite interpolate_loop_lookup by done.
    rewrite bool_decide_eq_true_2 by lia. split.
    + intros Hvalid. by rewrite fill_value_valid.
    + intros Hmissing. rewrite fill_value_missing by done.
      destruct (find_neighbors_nearest data i Hmissing) as (Hp & Hnop & Hn & Hnon).
      repeat split.
      * intros p n y0 y1 Hbefore Hafter Hy0 Hy1.
        destruct (DataCleaner.find_neighbors i (DataCleaner.valid_indices data) None)
          as [fp fn]. simpl in *.
        rewrite (Hp p Hbefore), (Hn n Hafter).
        by rewrite (list_lookup_total_correct _ _ _ Hy0),
                   (list_lookup_total_correct _ _ _ Hy1).
      * intros p Hbefore Hnone.
        destruct (DataCleaner.find_neighbors i (DataCleaner.valid_indices data) None)
          as [fp fn]. simpl in *.
        rewrite (Hp p Hbefore), (Hnon Hnone).
        destruct Hbefore as (_ & (y & Hy & _) & _).
        by rewrite (list_lookup_total_correct _ _ _ Hy).
      * intros n Hnone Hafter.
        destruct (DataCleaner.find_neighbors i (DataCleaner.valid_indices data) None)
          as [fp fn]. simpl in *.
        rewrite (Hnop Hnone), (Hn n Hafter).
        destruct Hafter as (_ & (y & Hy & _) & _).
        by rewrite (list_lookup_total_correct _ _ _ Hy).
  - intros Hexact. rewrite interpolate_unfold.
    destruct (Hexact 4 1)%Z as (_ & Hsub & _); [done.. |].
    destruct (Hexact 3 1)%Z as (_ & _ & Hmul1 & _); [done.. |].
    destruct (Hexact 3 2)%Z as (_ & _ & Hmul2 & _); [done.. |].
    destruct (Hexact 3 3)%Z as (_ & _ & _ & Hdiv1); [done.. |].
    destruct (Hexact 6 3)%Z as (_ & _ & _ & Hdiv2); [done.. |].
    destruct (Hexact 1 1)%Z as (Hadd1 & _); [done.. |].
    destruct (Hexact 1 2)%Z as (Hadd2 & _); [done.. |].
    specialize (Hsub eq_refl). specialize (Hmul1 eq_refl). specialize (Hmul2 eq_refl).
    specialize (Hadd1 eq_refl). specialize (Hadd2 eq_refl).
    assert (3 | 3)%Z as H33 by (by exists 1%Z).
    assert (3 | 6)%Z as H36 by (by exists 2%Z).
    specialize (Hdiv1 ltac:(done) H33). specialize (Hdiv2 ltac:(done) H36).
    clear Hexact H33 H36.
    cbv -[IZR float_add float_sub float_mul float_truediv] in *.
    by rewrite Hsub, Hmul1, Hmul2, Hdiv1, Hdiv2, Hadd1, Hadd2.
  - rewrite interpolate_unfold. reflexivity.
Qed.

Lemma interpolate_missing_values_spec_witness :
  let env := sample_env [] (Ok VNone) in
  @DataCleaner.interpolate_missing_values env
    [None; Some (Fin 2); None; None; None; Some (Fin 10)] !! 3
  = Some (Some (Fin 6))
  ∧ @DataCleaner.interpolate_missing_values env [Some (Fin 1); None; None; Some (Fin 4)]
    = [Some (Fin 1); Some (Fin 2); Some (Fin 3); Some (Fin 4)].
Proof.
  intros env.
  destruct (@interpolate_missing_values_spec env
              [None; Some (Fin 2); None; None; None; Some (Fin 10)])
    as (_ & Hmany & Hexample & _).
  split; [| apply Hexample, sample_env_integer_arithmetic].
  destruct Hmany as [_ Hfill]; [vm_compute; lia |].
  destruct (Hfill 3) as [_ Hmissing]; [simpl; lia |].
  destruct Hmissing as (Hboth & _).
  { intros (y & Hy & _). discriminate Hy. }
  rewrite (Hboth 1 5 (Fin 2) (Fin 10)).
  - cbn. change (Z.of_nat 3 - Z.of_nat 1)%Z with 2%Z.
    change (Z.of_nat 5 - Z.of_nat 1)%Z with 4%Z. do 3 f_equal. lra.
  - split; [lia |]. split; [by exists (Fin 2) |]. intros k Hk.
    assert (k = 2) as -> by lia. intros (y & Hy & _). discriminate Hy.
  - split; [lia |]. split; [by exists (Fin 10) |]. intros k Hk.
    assert (k = 4) as -> by lia. intros (y & Hy & _). discriminate Hy.
  - reflexivity.
  - reflexivity.
Defined.

(** ** The historical data fetcher *)

(** The one failure of the cleaning loop: [float] raises [OverflowError]
    on an integer beyond the range of a double, and the loop catches
    [ValueError] and [TypeError] only. *)
Lemma clean_item_outcome `{Environment} (item : pyval) :
  (∃ x, WeatherDataService.clean_item item = Ok x
        ∧ ∀ z, item = VInt z → float_overflows z = false)
  ∨ (WeatherDataService.clean_item item
       = Raise (OverflowError "int too large to convert to float")
     ∧ ∃ z, item = VInt z ∧ float_overflows z = true).
Proof.
  unfold WeatherDataService.clean_item, py_float.
  destruct item as [| b | z | x | s | l | d];
    try (left; eexists; split; [reflexivity | by intros ? [=]]).
  - destruct (float_overflows z) eqn:Hz.
    + right. split; [done |]. by exists z.
    + left. eexists. split; [reflexivity |]. by intros ? [= <-].
  - destruct (float_of_string s); left; eexists; (split; [reflexivity | by intros ? [=]]).
Qed.

Lemma clean_numeric_data_cons `{Environment} (item : pyval) (rest : list pyval) :
  WeatherDataService._clean_numeric_data (item :: rest)
  = x ← WeatherDataService.clean_item item;
    cleaned ← WeatherDataService._clean_numeric_data rest;
    mret (x :: cleaned).
Proof. reflexivity. Qed.

Lemma clean_numeric_data_total `{Environment} (data : list pyval) :
  (∀ z, VInt z ∈ data → float_overflows z = false) →
  ∃ cleaned, WeatherDataService._clean_numeric_data data = Ok cleaned.
Proof.
  induction data as [| item rest IH]; intros Hfits; [by eexists |].
  rewrite clean_numeric_data_cons.
  destruct (clean_item_outcome item) as [(x & -> & _) | (_ & z & -> & Hz)].
  - destruct IH as [cleaned ->]; [intros z Hz; apply Hfits; by right |]. by eexists.
  - rewrite Hfits in Hz; [done | by left].
Qed.

Lemma clean_numeric_data_raises `{Environment} (data : list pyval) (z : Z) :
  VInt z ∈ data → float_overflows z = true →
  WeatherDataService._clean_numeric_data data
  = Raise (OverflowError "int too large to convert to float").
Proof.
  intros Hin Hz. induction data as [| item rest IH]; [by apply elem_of_nil in Hin |].
  rewrite clean_numeric_data_cons.
  destruct (clean_item_outcome item) as [(x & -> & Hfit) | (-> & _)]; [| done].
  apply elem_of_cons in Hin as [<- | Hin].
  - rewrite (Hfit z eq_refl) in Hz. done.
  - cbn [mbind result_bind rbind]. by rewrite IH.
Qed.

(** A series that is cleaned keeps its length, and each entry is cleaned
    at its own position. *)
Lemma clean_numeric_data_lookup `{Environment} (data : list pyval) (cleaned : list pyfloat) :
  WeatherDataService._clean_numeric_data data = Ok cleaned →
  length cleaned = length data
  ∧ ∀ i item, data !! i = Some item →
      ∃ x, cleaned !! i = Some x ∧ WeatherDataService.clean_item item = Ok x.
Proof.
  revert cleaned. induction data as [| item rest IH]; intros cleaned.
  - intros [= <-]. split; [done |]. intros i item Hi. by rewrite lookup_nil in Hi.
  - rewrite clean_numeric_data_cons.
    destruct (WeatherDataService.clean_item item) as [x |] eqn:Hx; [| done].
    cbn [mbind result_bind rbind].
    destruct (WeatherDataService._clean_numeric_data rest) as [cleaned' |]; [| done].
    intros [= <-]. destruct (IH cleaned' eq_refl) as [Hlen Hlook]. split.
    + simpl. by rewrite Hlen.
    + intros [| i] item' Hi; simpl in Hi.
      * injection Hi as <-. by exists x.
      * by apply Hlook.
Qed.

(** C9. Cleaning a raw series keeps its length and its positions, at each
    position a null entry and an entry [float] refuses with [ValueError]
    or [TypeError] becoming 0.0 and a number its float value (the number
    itself for a float and for an integer up to 2^53 in magnitude), as
    long as no entry is an integer beyond the range of a double.  On such an
    integer [float] raises [OverflowError], which the loop does not catch:
    the cleaning of [[1.0, 10**400]] raises it and returns no list, while
    the comment in the loop says that what cannot be converted becomes
    0. *)
Theorem clean_numeric_data_overflow `{Environment} (data : list pyval) :
  ((∀ z, VInt z ∈ data → float_overflows z = false) →
   ∃ cleaned,
     WeatherDataService._clean_numeric_data data = Ok cleaned
     ∧ length cleaned = length data
     ∧ ∀ i item,
         data !! i = Some item →
         ∃ x, cleaned !! i = Some x
              ∧ (item = VNone → x = Fin 0)
              ∧ (∀ e, py_float item = Raise e → x = Fin 0)
              ∧ (∀ y, item = VFloat y → x = y)
              ∧ (∀ z, item = VInt z → (Z.abs z <= 2 ^ 53)%Z → x = Fin (IZR z))
              ∧ (∀ y, item ≠ VNone → py_float item = Ok y → x = y))
  ∧ ((∃ z, VInt z ∈ data ∧ float_overflows z = true) →
     WeatherDataService._clean_numeric_data data
     = Raise (OverflowError "int too large to convert to float"))
  ∧ WeatherDataService._clean_numeric_data [VFloat (Fin 1); VInt (10 ^ 400)]
    = Raise (OverflowError "int too large to convert to float").
Proof.
  split; [| split].
  - intros Hfits. destruct (clean_numeric_data_total data Hfits) as [cleaned Hcleaned].
    exists cleaned. split; [done |].
    destruct (clean_numeric_data_lookup data cleaned Hcleaned) as [Hlen Hlook].
    split; [done |]. intros i item Hitem.
    destruct (Hlook i item Hitem) as (x & Hx & Hclean). exists x. split; [done |].
    assert (∀ z, item = VInt z → float_overflows z = false) as Hfit.
    { intros z ->. apply Hfits. by eapply list_elem_of_lookup_2. }
    unfold WeatherDataService.clean_item in Hclean. repeat split.
    + intros ->. by injection Hclean as <-.
    + intros e He. rewrite He in Hclean.
      destruct item as [| | z | | | |]; try by (destruct e; try discriminate Hclean; by injection Hclean as <-).
    + intros y ->. by injection Hclean as <-.
    + intros z -> Hsmall. unfold py_float in Hclean. rewrite (Hfit z eq_refl) in Hclean.
      injection Hclean as <-. unfold float_of_int.
      by rewrite (proj2 (Z.leb_le _ _) Hsmall).
    + intros y Hne Hy. rewrite Hy in Hclean. destruct item; by injection Hclean as <-.
  - intros (z & Hz & Hover). by apply (clean_numeric_data_raises data z).
  - apply (clean_numeric_data_raises _ (10 ^ 400)); [set_solver |].
    by vm_compute.
Qed.

Lemma clean_numeric_data_overflow_witness :
  let env := sample_env [] (Ok VNone) in
  @WeatherDataService._clean_numeric_data env [VFloat (Fin 12); VNone; VStr "n/a"; VInt 3]
  = Ok [Fin 12; Fin 0; Fin 0; Fin 3]
  ∧ ∃ cleaned,
      @WeatherDataService._clean_numeric_data env [VFloat (Fin 12); VNone; VStr "n/a"; VInt 3]
      = Ok cleaned
      ∧ length cleaned = 4.
Proof.
  intros env. split; [reflexivity |].
  destruct (@clean_numeric_data_overflow env [VFloat (Fin 12); VNone; VStr "n/a"; VInt 3])
    as [Hfits _].
  destruct Hfits as (cleaned & Hcleaned & Hlen & _).
  - intros z Hz.
    repeat (apply elem_of_cons in Hz as [Hz | Hz]; [try discriminate Hz |]).
    + by injection Hz as ->.
    + by apply elem_of_nil in Hz.
  - by exists cleaned.
Defined.

(** A coordinate that passes the range check is a real number: NaN and
    the infinities fail both comparisons. *)
Lemma valid_latitude_finite (latitude : pyfloat) :
  CoordinateValidator.validate_latitude latitude = true → ∃ r, latitude = Fin r.
Proof. destruct latitude; [by eexists | done..]. Qed.

Lemma valid_longitude_finite (longitude : pyfloat) :
  CoordinateValidator.validate_longitude longitude = true → ∃ r, longitude = Fin r.
Proof. destruct longitude; [by eexists | done..]. Qed.

Lemma validate_coordinates_ok `{Environment} (a b : R) :
  (-90 <= a <= 90)%R → (-180 <= b <= 180)%R →
  CoordinateValidator.validate_coordinates (Fin a) (Fin b) = Ok ().
Proof.
  intros Ha Hb. unfold CoordinateValidator.validate_coordinates,
    CoordinateValidator.validate_latitude, CoordinateValidator.validate_longitude.
  simpl. rewrite !(proj2 (Rleb_true _ _)) by lra. done.
Qed.

Lemma check_required_keys_missing (h : list (string * pyval)) (keys : list string)
    (key : string) :
  key ∈ keys → assoc_get key h = None →
  ∃ msg, WeatherDataService.check_required_keys (VDict h) keys = Raise (ValueError msg).
Proof.
  intros Hkey Hmissing. induction keys as [| k rest IH]; [by apply elem_of_nil in Hkey |].
  simpl. destruct (assoc_get k h) as [v |] eqn:Hk; simpl.
  - apply IH. apply elem_of_cons in Hkey as [-> | Hkey]; [congruence | done].
  - by eexists.
Qed.

Lemma validate_api_response_dict (d : list (string * pyval)) :
  WeatherDataService._validate_api_response (VDict d)
  = match assoc_get "hourly" d with
    | Some hourly_data =>
        WeatherDataService.check_required_keys hourly_data WeatherDataService.required_keys
    | None => Raise (ValueError "No se encontraron datos horarios en la respuesta de la API")
    end.
Proof.
  unfold WeatherDataService._validate_api_response. simpl.
  by destruct (assoc_get "hourly" d).
Qed.

Lemma validate_api_response_lacking (data : pyval) :
  lacks_required data →
  ∃ msg, WeatherDataService._validate_api_response data = Raise (ValueError msg).
Proof.
  intros (d & -> & [Hhourly | (h & key & Hhourly & Hkey & Hmissing)]);
    rewrite validate_api_response_dict, Hhourly.
  - by eexists.
  - by eapply check_required_keys_missing.
Qed.

Lemma process_api_response_series `{Environment} (data : pyval) (start_date end_date : string)
    (h : HistoricalWeatherData.t) :
  WeatherDataService._process_api_response data start_date end_date = Ok h →
  ∃ ts ps hs,
    raw_series data "temperature_2m" = Ok ts
    ∧ raw_series data "precipitation" = Ok ps
    ∧ raw_series data "relative_humidity_2m" = Ok hs
    ∧ WeatherDataService._clean_numeric_data ts = Ok (HistoricalWeatherData.temperatures h)
    ∧ WeatherDataService._clean_numeric_data ps = Ok (HistoricalWeatherData.precipitations h)
    ∧ WeatherDataService._clean_numeric_data hs = Ok (HistoricalWeatherData.humidity h).
Proof.
  unfold WeatherDataService._process_api_response, raw_series.
  destruct (py_getitem data "hourly") as [hourly |]; cbn [mbind result_bind rbind]; [| done].
  destruct (py_getitem hourly "temperature_2m") as [t |]; cbn [mbind result_bind rbind];
    [| done].
  destruct (py_getitem hourly "precipitation") as [p |]; cbn [mbind result_bind rbind];
    [| done].
  destruct (py_getitem hourly "relative_humidity_2m") as [u |]; cbn [mbind result_bind rbind];
    [| done].
  destruct (py_iter t) as [ts |]; cbn [mbind result_bind rbind]; [| done].
  destruct (WeatherDataService._clean_numeric_data ts) as [ts' |] eqn:Hcts;
    cbn [mbind result_bind rbind]; [| done].
  destruct (py_iter p) as [ps |]; cbn [mbind result_bind rbind]; [| done].
  destruct (WeatherDataService._clean_numeric_data ps) as [ps' |] eqn:Hcps;
    cbn [mbind result_bind rbind]; [| done].
  destruct (py_iter u) as [hs |]; cbn [mbind result_bind rbind]; [| done].
  destruct (WeatherDataService._clean_numeric_data hs) as [hs' |] eqn:Hchs;
    cbn [mbind result_bind rbind]; [| done].
  intros [= <-]. by exists ts, ps, hs.
Qed.

(** The fetcher on a request that passes its own validation, once the
    archive API has answered [data]. *)
Lemma get_historical_data_answered `{Environment} (date_str : string) (lat lon : pyfloat)
    (end_date : Date) (data : pyval) :
  strptime date_str = Some end_date →
  CoordinateValidator.validate_coordinates lat lon = Ok () →
  requests_get_json lat lon (strftime (minus_days end_date AppConfig.HISTORICAL_DAYS))
                    (strftime end_date) = Ok data →
  WeatherDataService.get_historical_data date_str lat lon
  = match WeatherDataService._validate_api_response data with
    | Ok _ =>
        WeatherDataService._process_api_response data
          (strftime (minus_days end_date AppConfig.HISTORICAL_DAYS)) (strftime end_date)
    | Raise (RequestException msg) =>
        Raise (ValueError ("Error de conexión con Open-Meteo: " +:+ msg))
    | Raise e => Raise e
    end.
Proof.
  intros Hdate Hcoords Hanswer.
  unfold WeatherDataService.get_historical_data, DateValidator.validate_date_string,
    DateValidator.validate_date_format.
  rewrite Hdate, Hcoords. cbn -[WeatherDataService._validate_api_response
                                WeatherDataService._process_api_response].
  unfold WeatherDataService._fetch_data_from_api. rewrite Hanswer.
  cbn -[WeatherDataService._validate_api_response
        WeatherDataService._process_api_response].
  destruct (WeatherDataService._validate_api_response data) as [[] | []]; reflexivity.
Qed.

(** The fetcher builds a [HistoricalWeatherData] from a response whose
    precipitation series is shorter than the other two. *)
Lemma ragged_response_accepted :
  let env := sample_env [] (Ok ragged_response) in
  ∃ h, @WeatherDataService.get_historical_data env "2024-06-01" (Fin (-0.35)) (Fin (-78.17))
       = Ok h
       ∧ length (HistoricalWeatherData.temperatures h) = 2
       ∧ length (HistoricalWeatherData.precipitations h) = 1
       ∧ length (HistoricalWeatherData.humidity h) = 2.
Proof.
  intros env.
  rewrite (@get_historical_data_answered env "2024-06-01" _ _ "2024-06-01" ragged_response);
    [| reflexivity | apply validate_coordinates_ok; lra | reflexivity].
  eexists. split; [reflexivity |]. by repeat split.
Qed.

(** C3, as stated, fails: a response whose series have lengths 2, 1 and 2
    is not rejected, and the [HistoricalWeatherData] built from it holds
    series of those lengths. *)
Lemma series_lengths_counterexample : ¬ series_lengths_checked_as_stated.
Proof.
  intros Hstated. destruct ragged_response_accepted as (h & Hh & Ht & Hp & _).
  destruct (Hstated _ _ _ _ _ Hh) as [Heq _]. rewrite Ht, Hp in Heq. discriminate Heq.
Qed.

(** The validation raises [ValueError], its own, or the [TypeError] of a
    membership test or a subscript on a value that does not support it. *)
Lemma check_required_keys_errors (hourly_data : pyval) (keys : list string) (e : exn) :
  WeatherDataService.check_required_keys hourly_data keys = Raise e →
  ∃ msg, e = ValueError msg ∨ e = TypeError msg.
Proof.
  induction keys as [| key rest IH]; [done |]. simpl.
  destruct (py_contains key hourly_data) as [[] | e'] eqn:Hin; cbn [mbind result_bind rbind].
  - exact IH.
  - intros [= <-]. eexists. by left.
  - intros [= <-]. destruct hourly_data; try discriminate Hin;
      injection Hin as <-; eexists; by right.
Qed.

Lemma validate_api_response_errors (data : pyval) (e : exn) :
  WeatherDataService._validate_api_response data = Raise e →
  ∃ msg, e = ValueError msg ∨ e = TypeError msg.
Proof.
  unfold WeatherDataService._validate_api_response.
  destruct data as [| b | z | x | s | l | d]; cbn [py_contains mbind result_bind rbind];
    try (intros [= <-]; eexists; by right).
  - destruct (is_substring "hourly" s); cbn [negb py_getitem mbind result_bind rbind];
      intros [= <-]; eexists; [by right | by left].
  - destruct (existsb (is_str "hourly") l); cbn [negb py_getitem mbind result_bind rbind];
      intros [= <-]; eexists; [by right | by left].
  - destruct (assoc_get "hourly" d) as [hourly |] eqn:Hhourly.
    + rewrite bool_decide_eq_true_2 by (by eexists).
      cbn [negb py_getitem mbind result_bind rbind]. rewrite Hhourly.
      cbn [mbind result_bind rbind]. apply check_required_keys_errors.
    + rewrite bool_decide_eq_false_2 by (by intros [? ?]).
      cbn [negb]. intros [= <-]. eexists. by left.
Qed.

Lemma validate_api_response_unreadable (data : pyval) :
  unreadable_block data →
  ∃ msg, WeatherDataService._validate_api_response data = Raise (TypeError msg).
Proof.
  intros [Hdata | (d & hourly & -> & Hhourly & Hblock)].
  - destruct data; try done; by eexists.
  - rewrite validate_api_response_dict, Hhourly.
    destruct hourly; try done; by eexists.
Qed.

(** C3, amended. A response that is a JSON object without an hourly
    entry, or whose hourly entry is an object without one of the three
    required series, is rejected with a [ValueError]; a response that is
    null, a boolean or a number, or whose hourly entry is one, is rejected
    with a [TypeError]; whatever the validation raises reaches the caller,
    and no [HistoricalWeatherData] is built.  The lengths of the series are
    not compared: each series of a [HistoricalWeatherData] that is built has
    the length of the series of the response it was read from. *)
Theorem api_response_checked `{Environment} (date_str : string) (lat lon : pyfloat)
    (end_date : Date) (data : pyval) :
  strptime date_str = Some end_date →
  CoordinateValidator.validate_coordinates lat lon = Ok () →
  requests_get_json lat lon (strftime (minus_days end_date AppConfig.HISTORICAL_DAYS))
                    (strftime end_date) = Ok data →
  (lacks_required data →
   ∃ msg, WeatherDataService.get_historical_data date_str lat lon = Raise (ValueError msg))
  ∧ (unreadable_block data →
     ∃ msg, WeatherDataService.get_historical_data date_str lat lon = Raise (TypeError msg))
  ∧ (∀ e, WeatherDataService._validate_api_response data = Raise e →
          WeatherDataService.get_historical_data date_str lat lon = Raise e
          ∧ ∃ msg, e = ValueError msg ∨ e = TypeError msg)
  ∧ (∀ h, WeatherDataService.get_historical_data date_str lat lon = Ok h →
          ∃ ts ps hs,
            raw_series data "temperature_2m" = Ok ts
            ∧ raw_series data "precipitation" = Ok ps
            ∧ raw_series data "relative_humidity_2m" = Ok hs
            ∧ length (HistoricalWeatherData.temperatures h) = length ts
            ∧ length (HistoricalWeatherData.precipitations h) = length ps
            ∧ length (HistoricalWeatherData.humidity h) = length hs).
Proof.
  intros Hdate Hcoords Hanswer.
  rewrite (get_historical_data_answered _ _ _ _ _ Hdate Hcoords Hanswer).
  split; [| split; [| split]].
  - intros Hlacks. destruct (validate_api_response_lacking data Hlacks) as [msg ->].
    by exists msg.
  - intros Hblock. destruct (validate_api_response_unreadable data Hblock) as [msg ->].
    by exists msg.
  - intros e He. rewrite He.
    destruct (validate_api_response_errors data e He) as [msg [-> | ->]];
      (split; [done | eexists; by eauto]).
  - intros h Hh.
    destruct (WeatherDataService._validate_api_response data) as [[] | e];
      [| by destruct e].
    apply process_api_response_series in Hh
      as (ts & ps & hs & Hts & Hps & Hhs & Hct & Hcp & Hch).
    exists ts, ps, hs.
    apply clean_numeric_data_lookup in Hct as [-> _].
    apply clean_numeric_data_lookup in Hcp as [-> _].
    apply clean_numeric_data_lookup in Hch as [-> _]. done.
Qed.

Lemma api_response_checked_witness :
  let env := sample_env [] (Ok partial_response) in
  ∃ msg, @WeatherDataService.get_historical_data env "2024-06-01" (Fin (-0.35)) (Fin (-78.17))
         = Raise (ValueError msg).
Proof.
  intros env.
  apply (@api_response_checked env "2024-06-01" (Fin (-0.35)) (Fin (-78.17))
           "2024-06-01" partial_response).
  - reflexivity.
  - apply validate_coordinates_ok; lra.
  - reflexivity.
  - eexists. split; [reflexivity |]. right.
    exists [ ("time", VList [VStr "2024-05-02T00:00"]);
             ("temperature_2m", VList [VFloat (Fin 10)]);
             ("relative_humidity_2m", VList [VFloat (Fin 80)]) ], "precipitation".
    split; [reflexivity |]. split; [| reflexivity].
    unfold WeatherDataService.required_keys. set_solver.
Defined.

(** ** The request handler *)

Lemma missing_fields_present (d : list (string * pyval)) (fields : list string) :
  Forall (λ field, is_Some (assoc_get field d)) fields →
  RequestValidator.missing_fields (VDict d) fields = Ok [].
Proof.
  induction 1 as [| field rest Hfield _ IH]; [done |].
  simpl. rewrite bool_decide_eq_true_2 by done. simpl. by rewrite IH.
Qed.

Lemma validate_required_fields_present (d : list (string * pyval)) (fields : list string) :
  Forall (λ field, is_Some (assoc_get field d)) fields →
  RequestValidator.validate_required_fields (VDict d) fields = Ok ().
Proof.
  intros Hall. unfold RequestValidator.validate_required_fields.
  by rewrite missing_fields_present.
Qed.

Lemma validate_json_data_dict (d : list (string * pyval)) (key : string) :
  is_Some (assoc_get key d) → RequestValidator.validate_json_data (VDict d) = Ok ().
Proof. destruct d; [by intros [? ?] | done]. Qed.

(** The request model accepts a date that parses and coordinates in
    range, and rejects anything else with a [ValueError] (a [TypeError]
    for a date that is not a string), never with a [ValidationError]. *)
Lemma request_init_accepts `{Environment} (date_str : string) (latitude longitude : pyfloat)
    (include_analysis analysis_types : pyval) :
  is_Some (strptime date_str) →
  CoordinateValidator.validate_latitude latitude = true →
  CoordinateValidator.validate_longitude longitude = true →
  WeatherDataRequest.init (VStr date_str) latitude longitude include_analysis analysis_types
  = Ok {| WeatherDataRequest.date := date_str;
          WeatherDataRequest.latitude := latitude;
          WeatherDataRequest.longitude := longitude;
          WeatherDataRequest.include_analysis := include_analysis;
          WeatherDataRequest.analysis_types := analysis_types |}.
Proof.
  intros [end_date Hdate] Hlat Hlon.
  unfold WeatherDataRequest.init, WeatherDataRequest._validate_date,
    WeatherDataRequest._validate_coordinates.
  unfold CoordinateValidator.validate_latitude in Hlat.
  unfold CoordinateValidator.validate_longitude in Hlon.
  rewrite Hdate. cbn -[PyFloat.le PyFloat.of_Z]. by rewrite Hlat, Hlon.
Qed.

Lemma request_init_rejects `{Environment} (date : pyval) (latitude longitude : pyfloat)
    (include_analysis analysis_types : pyval) :
  (∀ date_str, date = VStr date_str → strptime date_str = None)
  ∨ CoordinateValidator.validate_latitude latitude = false
  ∨ CoordinateValidator.validate_longitude longitude = false →
  ∃ e, WeatherDataRequest.init date latitude longitude include_analysis analysis_types
       = Raise e
       ∧ is_ValidationError e = false.
Proof.
  intros Hbad.
  unfold WeatherDataRequest.init, WeatherDataRequest._validate_date,
    WeatherDataRequest._validate_coordinates.
  unfold CoordinateValidator.validate_latitude, CoordinateValidator.validate_longitude in Hbad.
  destruct date as [| | | | date_str | |]; cbn -[PyFloat.le PyFloat.of_Z]; try by eexists.
  destruct (strptime date_str) as [end_date |] eqn:Hdate;
    cbn -[PyFloat.le PyFloat.of_Z]; [| by eexists].
  destruct Hbad as [Hparse | [Hlat | Hlon]].
  - by rewrite (Hparse date_str eq_refl) in Hdate.
  - rewrite Hlat. cbn -[PyFloat.le PyFloat.of_Z]. by eexists.
  - rewrite Hlon.
    destruct (PyFloat.le (PyFloat.of_Z (-90)) latitude && PyFloat.le latitude (PyFloat.of_Z 90));
      cbn -[PyFloat.le PyFloat.of_Z]; by eexists.
Qed.

Lemma traced_bind_quiet_ok {A B : Type} (a : A) (k : A → traced B) :
  quiet (Ok a) ≫= k = k a.
Proof. unfold mbind, traced_bind, quiet. simpl. by destruct (k a). Qed.

Lemma traced_bind_quiet_raise {A B : Type} (e : exn) (k : A → traced B) :
  quiet (Raise e) ≫= k = Traced [] (Raise e).
Proof. reflexivity. Qed.

Lemma result_bind_ok {A B : Type} (a : A) (k : A → result B) : Ok a ≫= k = k a.
Proof. reflexivity. Qed.

Lemma py_getitem_dict (d : list (string * pyval)) (key : string) (v : pyval) :
  assoc_get key d = Some v → py_getitem (VDict d) key = Ok v.
Proof. intros Hv. simpl. by rewrite Hv. Qed.

Lemma predict_fields_present (d : list (string * pyval)) (date_v lat_v lon_v : pyval) :
  assoc_get "date" d = Some date_v →
  assoc_get "latitude" d = Some lat_v →
  assoc_get "longitude" d = Some lon_v →
  RequestValidator.validate_json_data (VDict d) = Ok ()
  ∧ RequestValidator.validate_required_fields (VDict d) ["date"; "latitude"; "longitude"]
    = Ok ().
Proof.
  intros Hdate Hlat Hlon. split.
  - apply (validate_json_data_dict d "date"). by rewrite Hdate.
  - apply validate_required_fields_present.
    constructor; [by rewrite Hdate |].
    constructor; [by rewrite Hlat |].
    constructor; [by rewrite Hlon | constructor].
Qed.

(** The [try] block of the handler on a request that has the three
    required fields with coordinates [float] converts: what is left is the
    construction of the request model and what follows it. *)
Lemma predict_body_front `{Environment} (self : StationService.t)
    (d : list (string * pyval)) (date_v lat_v lon_v : pyval) (latitude longitude : pyfloat) :
  assoc_get "date" d = Some date_v →
  assoc_get "latitude" d = Some lat_v →
  assoc_get "longitude" d = Some lon_v →
  py_float lat_v = Ok latitude →
  py_float lon_v = Ok longitude →
  prediction_routes.predict_body self (VDict d)
  = (weather_request ←
       quiet (WeatherDataRequest.init date_v latitude longitude
                (prediction_routes.data_get (VDict d) "include_analysis" (VBool true))
                (prediction_routes.data_get (VDict d) "analysis_types" VNone));
     let found :=
       StationService.find_nearest_station
         (WeatherDataRequest.latitude weather_request)
         (WeatherDataRequest.longitude weather_request) in
     match found.1 with
     | Some nearest_station =>
         if negb (StationService.is_model_available self nearest_station) then
           mret (prediction_routes.unavailable self found.1 found.2)
         else prediction_routes.serve self (VDict d) weather_request nearest_station found.2
     | None => mret (prediction_routes.unavailable self found.1 found.2)
     end).
Proof.
  intros Hdate Hlat Hlon Hflat Hflon. unfold prediction_routes.predict_body.
  destruct (predict_fields_present d _ _ _ Hdate Hlat Hlon) as [-> ->].
  rewrite !traced_bind_quiet_ok.
  rewrite (py_getitem_dict d "date" date_v Hdate), traced_bind_quiet_ok.
  rewrite (py_getitem_dict d "latitude" lat_v Hlat), result_bind_ok, Hflat,
    traced_bind_quiet_ok.
  rewrite (py_getitem_dict d "longitude" lon_v Hlon), result_bind_ok, Hflon,
    traced_bind_quiet_ok.
  reflexivity.
Qed.

(** The stations [get_available_stations] lists. *)
Lemma available_station_registered `{Environment} (self : StationService.t) (station : string) :
  station ∈ StationService.get_available_stations self
  ↔ station ∈ StationService.loaded_stations self
    ∧ is_Some (StationService.models self !! station)
    ∧ is_Some (StationService.scalers self !! station).
Proof.
  unfold StationService.get_available_stations, StationService.is_model_available.
  rewrite list_elem_of_filter, Is_true_true, andb_true_iff, !bool_decide_eq_true.
  tauto.
Qed.

(** C8. A valid request whose nearest station has no model available is
    answered with status 503, [success: false] and details that hold the
    station, its distance (rounded to six decimals) and the available
    stations; the handler makes no service call: no fetch of historical
    data, no preprocessing, no prediction.  The stations listed are those
    of the registry's loaded list, in the order they were loaded, that have
    both a model and a scaler registered; the nearest station is not one of
    them. *)
Theorem predict_model_unavailable `{Environment} (self : StationService.t)
    (d : list (string * pyval)) (date_str : string) (lat_v lon_v : pyval)
    (latitude longitude : pyfloat) (nearest_station : string) (distance : pyfloat) :
  assoc_get "date" d = Some (VStr date_str) →
  assoc_get "latitude" d = Some lat_v →
  assoc_get "longitude" d = Some lon_v →
  is_Some (strptime date_str) →
  py_float lat_v = Ok latitude →
  py_float lon_v = Ok longitude →
  CoordinateValidator.validate_latitude latitude = true →
  CoordinateValidator.validate_longitude longitude = true →
  StationService.find_nearest_station latitude longitude = (Some nearest_station, distance) →
  StationService.is_model_available self nearest_station = false →
  ∃ available : list string,
    prediction_routes.predict self (VDict d)
    = ([],
       (VDict [ ("success", VBool false);
                ("error", VStr ("Modelo para la estación más cercana ("
                                +:+ nearest_station +:+ ") no está disponible"));
                ("details",
                 VDict [ ("nearest_station", VStr nearest_station);
                         ("distance", VFloat (py_round distance 6));
                         ("available_stations", VList (VStr <$> available)) ]) ],
        503))
    ∧ available = StationService.get_available_stations self
    ∧ (nearest_station ∉ available)
    ∧ (∀ station,
         station ∈ available
         ↔ station ∈ StationService.loaded_stations self
           ∧ is_Some (StationService.models self !! station)
           ∧ is_Some (StationService.scalers self !! station))
    ∧ sublist available (StationService.loaded_stations self).
Proof.
  intros Hdate Hlat Hlon Hparse Hflat Hflon Hvlat Hvlon Hnear Hunavail.
  exists (StationService.get_available_stations self).
  split; [| split; [done | split; [| split]]].
  - unfold prediction_routes.predict.
    rewrite (predict_body_front self d _ _ _ _ _ Hdate Hlat Hlon Hflat Hflon).
    rewrite request_init_accepts by done. rewrite traced_bind_quiet_ok.
    cbn [WeatherDataRequest.latitude WeatherDataRequest.longitude].
    rewrite Hnear. cbn [fst snd]. rewrite Hunavail.
    reflexivity.
  - unfold StationService.get_available_stations. rewrite list_elem_of_filter.
    intros [Havail _]. rewrite Hunavail in Havail. done.
  - intros station. apply available_station_registered.
  - unfold StationService.get_available_stations. apply sublist_filter.
Qed.

Lemma nearest_to_sample_request :
  StationService.find_nearest_station (Fin (-0.35)) (Fin (-78.17))
  = (Some "M5025",
     Fin (real_distance (-0.35) (-78.17) {| lat := Fin (-0.3337); lon := Fin (-78.1985) |})).
Proof.
  apply (nearest_fold_first _ _ _ 1); [apply configured_stations_finite | done | |].
  - intros j item Hj. each_station j Hj; compare_distances.
  - intros j item Hlt Hj. each_station j Hj; compare_distances.
Qed.

Lemma predict_model_unavailable_witness :
  let env := sample_env [ "modelo_final_lstm/modelos/M5023_lstm_model.h5";
                          "modelo_final_lstm/modelos/M5023_scaler.pkl";
                          "modelo_final_lstm/modelos/M5025_lstm_model.h5";
                          "modelo_final_lstm/modelos/P34_lstm_model.h5";
                          "modelo_final_lstm/modelos/P34_scaler.pkl" ] (Ok VNone) in
  let self := @StationService.load_all_models env (@StationService.init env) in
  let response :=
    @prediction_routes.predict env self
      (VDict [ ("date", VStr "2024-06-01");
               ("latitude", VFloat (Fin (-0.35)));
               ("longitude", VFloat (Fin (-78.17))) ]) in
  response.1 = [] ∧ response.2.2 = 503
  ∧ ∃ fields details,
      response.2.1 = VDict fields
      ∧ assoc_get "details" fields = Some (VDict details)
      ∧ assoc_get "nearest_station" details = Some (VStr "M5025")
      ∧ assoc_get "available_stations" details = Some (VList [VStr "M5023"; VStr "P34"]).
Proof.
  intros env self response. subst response.
  destruct (@predict_model_unavailable env self
              [ ("date", VStr "2024-06-01");
                ("latitude", VFloat (Fin (-0.35)));
                ("longitude", VFloat (Fin (-78.17))) ]
              "2024-06-01" (VFloat (Fin (-0.35))) (VFloat (Fin (-78.17)))
              (Fin (-0.35)) (Fin (-78.17)) "M5025"
              (Fin (real_distance (-0.35) (-78.17)
                      {| lat := Fin (-0.3337); lon := Fin (-78.1985) |})))
    as (available & -> & -> & _); try reflexivity.
  - by eexists.
  - unfold CoordinateValidator.validate_latitude. simpl.
    rewrite !(proj2 (Rleb_true _ _)) by lra. done.
  - unfold CoordinateValidator.validate_longitude. simpl.
    rewrite !(proj2 (Rleb_true _ _)) by lra. done.
  - apply nearest_to_sample_request.
  - split; [done |]. split; [done |]. eexists _, _.
    split; [reflexivity |]. split; [reflexivity |]. split; [reflexivity |].
    assert (@StationService.get_available_stations env self = ["M5023"; "P34"]) as ->
      by (by vm_compute).
    reflexivity.
Defined.

(** A request that has the required fields and coordinates [float]
    converts, but a date string that does not parse or a coordinate out of
    range, is answered with status 500: the request model raises
    [ValueError], which only the handler's [except Exception] catches. *)
Lemma predict_invalid_request_status `{Environment} (self : StationService.t)
    (d : list (string * pyval)) (date_v lat_v lon_v : pyval) (latitude longitude : pyfloat) :
  assoc_get "date" d = Some date_v →
  assoc_get "latitude" d = Some lat_v →
  assoc_get "longitude" d = Some lon_v →
  py_float lat_v = Ok latitude →
  py_float lon_v = Ok longitude →
  (∀ date_str, date_v = VStr date_str → strptime date_str = None)
  ∨ CoordinateValidator.validate_latitude latitude = false
  ∨ CoordinateValidator.validate_longitude longitude = false →
  ∃ body, prediction_routes.predict self (VDict d) = ([], (body, 500)).
Proof.
  intros Hdate Hlat Hlon Hflat Hflon Hbad. unfold prediction_routes.predict.
  rewrite (predict_body_front self d _ _ _ _ _ Hdate Hlat Hlon Hflat Hflon).
  destruct (request_init_rejects date_v latitude longitude
              (prediction_routes.data_get (VDict d) "include_analysis" (VBool true))
              (prediction_routes.data_get (VDict d) "analysis_types" VNone) Hbad)
    as (e & -> & He).
  rewrite traced_bind_quiet_raise. cbn [outcome trace]. rewrite He. by eexists.
Qed.

(** The path that does answer 400: a request without one of the required
    fields raises [ValidationError]. *)
Lemma predict_missing_field_status `{Environment} (self : StationService.t) :
  (prediction_routes.predict self
     (VDict [ ("date", VStr "2024-06-01"); ("latitude", VInt 91) ])).2.2 = 400.
Proof. reflexivity. Qed.

(** The validator the sibling route [/nearest_station] and the fetcher use
    rejects the same latitude with a [ValidationError]. *)
Lemma validate_coordinates_rejects_91 `{Environment} (longitude : pyfloat) :
  ∃ msg, CoordinateValidator.validate_coordinates (Fin 91) longitude
         = Raise (ValidationError msg).
Proof.
  unfold CoordinateValidator.validate_coordinates, CoordinateValidator.validate_latitude.
  simpl. rewrite (proj2 (Rleb_false 91 90)) by lra. rewrite andb_false_r. by eexists.
Qed.

(** C1 fails on the code.  The request
    [{date: "2024-06-01", latitude: 91, longitude: -78.17}] has the
    required fields and a latitude above 90; the handler answers it with
    status 500, not 400, and makes no service call. *)
Theorem predict_out_of_range_latitude `{Environment} (self : StationService.t) :
  ∃ body,
    prediction_routes.predict self
      (VDict [ ("date", VStr "2024-06-01");
               ("latitude", VInt 91);
               ("longitude", VFloat (Fin (-78.17))) ])
    = ([], (body, 500)).
Proof.
  apply (predict_invalid_request_status self _ (VStr "2024-06-01") (VInt 91)
           (VFloat (Fin (-78.17))) (Fin 91) (Fin (-78.17))); try reflexivity.
  right. left. unfold CoordinateValidator.validate_latitude. simpl.
  rewrite (proj2 (Rleb_false 91 90)) by lra. apply andb_false_r.
Qed.

(** * Further properties of the serving code *)

(** ** The locator and the station information *)

(** X1. On the distances it has computed, the locator answers a station
    of the table with the distance the table has for it, and no distance of
    the table is strictly below that one; it answers no station, and
    infinity, exactly when no distance of the table is below infinity.  At
    coordinates that pass the range check, the locator's answer is the
    answer of this loop on the distances it computes for the configured
    stations. *)
Theorem find_nearest_station_minimal (computed : list (string * pyfloat)) :
  ((∃ entry, entry ∈ computed ∧ PyFloat.lt entry.2 PInf = true) →
   ∃ name d,
     (name, d) ∈ computed
     ∧ nearest_among computed = (Some name, d)
     ∧ ∀ entry, entry ∈ computed → PyFloat.lt entry.2 d = false)
  ∧ ((∀ entry, entry ∈ computed → PyFloat.lt entry.2 PInf = false) →
     nearest_among computed = (None, PInf))
  ∧ ∀ target_lat target_lon,
      CoordinateValidator.validate_latitude target_lat = true →
      CoordinateValidator.validate_longitude target_lon = true →
      StationService.find_nearest_station target_lat target_lon
      = nearest_among
          (computed_distances StationConfig.STATIONS_COORDINATES target_lat target_lon).
Proof.
  split; [| split; [| intros; apply find_nearest_station_computed]].
  - intros (entry & Hentry & Hbelow).
    destruct (nearest_among_least computed)
      as [[_ Hnone] | (name & d & Hin & Hanswer & _ & Hleast)].
    + by rewrite (Hnone entry Hentry) in Hbelow.
    + by exists name, d.
  - intros Hnone.
    destruct (nearest_among_least computed)
      as [[Hanswer _] | (name & d & Hin & _ & Hd & _)]; [done |].
    specialize (Hnone _ Hin). simpl in Hnone. by rewrite Hnone in Hd.
Qed.

(** The distances the locator computes at latitude -0.30885, longitude
    -78.16706478102189. *)
Lemma find_nearest_station_minimal_witness :
  ∃ name d,
    (name, d) ∈ [ ("M5023", Fin (1379645662056329 / 18014398509481984));
                  ("M5025", Fin (5774858495208475 / 144115188075855872));
                  ("P34", Fin (1379645662056329 / 18014398509481984));
                  ("P63", Fin (7866928618364081 / 288230376151711744)) ]
    ∧ nearest_among
        [ ("M5023", Fin (1379645662056329 / 18014398509481984));
          ("M5025", Fin (5774858495208475 / 144115188075855872));
          ("P34", Fin (1379645662056329 / 18014398509481984));
          ("P63", Fin (7866928618364081 / 288230376151711744)) ]
      = (Some name, d).
Proof.
  destruct (find_nearest_station_minimal
              [ ("M5023", Fin (1379645662056329 / 18014398509481984));
                ("M5025", Fin (5774858495208475 / 144115188075855872));
                ("P34", Fin (1379645662056329 / 18014398509481984));
                ("P63", Fin (7866928618364081 / 288230376151711744)) ])
    as [Hsome _].
  destruct Hsome as (name & d & Hin & Hanswer & _).
  - eexists. split; [by left | reflexivity].
  - by exists name, d.
Defined.

Lemma assoc_get_lookup {V : Type} (d : list (string * V)) (i : nat) (k : string) (v : V) :
  NoDup d.*1 → d !! i = Some (k, v) → assoc_get k d = Some v.
Proof.
  revert i. induction d as [| [k' v'] d IH]; intros i Hnodup Hi; [done |].
  apply NoDup_cons in Hnodup as [Hk' Hnodup]. simpl.
  destruct i as [| i]; simpl in Hi.
  - injection Hi as -> ->. by rewrite decide_True.
  - rewrite decide_False; [by eapply IH |].
    intros ->. apply Hk'. apply list_elem_of_fmap. exists (k, v).
    split; [done | by eapply list_elem_of_lookup_2].
Qed.

Lemma assoc_get_Some_elem {V : Type} (d : list (string * V)) (k : string) (v : V) :
  assoc_get k d = Some v → (k, v) ∈ d.
Proof.
  induction d as [| [k' v'] d IH]; [done |]. simpl.
  destruct (decide (k' = k)) as [-> | Hne].
  - intros [= ->]. by left.
  - intros Hv. right. by apply IH.
Qed.

Lemma assoc_get_None {V : Type} (d : list (string * V)) (k : string) :
  assoc_get k d = None ↔ k ∉ d.*1.
Proof.
  induction d as [| [k' v'] d IH]; simpl.
  - split; [intros _ Hk; by apply elem_of_nil in Hk | done].
  - destruct (decide (k' = k)) as [-> | Hne].
    + split; [done | intros Hk; destruct Hk; by left].
    + rewrite IH, not_elem_of_cons.
      split; [intros Hk; split; [congruence | done] | by intros [_ Hk]].
Qed.

(** X2. The information the service builds for the station the locator
    answered carries that station's name, the distance the locator
    answered, and the availability of its model. *)
Theorem get_station_info_nearest `{Environment} (self : StationService.t)
    (target_lat target_lon : R) (name : string) (d : pyfloat) :
  StationService.find_nearest_station (Fin target_lat) (Fin target_lon) = (Some name, d) →
  ∃ info,
    StationService.get_station_info self name (Fin target_lat) (Fin target_lon) = Ok info
    ∧ StationInfo.name info = name
    ∧ StationInfo.distance info = d
    ∧ StationInfo.model_available info = StationService.is_model_available self name.
Proof.
  intros Hnear.
  pose proof configured_stations_finite as Hall. rewrite Forall_forall in Hall.
  destruct (nearest_fold target_lat target_lon StationConfig.STATIONS_COORDINATES
              configured_stations_finite)
    as (i & name' & c & Hi & Hfold & _); [done |].
  unfold StationService.find_nearest_station, StationService.find_nearest_station_in in Hnear.
  rewrite Hfold in Hnear. injection Hnear as <- <-.
  unfold StationService.get_station_info, StationConfig.get_station_coordinates.
  rewrite (assoc_get_lookup _ i name' c station_names_NoDup Hi).
  eexists. split; [reflexivity |]. simpl. repeat split.
  fold (station_distance (Fin target_lat) (Fin target_lon) c).
  apply station_distance_finite, (Hall (name', c)). by eapply list_elem_of_lookup_2.
Qed.

Lemma get_station_info_nearest_witness :
  let env := sample_env [] (Ok VNone) in
  ∃ info,
    @StationService.get_station_info env (@StationService.init env) "M5025"
      (Fin (-0.35)) (Fin (-78.17)) = Ok info
    ∧ StationInfo.name info = "M5025".
Proof.
  intros env.
  destruct (@get_station_info_nearest env (@StationService.init env) (-0.35) (-78.17) "M5025" _
              nearest_to_sample_request) as (info & Hinfo & Hname & _).
  by exists info.
Defined.

(** X3. The service builds the information of exactly the configured
    stations: any other name raises a [ValueError]. *)
Theorem get_station_info_configured `{Environment} (self : StationService.t)
    (station_name : string) (target_lat target_lon : pyfloat) :
  (station_name ∈ StationConfig.get_station_names →
   ∃ info, StationService.get_station_info self station_name target_lat target_lon = Ok info
           ∧ (station_name, {| lat := StationInfo.latitude info;
                               lon := StationInfo.longitude info |})
               ∈ StationConfig.STATIONS_COORDINATES)
  ∧ (station_name ∉ StationConfig.get_station_names →
     ∃ msg, StationService.get_station_info self station_name target_lat target_lon
            = Raise (ValueError msg)).
Proof.
  unfold StationService.get_station_info, StationConfig.get_station_coordinates,
    StationConfig.get_station_names. split.
  - intros Hin.
    destruct (assoc_get station_name StationConfig.STATIONS_COORDINATES) as [c |] eqn:Hc.
    + eexists. split; [reflexivity |]. simpl. apply assoc_get_Some_elem in Hc. by destruct c.
    + by apply assoc_get_None in Hc.
  - intros Hnotin. apply assoc_get_None in Hnotin. rewrite Hnotin. by eexists.
Qed.

Lemma get_station_info_configured_witness :
  let env := sample_env [] (Ok VNone) in
  ∃ msg, @StationService.get_station_info env (@StationService.init env) "M9999"
           (Fin 0) (Fin 0) = Raise (ValueError msg).
Proof.
  intros env.
  apply (@get_station_info_configured env (@StationService.init env) "M9999" (Fin 0) (Fin 0)).
  apply (bool_decide_unpack _). by vm_compute.
Defined.

(** ** The registry after start-up *)

(** X4. [get_model_and_scaler] answers the stored model and scaler of a
    station whose model is available, and raises a [ValueError], never a
    [KeyError], for any other name. *)
Theorem get_model_and_scaler_available `{Environment} (self : StationService.t)
    (station_name : string) :
  (StationService.is_model_available self station_name = true →
   ∃ model scaler,
     StationService.models self !! station_name = Some model
     ∧ StationService.scalers self !! station_name = Some scaler
     ∧ StationService.get_model_and_scaler self station_name = Ok (model, scaler))
  ∧ (StationService.is_model_available self station_name = false →
     ∃ msg, StationService.get_model_and_scaler self station_name = Raise (ValueError msg)).
Proof.
  unfold StationService.get_model_and_scaler. split; intros Havail; rewrite Havail; simpl.
  - unfold StationService.is_model_available in Havail.
    apply andb_true_iff in Havail as [Hm Hs].
    apply bool_decide_eq_true in Hm as [model Hm]. apply bool_decide_eq_true in Hs as [scaler Hs].
    exists model, scaler. by rewrite Hm, Hs.
  - by eexists.
Qed.

Lemma get_model_and_scaler_available_witness :
  let env := sample_env [ "modelo_final_lstm/modelos/P63_lstm_model.h5";
                          "modelo_final_lstm/modelos/P63_scaler.pkl" ] (Ok VNone) in
  let self := @StationService.load_all_models env (@StationService.init env) in
  (∃ model scaler, @StationService.get_model_and_scaler env self "P63" = Ok (model, scaler))
  ∧ (∃ msg, @StationService.get_model_and_scaler env self "P34" = Raise (ValueError msg)).
Proof.
  intros env self. split.
  - destruct (@get_model_and_scaler_available env self "P63") as [Hyes _].
    destruct Hyes as (model & scaler & _ & _ & Hget); [by vm_compute |].
    by exists model, scaler.
  - apply (@get_model_and_scaler_available env self "P34"). by vm_compute.
Defined.

Lemma filter_all {A : Type} (P : A → Prop) `{∀ x, Decision (P x)} (l : list A) :
  (∀ x, x ∈ l → P x) → filter P l = l.
Proof.
  induction l as [| x l IH]; intros Hall; [done |].
  rewrite filter_cons_True by (apply Hall; by left).
  f_equal. apply IH. intros y Hy. apply Hall. by right.
Qed.

Lemma filter_none {A : Type} (P : A → Prop) `{∀ x, Decision (P x)} (l : list A) :
  (∀ x, x ∈ l → ¬ P x) → filter P l = [].
Proof.
  induction l as [| x l IH]; intros Hall; [done |].
  rewrite filter_cons_False by (apply Hall; by left).
  apply IH. intros y Hy. apply Hall. by right.
Qed.

Lemma length_filter_split {A : Type} (P : A → Prop) `{∀ x, Decision (P x)} (l : list A) :
  length (filter P l) + length (filter (λ x, ¬ P x) l) = length l.
Proof.
  induction l as [| x l IH]; [done |].
  destruct (decide (P x)) as [HP | HP].
  - rewrite filter_cons_True, filter_cons_False by tauto. simpl. lia.
  - rewrite filter_cons_False, filter_cons_True by tauto. simpl. lia.
Qed.

(** The state after [load_all_models] on a fresh service. *)
Lemma load_all_models_state `{Environment} :
  let self := StationService.load_all_models StationService.init in
  StationService.loaded_stations self
    = filter (λ s, artifacts_load s) StationConfig.get_station_names
  ∧ StationService.failed_stations self
    = filter (λ s, ¬ artifacts_load s) StationConfig.get_station_names
  ∧ StationService.get_available_stations self = StationService.loaded_stations self.
Proof.
  pose proof (load_loop_invariant StationConfig.get_station_names) as Hinv.
  cbv zeta in Hinv. fold (StationService.load_all_models StationService.init) in Hinv.
  intros self. fold self in Hinv. destruct Hinv as (Hloaded & Hfailed & Hmodels & Hscalers).
  split; [done |]. split; [done |].
  unfold StationService.get_available_stations. apply filter_all.
  intros s Hs. unfold StationService.is_model_available.
  rewrite !bool_decide_eq_true_2; [done | by apply Hscalers | by apply Hmodels].
Qed.

(** X5. After [load_all_models] on a fresh service the available stations
    are exactly the loaded list, which holds, in configured order, the
    stations whose two artifacts loaded. *)
Theorem available_stations_after_load `{Environment} :
  let self := StationService.load_all_models StationService.init in
  StationService.get_available_stations self = StationService.loaded_stations self
  ∧ StationService.loaded_stations self
    = filter (λ s, artifacts_load s) StationConfig.get_station_names
  ∧ StationService.loaded_stations self `sublist_of` StationConfig.get_station_names.
Proof.
  intros self. destruct load_all_models_state as (Hloaded & _ & Havail). fold self in Hloaded, Havail.
  split; [done |]. split; [done |]. rewrite Hloaded. apply sublist_filter.
Qed.

(** X6. The summary taken after start-up counts every configured station
    once: the loaded and the failed counts add up to the total, which is
    4, and the available stations number as many as the loaded ones. *)
Theorem stations_summary_after_load `{Environment} :
  let self := StationService.load_all_models StationService.init in
  let summary := StationService.get_stations_summary self in
  StationsSummary.total_stations summary = 4
  ∧ StationsSummary.loaded_stations summary + StationsSummary.failed_stations summary
    = StationsSummary.total_stations summary
  ∧ length (StationsSummary.available_stations summary)
    = StationsSummary.loaded_stations summary
  ∧ length (StationsSummary.failed_stations_list summary)
    = StationsSummary.failed_stations summary.
Proof.
  intros self summary.
  destruct load_all_models_state as (Hloaded & Hfailed & Havail).
  fold self in Hloaded, Hfailed, Havail. subst summary. unfold StationService.get_stations_summary. simpl.
  split; [done |]. split; [| split; [by rewrite Havail | done]].
  rewrite Hloaded, Hfailed.
  apply (length_filter_split (λ s, artifacts_load s) StationConfig.get_station_names).
Qed.

(** ** Validation of requests *)

Lemma missing_fields_dict (d : list (string * pyval)) (fields : list string) :
  RequestValidator.missing_fields (VDict d) fields
  = Ok (filter (λ field, assoc_get field d = None) fields).
Proof.
  induction fields as [| field rest IH]; [done |].
  cbn [RequestValidator.missing_fields py_contains]. rewrite IH.
  destruct (assoc_get field d) as [v |] eqn:Hfield.
  - rewrite bool_decide_eq_true_2 by (by eexists).
    rewrite filter_cons_False by (by rewrite Hfield). reflexivity.
  - rewrite bool_decide_eq_false_2 by (by intros [? ?]).
    rewrite filter_cons_True by done. reflexivity.
Qed.

(** X7. On a JSON object the check of the required fields passes exactly
    when every field is a key of it; otherwise it raises a
    [ValidationError] whose message lists the missing fields, in the order
    they were required. *)
Theorem validate_required_fields_dict (d : list (string * pyval)) (fields : list string) :
  let missing := filter (λ field, assoc_get field d = None) fields in
  (missing = [] ↔ ∀ field, field ∈ fields → is_Some (assoc_get field d))
  ∧ (missing = [] →
     RequestValidator.validate_required_fields (VDict d) fields = Ok ())
  ∧ (missing ≠ [] →
     RequestValidator.validate_required_fields (VDict d) fields
     = Raise (ValidationError ("Campos requeridos faltantes: "
                               +:+ String.concat ", " missing))).
Proof.
  intros missing. unfold RequestValidator.validate_required_fields.
  rewrite missing_fields_dict. fold missing. cbn [mbind result_bind rbind].
  split; [| split].
  - subst missing. split.
    + intros Hnil field Hfield.
      destruct (assoc_get field d) as [v |] eqn:Hv; [by eexists |].
      assert (field ∈ filter (λ field, assoc_get field d = None) fields) as Hin
        by (by apply list_elem_of_filter).
      rewrite Hnil in Hin. by apply elem_of_nil in Hin.
    + intros Hall. apply filter_none. intros field Hfield Hnone.
      destruct (Hall field Hfield) as [v Hv]. congruence.
  - by intros ->.
  - intros Hne. by destruct missing.
Qed.

Lemma validate_required_fields_dict_witness :
  RequestValidator.validate_required_fields
    (VDict [("latitude", VInt 1)]) ["date"; "latitude"; "longitude"]
  = Raise (ValidationError "Campos requeridos faltantes: date, longitude").
Proof.
  apply (validate_required_fields_dict [("latitude", VInt 1)] ["date"; "latitude"; "longitude"]).
  by vm_compute.
Defined.

(** X8. The handler answers 400, without any service call, a body that is
    not a JSON object, an empty object, and an object that lacks one of
    [date], [latitude], [longitude]. *)
Theorem predict_malformed_request `{Environment} (self : StationService.t) (data : pyval) :
  (∀ d, data = VDict d →
        d = [] ∨ ∃ field, field ∈ ["date"; "latitude"; "longitude"] ∧ assoc_get field d = None) →
  ∃ body, prediction_routes.predict self data = ([], (body, 400)).
Proof.
  intros Hbad. unfold prediction_routes.predict, prediction_routes.predict_body.
  destruct (RequestValidator.validate_json_data data) as [[] | e] eqn:Hjson.
  - assert (∃ kv d, data = VDict (kv :: d)) as (kv & d & ->).
    { unfold RequestValidator.validate_json_data in Hjson.
      destruct data as [| | | | | | [| kv d]]; cbn in Hjson;
        rewrite ?orb_true_r in Hjson; try discriminate Hjson.
      by exists kv, d. }
    destruct (Hbad _ eq_refl) as [? | (field & Hfield & Hnone)]; [done |].
    rewrite traced_bind_quiet_ok.
    assert (field ∈ filter (λ field, assoc_get field (kv :: d) = None)
                           ["date"; "latitude"; "longitude"]) as Hin
      by (by apply list_elem_of_filter).
    unfold RequestValidator.validate_required_fields. rewrite missing_fields_dict.
    cbn [mbind result_bind rbind].
    destruct (filter (λ field, assoc_get field (kv :: d) = None)
                     ["date"; "latitude"; "longitude"]) as [| missing rest];
      [by apply elem_of_nil in Hin |].
    rewrite traced_bind_quiet_raise. cbn [outcome trace is_ValidationError]. by eexists.
  - rewrite traced_bind_quiet_raise. cbn [outcome trace].
    unfold RequestValidator.validate_json_data in Hjson.
    destruct (negb (py_truthy data) || negb (RequestValidator.is_dict data));
      [| discriminate Hjson].
    injection Hjson as <-. cbn [is_ValidationError]. by eexists.
Qed.

Lemma predict_malformed_request_witness :
  let env := sample_env [] (Ok VNone) in
  ∃ body,
    @prediction_routes.predict env (@StationService.init env)
      (VList [VStr "2024-06-01"; VInt 0; VInt 0])
    = ([], (body, 400)).
Proof.
  intros env.
  apply (@predict_malformed_request env (@StationService.init env)).
  intros d Hd. discriminate Hd.
Defined.

(** ** Cleaning of numeric lists *)







(** ** The request model *)

Lemma validate_latitude_range (latitude : pyfloat) :
  CoordinateValidator.validate_latitude latitude = true
  ↔ ∃ a, latitude = Fin a ∧ (-90 <= a <= 90)%R.
Proof.
  unfold CoordinateValidator.validate_latitude. split.
  - destruct latitude as [a | | |]; try done. simpl.
    intros [H1 H2]%andb_true_iff. apply Rleb_true in H1, H2. exists a. split; [done | lra].
  - intros (a & -> & Ha). simpl. rewrite !(proj2 (Rleb_true _ _)) by lra. done.
Qed.

Lemma validate_longitude_range (longitude : pyfloat) :
  CoordinateValidator.validate_longitude longitude = true
  ↔ ∃ b, longitude = Fin b ∧ (-180 <= b <= 180)%R.
Proof.
  unfold CoordinateValidator.validate_longitude. split.
  - destruct longitude as [b | | |]; try done. simpl.
    intros [H1 H2]%andb_true_iff. apply Rleb_true in H1, H2. exists b. split; [done | lra].
  - intros (b & -> & Hb). simpl. rewrite !(proj2 (Rleb_true _ _)) by lra. done.
Qed.

(** X10. The request model is built exactly for a date that is a string
    [strptime] parses, a latitude in [-90, 90] and a longitude in
    [-180, 180], bounds included; NaN and infinite coordinates are
    refused, and so is a date that is not a string. *)
Theorem request_init_accepts_iff `{Environment} (date : pyval) (latitude longitude : pyfloat)
    (include_analysis analysis_types : pyval) :
  (∃ request,
     WeatherDataRequest.init date latitude longitude include_analysis analysis_types
     = Ok request)
  ↔ ∃ date_str a b,
      date = VStr date_str ∧ is_Some (strptime date_str)
      ∧ latitude = Fin a ∧ (-90 <= a <= 90)%R
      ∧ longitude = Fin b ∧ (-180 <= b <= 180)%R.
Proof.
  split.
  - intros [request Hinit].
    unfold WeatherDataRequest.init, WeatherDataRequest._validate_date,
      WeatherDataRequest._validate_coordinates in Hinit.
    fold (CoordinateValidator.validate_latitude latitude) in Hinit.
    fold (CoordinateValidator.validate_longitude longitude) in Hinit.
    destruct date as [| | | | date_str | |]; try discriminate Hinit.
    destruct (strptime date_str) as [end_date |] eqn:Hparse; [| discriminate Hinit].
    cbn [mbind result_bind rbind] in Hinit.
    destruct (CoordinateValidator.validate_latitude latitude) eqn:Hlat;
      [| discriminate Hinit].
    destruct (CoordinateValidator.validate_longitude longitude) eqn:Hlon;
      [| discriminate Hinit].
    apply validate_latitude_range in Hlat as (a & -> & Ha).
    apply validate_longitude_range in Hlon as (b & -> & Hb).
    exists date_str, a, b. by rewrite Hparse.
  - intros (date_str & a & b & -> & Hparse & -> & Ha & -> & Hb).
    eexists. apply request_init_accepts; [done | |].
    + apply validate_latitude_range. by exists a.
    + apply validate_longitude_range. by exists b.
Qed.

(** ** The historical data fetcher: failures and the success path *)

(** X11. The fetcher validates before it asks: a date that does not parse
    or a coordinate out of range raises a [ValidationError], whatever the
    archive API would have answered. *)
Theorem get_historical_data_validates `{Environment} (date_str : string) (lat lon : pyfloat) :
  strptime date_str = None
  ∨ CoordinateValidator.validate_latitude lat = false
  ∨ CoordinateValidator.validate_longitude lon = false →
  ∃ msg, WeatherDataService.get_historical_data date_str lat lon
         = Raise (ValidationError msg).
Proof.
  intros Hbad.
  unfold WeatherDataService.get_historical_data, DateValidator.validate_date_string,
    DateValidator.validate_date_format, CoordinateValidator.validate_coordinates.
  destruct (strptime date_str) as [end_date |] eqn:Hparse; cbn [negb mbind result_bind rbind];
    [| by eexists].
  destruct Hbad as [? | [Hlat | Hlon]]; [done | |].
  - rewrite Hlat. cbn [negb mbind result_bind rbind]. by eexists.
  - rewrite Hlon. destruct (CoordinateValidator.validate_latitude lat);
      cbn [negb mbind result_bind rbind]; by eexists.
Qed.

Lemma get_historical_data_validates_witness :
  let env := sample_env [] (Ok ragged_response) in
  ∃ msg, @WeatherDataService.get_historical_data env "junio" (Fin 0) (Fin 0)
         = Raise (ValidationError msg).
Proof.
  intros env. apply (@get_historical_data_validates env "junio" (Fin 0) (Fin 0)).
  by left.
Defined.

(** X12. A failure of the HTTP exchange ([RequestException]) reaches the
    caller as a [ValueError] that carries its message after
    "Error de conexión con Open-Meteo: "; nothing is retried. *)
Theorem get_historical_data_connection_error `{Environment} (date_str : string)
    (lat lon : pyfloat) (end_date : Date) (msg : string) :
  strptime date_str = Some end_date →
  CoordinateValidator.validate_coordinates lat lon = Ok () →
  requests_get_json lat lon (strftime (minus_days end_date AppConfig.HISTORICAL_DAYS))
                    (strftime end_date) = Raise (RequestException msg) →
  WeatherDataService.get_historical_data date_str lat lon
  = Raise (ValueError ("Error de conexión con Open-Meteo: " +:+ msg)).
Proof.
  intros Hdate Hcoords Hfail.
  unfold WeatherDataService.get_historical_data, DateValidator.validate_date_string,
    DateValidator.validate_date_format.
  rewrite Hdate, Hcoords. cbn [negb mbind result_bind rbind].
  unfold WeatherDataService._fetch_data_from_api. by rewrite Hfail.
Qed.

Lemma get_historical_data_connection_error_witness :
  let env := sample_env [] (Raise (RequestException "timeout")) in
  @WeatherDataService.get_historical_data env "2024-06-01" (Fin (-0.35)) (Fin (-78.17))
  = Raise (ValueError "Error de conexión con Open-Meteo: timeout").
Proof.
  intros env.
  apply (@get_historical_data_connection_error env "2024-06-01" (Fin (-0.35)) (Fin (-78.17))
           "2024-06-01" "timeout").
  - reflexivity.
  - apply validate_coordinates_ok; lra.
  - reflexivity.
Defined.

(** X13. A response whose hourly block holds the three series as lists
    passes the validation.  The fetcher then cleans the temperature, the
    precipitation and the humidity series, in that order, and an exception
    of a cleaning ends the call; when the three are cleaned, the data built
    holds them, the [time] list when there is one and an empty list
    otherwise, and the bounds [date - HISTORICAL_DAYS] and [date] of the
    window that was asked for. *)
Theorem get_historical_data_success `{Environment} (date_str : string) (lat lon : pyfloat)
    (end_date : Date) (d hourly : list (string * pyval)) (ts ps hs : list pyval) :
  strptime date_str = Some end_date →
  CoordinateValidator.validate_coordinates lat lon = Ok () →
  requests_get_json lat lon (strftime (minus_days end_date AppConfig.HISTORICAL_DAYS))
                    (strftime end_date) = Ok (VDict d) →
  assoc_get "hourly" d = Some (VDict hourly) →
  assoc_get "temperature_2m" hourly = Some (VList ts) →
  assoc_get "precipitation" hourly = Some (VList ps) →
  assoc_get "relative_humidity_2m" hourly = Some (VList hs) →
  WeatherDataService.get_historical_data date_str lat lon
  = temperatures ← WeatherDataService._clean_numeric_data ts;
    precipitations ← WeatherDataService._clean_numeric_data ps;
    humidity ← WeatherDataService._clean_numeric_data hs;
    Ok {| HistoricalWeatherData.temperatures := temperatures;
          HistoricalWeatherData.precipitations := precipitations;
          HistoricalWeatherData.humidity := humidity;
          HistoricalWeatherData.timestamps := default (VList []) (assoc_get "time" hourly);
          HistoricalWeatherData.start_date :=
            strftime (minus_days end_date AppConfig.HISTORICAL_DAYS);
          HistoricalWeatherData.end_date := strftime end_date |}.
Proof.
  intros Hdate Hcoords Hanswer Hhourly Hts Hps Hhs.
  rewrite (get_historical_data_answered _ _ _ _ _ Hdate Hcoords Hanswer).
  rewrite validate_api_response_dict, Hhourly.
  unfold WeatherDataService.required_keys.
  cbn [WeatherDataService.check_required_keys py_contains].
  rewrite Hts, Hps, Hhs.
  rewrite !bool_decide_eq_true_2 by (by eexists). cbn [mbind result_bind rbind].
  unfold WeatherDataService._process_api_response.
  rewrite (py_getitem_dict d "hourly" _ Hhourly). cbn [mbind result_bind rbind].
  rewrite (py_getitem_dict hourly "temperature_2m" _ Hts),
          (py_getitem_dict hourly "precipitation" _ Hps),
          (py_getitem_dict hourly "relative_humidity_2m" _ Hhs).
  reflexivity.
Qed.

Lemma get_historical_data_success_witness :
  let env := sample_env [] (Ok ragged_response) in
  ∃ h, @WeatherDataService.get_historical_data env "2024-06-01" (Fin (-0.35)) (Fin (-78.17))
       = Ok h
       ∧ HistoricalWeatherData.precipitations h = [Fin 0].
Proof.
  intros env. eexists. split.
  - pose (hourly :=
            [ ("time", VList [VStr "2024-05-02T00:00"; VStr "2024-05-02T01:00"]);
              ("temperature_2m", VList [VFloat (Fin 10); VFloat (Fin 11)]);
              ("precipitation", VList [VFloat (Fin 0)]);
              ("relative_humidity_2m", VList [VFloat (Fin 80); VFloat (Fin 81)]) ]).
    apply (@get_historical_data_success env "2024-06-01" (Fin (-0.35)) (Fin (-78.17))
             "2024-06-01" [("hourly", VDict hourly)] hourly
             [VFloat (Fin 10); VFloat (Fin 11)] [VFloat (Fin 0)]
             [VFloat (Fin 80); VFloat (Fin 81)]);
      [reflexivity | apply validate_coordinates_ok; lra | reflexivity..].
  - reflexivity.
Defined.

(** ** Cleaning of NaN values in the feature array *)

Lemma interpolate_no_none `{Environment} (data : list (option pyfloat)) :
  (∀ v, v ∈ data → v ≠ None) →
  ∀ v, v ∈ DataCleaner.interpolate_missing_values data → v ≠ None.
Proof.
  intros Hsome v Hv. rewrite interpolate_unfold in Hv.
  destruct (length (DataCleaner.valid_indices data) <? 2); [by apply Hsome |].
  apply list_elem_of_lookup_1 in Hv as [i Hi].
  assert (i < length data) as Hlt.
  { apply lookup_lt_Some in Hi. by rewrite interpolate_loop_length in Hi. }
  rewrite interpolate_loop_lookup in Hi by done.
  rewrite bool_decide_eq_true_2 in Hi by lia.
  unfold DataCleaner.fill_value in Hi.
  destruct (bool_decide (i ∈ DataCleaner.valid_indices data)) eqn:Hvalid.
  { apply Hsome. by eapply list_elem_of_lookup_2. }
  apply bool_decide_eq_false in Hvalid.
  destruct (find_neighbors_sorted i (DataCleaner.valid_indices data) None) as [Hp Hn];
    [apply valid_indices_from_sorted | done |].
  destruct (DataCleaner.find_neighbors i (DataCleaner.valid_indices data) None)
    as [[p |] [n |]]; simpl in Hp, Hn.
  - by injection Hi as <-.
  - destruct Hp as [(Hp & _) | [? _]]; [| done].
    destruct (valid_index_holds_float data p Hp) as [y Hy]. injection Hi as <-. by rewrite Hy.
  - destruct Hn as (Hn & _).
    destruct (valid_index_holds_float data n Hn) as [y Hy]. injection Hi as <-. by rewrite Hy.
  - apply Hsome. by eapply list_elem_of_lookup_2.
Qed.

Lemma interpolate_length `{Environment} (data : list (option pyfloat)) :
  length (DataCleaner.interpolate_missing_values data) = length data.
Proof.
  rewrite interpolate_unfold.
  destruct (length (DataCleaner.valid_indices data) <? 2); [done |].
  apply interpolate_loop_length.
Qed.

Lemma as_floats_some (values : list (option pyfloat)) :
  (∀ v, v ∈ values → v ≠ None) →
  ∃ floats, PredictionService.as_floats values = Ok floats ∧ length floats = length values.
Proof.
  unfold PredictionService.as_floats.
  induction values as [| v rest IH]; intros Hsome; [by exists [] |].
  destruct IH as (floats & Hrest & Hlen); [intros w Hw; apply Hsome; by right |].
  destruct v as [x |]; [| by destruct (Hsome None); [left |]].
  exists (x :: floats). cbn [mapM mbind result_bind rbind]. rewrite Hrest.
  split; [reflexivity | simpl; lia].
Qed.

Lemma column_length (col : nat) (a : list (list pyfloat)) :
  Forall (λ row, col < length row) a → length (np.column col a) = length a.
Proof.
  unfold np.column. induction 1 as [| row rest Hrow _ IH]; [done |]. csimpl.
  destruct (lookup_lt_is_Some_2 row col Hrow) as [x ->]. simpl. by rewrite IH.
Qed.

Lemma set_column_shape (col m : nat) (values : list pyfloat) (a : list (list pyfloat)) :
  length values = length a →
  Forall (λ row, length row = m) a →
  length (np.set_column col values a) = length a
  ∧ Forall (λ row, length row = m) (np.set_column col values a).
Proof.
  unfold np.set_column. revert values.
  induction a as [| row rest IH]; intros values Hlen Hrect; [by destruct values |].
  destruct values as [| x values]; [done |]. simpl in Hlen.
  apply Forall_cons in Hrect as [Hrow Hrest].
  destruct (IH values) as [IHlen IHrect]; [lia | done |]. simpl. split; [lia |].
  apply Forall_cons. split; [by rewrite length_insert | done].
Qed.

Lemma clean_column_shape `{Environment} (col m : nat) (a : list (list pyfloat)) :
  col < m →
  Forall (λ row, length row = m) a →
  ∃ a', PredictionService.clean_column a col = Ok a'
        ∧ length a' = length a
        ∧ Forall (λ row, length row = m) a'.
Proof.
  intros Hcol Hrect. unfold PredictionService.clean_column.
  destruct (as_floats_some
              (DataCleaner.interpolate_missing_values (Some <$> np.column col a)))
    as (values & -> & Hlen).
  { apply interpolate_no_none. intros v (x & -> & _)%list_elem_of_fmap. done. }
  rewrite interpolate_length, length_fmap, column_length in Hlen.
  2:{ eapply Forall_impl; [exact Hrect |]. intros row Hrow. simpl in *. lia. }
  cbn [mbind result_bind rbind mret result_ret].
  destruct (set_column_shape col m values a Hlen Hrect) as [Hl Hr].
  eexists. by repeat split.
Qed.

(** X15. On a rectangular array the cleaning of NaN values never raises
    and keeps the shape; an array without NaN comes back as it is. *)
Theorem clean_nan_values_shape `{Environment} (data : list (list pyfloat)) (m : nat) :
  Forall (λ row, length row = m) data →
  (∃ data', PredictionService._clean_nan_values data = Ok data'
            ∧ length data' = length data
            ∧ Forall (λ row, length row = m) data')
  ∧ (existsb PyFloat.isnan (concat data) = false →
     PredictionService._clean_nan_values data = Ok data).
Proof.
  intros Hrect. unfold PredictionService._clean_nan_values. split.
  - destruct (existsb PyFloat.isnan (concat data)); [| by exists data].
    assert (Forall (λ col, col < m) (seq 0 (np.shape1 data))) as Hcols.
    { apply Forall_seq. intros col Hcol. destruct data as [| row rest]; simpl in Hcol; [lia |].
      apply Forall_cons in Hrect as [Hrow _]. lia. }
    revert Hcols. generalize (seq 0 (np.shape1 data)) as cols.
    assert (∃ a, (Ok data : result (list (list pyfloat))) = Ok a
                 ∧ length a = length data ∧ Forall (λ row, length row = m) a) as Hacc
      by (by exists data).
    revert Hacc. generalize (Ok data : result (list (list pyfloat))) as acc.
    intros acc Hacc cols. revert acc Hacc.
    induction cols as [| col cols IH]; intros acc Hacc Hcols; [done |].
    apply Forall_cons in Hcols as [Hcol Hcols]. simpl. apply IH; [| done].
    destruct Hacc as (a & -> & Hlen & Ha). cbn [mbind result_bind rbind].
    destruct (clean_column_shape col m a Hcol Ha) as (a' & -> & Hlen' & Ha').
    exists a'. split; [done |]. split; [lia | done].
  - by intros ->.
Qed.

Lemma clean_nan_values_shape_witness :
  let env := sample_env [] (Ok VNone) in
  ∃ data',
    @PredictionService._clean_nan_values env
      [[Fin 0; Fin 10; Fin 80]; [NaN; Fin 11; Fin 81]; [Fin 2; Fin 12; NaN]] = Ok data'
    ∧ length data' = 3.
Proof.
  intros env.
  destruct (@clean_nan_values_shape env
              [[Fin 0; Fin 10; Fin 80]; [NaN; Fin 11; Fin 81]; [Fin 2; Fin 12; NaN]] 3)
    as [(data' & Hclean & Hlen & _) _]; [by repeat constructor |].
  by exists data'.
Defined.

(** ** Preprocessing *)

Lemma feature_columns_found (h : HistoricalWeatherData.t) :
  mapM (PredictionService.feature_column (HistoricalWeatherData.feature_items h))
       (PredictionService.feature_columns PredictionService.init)
  = Ok [ HistoricalWeatherData.precipitations h;
         HistoricalWeatherData.temperatures h;
         HistoricalWeatherData.humidity h ].
Proof. reflexivity. Qed.

Lemma array_T_features (h : HistoricalWeatherData.t) :
  length (HistoricalWeatherData.temperatures h)
    = length (HistoricalWeatherData.precipitations h) →
  length (HistoricalWeatherData.humidity h)
    = length (HistoricalWeatherData.precipitations h) →
  np.array_T [ HistoricalWeatherData.precipitations h;
               HistoricalWeatherData.temperatures h;
               HistoricalWeatherData.humidity h ]
  = Ok (feature_rows h).
Proof.
  destruct h as [ts ps hs stamps start_date end_date]. simpl. intros Hts Hhs.
  unfold np.array_T, feature_rows. simpl.
  rewrite Hts, Hhs, Nat.eqb_refl. simpl. f_equal.
  apply list_eq. intros i.
  rewrite list_lookup_fmap, !lookup_zip_with.
  destruct (decide (i < length ps)) as [Hi | Hi].
  - rewrite lookup_seq_lt by done. simpl.
    destruct (lookup_lt_is_Some_2 ps i Hi) as [p ->].
    destruct (lookup_lt_is_Some_2 ts i ltac:(lia)) as [t ->].
    destruct (lookup_lt_is_Some_2 hs i ltac:(lia)) as [u ->].
    reflexivity.
  - rewrite lookup_seq_ge by lia. rewrite (lookup_ge_None_2 ps) by lia. reflexivity.
Qed.

(** X16. Preprocessing fails with a [ValueError], and with nothing else:
    it does so for series of unequal lengths and for empty series, and
    whatever goes wrong inside it reaches the caller as a [ValueError]. *)
Theorem preprocess_data_rejects `{Environment} (h : HistoricalWeatherData.t) (scaler : Scaler) :
  (∀ e, PredictionService.preprocess_data PredictionService.init h scaler = Raise e →
        ∃ msg, e = ValueError msg)
  ∧ (length (HistoricalWeatherData.temperatures h)
       ≠ length (HistoricalWeatherData.precipitations h)
     ∨ length (HistoricalWeatherData.humidity h)
       ≠ length (HistoricalWeatherData.precipitations h)
     ∨ HistoricalWeatherData.precipitations h = [] →
     ∃ msg, PredictionService.preprocess_data PredictionService.init h scaler
            = Raise (ValueError msg)).
Proof.
  unfold PredictionService.preprocess_data. cbv zeta. rewrite feature_columns_found.
  cbn [mbind result_bind rbind]. split.
  - intros e He. destruct (np.array_T _ ≫= _); [done |]. injection He as <-. by eexists.
  - intros Hbad.
    destruct (decide (length (HistoricalWeatherData.temperatures h)
                      = length (HistoricalWeatherData.precipitations h)
                      ∧ length (HistoricalWeatherData.humidity h)
                        = length (HistoricalWeatherData.precipitations h)))
      as [[Hts Hhs] | Hragged].
    + destruct Hbad as [? | [? | Hempty]]; [done | done |].
      rewrite array_T_features by done. cbn [mbind result_bind rbind].
      unfold feature_rows. rewrite Hempty. simpl. by eexists.
    + assert (np.array_T [ HistoricalWeatherData.precipitations h;
                           HistoricalWeatherData.temperatures h;
                           HistoricalWeatherData.humidity h ]
              = Raise (ValueError
                         "setting an array element with a sequence: inhomogeneous shape"))
        as ->.
      { unfold np.array_T. simpl. rewrite Nat.eqb_refl. simpl.
        destruct (_ =? _) eqn:Hts; simpl; [| done].
        destruct (length (HistoricalWeatherData.humidity h) =? _) eqn:Hhs; simpl; [| done].
        apply Nat.eqb_eq in Hts, Hhs. by destruct Hragged. }
      cbn [mbind result_bind rbind]. by eexists.
Qed.

Lemma preprocess_data_rejects_witness :
  let env := sample_env [] (Ok VNone) in
  ∃ msg,
    @PredictionService.preprocess_data env PredictionService.init
      {| HistoricalWeatherData.temperatures := [Fin 10; Fin 11];
         HistoricalWeatherData.precipitations := [Fin 0];
         HistoricalWeatherData.humidity := [Fin 80; Fin 81];
         HistoricalWeatherData.timestamps := VList [];
         HistoricalWeatherData.start_date := "2024-05-02";
         HistoricalWeatherData.end_date := "2024-06-01" |} ()
    = Raise (ValueError msg).
Proof.
  intros env. apply (@preprocess_data_rejects env). left. simpl. lia.
Defined.

Lemma feature_rows_size (h : HistoricalWeatherData.t) :
  length (HistoricalWeatherData.temperatures h)
    = length (HistoricalWeatherData.precipitations h) →
  length (HistoricalWeatherData.humidity h)
    = length (HistoricalWeatherData.precipitations h) →
  HistoricalWeatherData.precipitations h ≠ [] →
  (np.size (feature_rows h) =? 0) = false.
Proof.
  destruct h as [ts ps hs stamps start_date end_date]. simpl. intros Hts Hhs Hne.
  unfold feature_rows. simpl.
  destruct ps as [| p ps]; [done |]. destruct ts as [| t ts]; [done |].
  destruct hs as [| u hs]; [done |]. reflexivity.
Qed.

Lemma create_sequences_enough (self : PredictionService.t) (scaled : list (list pyfloat)) :
  PredictionService.time_step self ≤ length scaled →
  PredictionService._create_sequences self scaled
  = Ok ((λ i, take (PredictionService.time_step self) (drop i scaled))
          <$> seq 0 (length scaled - PredictionService.time_step self + 1)).
Proof.
  intros Hlen. unfold PredictionService._create_sequences.
  rewrite (proj2 (Nat.ltb_ge _ _)) by done. f_equal.
  apply list_fmap_ext. intros i j Hj. unfold np.slice. f_equal. lia.
Qed.

(** X17. When the three series have one length and are not empty, the
    array handed to the scaler has one row per hour, holding precipitation,
    temperature and humidity in that order (after the cleaning of NaN
    values), and the windows are cut from what the scaler answers: [n - 29]
    windows of 30 rows for an answer of [n >= 30] rows, a [ValueError] for
    a shorter one. *)
Theorem preprocess_data_windows `{Environment} (h : HistoricalWeatherData.t) (scaler : Scaler)
    (cleaned scaled : list (list pyfloat)) :
  length (HistoricalWeatherData.temperatures h)
    = length (HistoricalWeatherData.precipitations h) →
  length (HistoricalWeatherData.humidity h)
    = length (HistoricalWeatherData.precipitations h) →
  HistoricalWeatherData.precipitations h ≠ [] →
  PredictionService._clean_nan_values (feature_rows h) = Ok cleaned →
  scaler_transform scaler cleaned = Ok scaled →
  (30 ≤ length scaled →
   ∃ X, PredictionService.preprocess_data PredictionService.init h scaler = Ok X
        ∧ length X = length scaled - 29
        ∧ ∀ i, i < length scaled - 29 → X !! i = Some (take 30 (drop i scaled)))
  ∧ (length scaled < 30 →
     ∃ msg, PredictionService.preprocess_data PredictionService.init h scaler
            = Raise (ValueError msg)).
Proof.
  intros Hts Hhs Hne Hclean Hscaled.
  unfold PredictionService.preprocess_data. cbv zeta. rewrite feature_columns_found.
  cbn [mbind result_bind rbind]. rewrite array_T_features by done.
  cbn [mbind result_bind rbind]. rewrite feature_rows_size by done.
  rewrite Hclean. cbn [mbind result_bind rbind]. rewrite Hscaled.
  cbn [mbind result_bind rbind]. split.
  - intros Hlen. rewrite create_sequences_enough by exact Hlen.
    change (PredictionService.time_step PredictionService.init) with 30.
    eexists. split; [reflexivity |]. split.
    + rewrite length_fmap, length_seq. lia.
    + intros i Hi. rewrite list_lookup_fmap, lookup_seq_lt by lia. reflexivity.
  - intros Hshort. unfold PredictionService._create_sequences.
    change (PredictionService.time_step PredictionService.init) with 30.
    rewrite (proj2 (Nat.ltb_lt _ _)) by done. by eexists.
Qed.

Lemma preprocess_data_windows_witness :
  let env := sample_env [] (Ok VNone) in
  let h := {| HistoricalWeatherData.temperatures := replicate 31 (Fin 10);
              HistoricalWeatherData.precipitations := replicate 31 (Fin 0);
              HistoricalWeatherData.humidity := replicate 31 (Fin 80);
              HistoricalWeatherData.timestamps := VList [];
              HistoricalWeatherData.start_date := "2024-05-02";
              HistoricalWeatherData.end_date := "2024-06-01" |} in
  ∃ X, @PredictionService.preprocess_data env PredictionService.init h () = Ok X
       ∧ length X = 2.
Proof.
  intros env h.
  destruct (@preprocess_data_windows env h () (feature_rows h) (feature_rows h))
    as [Hwin _]; try reflexivity; [done |].
  destruct Hwin as (X & HX & Hlen & _); [vm_compute; lia |].
  exists X. split; [exact HX |]. rewrite Hlen. reflexivity.
Defined.

(** ** The shape of the responses *)

Lemma assoc_get_dict_set_ne {V : Type} (k k' : string) (v : V) (d : list (string * V)) :
  k ≠ k' → assoc_get k (dict_set k' v d) = assoc_get k d.
Proof.
  intros Hne. induction d as [| [k0 v0] d IH]; simpl.
  - by rewrite decide_False by done.
  - destruct (decide (k0 = k')) as [-> | Hk0]; simpl.
    + by rewrite !decide_False by done.
    + by rewrite IH.
Qed.

Lemma assoc_get_dict_set_eq {V : Type} (k : string) (v : V) (d : list (string * V)) :
  assoc_get k (dict_set k v d) = Some v.
Proof.
  induction d as [| [k0 v0] d IH]; simpl.
  - by rewrite decide_True.
  - destruct (decide (k0 = k)) as [-> | Hk0]; simpl.
    + by rewrite decide_True.
    + by rewrite decide_False.
Qed.

Lemma assoc_get_dict_update_notin {V : Type} (k : string) (d other : list (string * V)) :
  k ∉ other.*1 → assoc_get k (dict_update d other) = assoc_get k d.
Proof.
  unfold dict_update. revert d. induction other as [| [k' v'] other IH]; intros d Hk; [done |].
  simpl in *. apply not_elem_of_cons in Hk as [Hne Hk].
  rewrite IH by done. by apply assoc_get_dict_set_ne.
Qed.

(** The dictionary of a response always says whether it succeeded,
    provided its data do not themselves hold a [success] key. *)
Lemma to_dict_success (response : APIResponse.t) :
  (∀ d, APIResponse.data response = Some d → "success" ∉ d.*1) →
  ∃ fields, APIResponse.to_dict response = VDict fields
            ∧ assoc_get "success" fields = Some (VBool (APIResponse.success response)).
Proof.
  intros Hdata. unfold APIResponse.to_dict. eexists. split; [reflexivity |].
  assert (∀ (b : bool) (v : pyval) (k : string) (d : list (string * pyval)),
            k ≠ "success" →
            assoc_get "success" (if b then dict_set k v d else d) = assoc_get "success" d)
    as Hif by (intros [] v k d Hk; [by apply assoc_get_dict_set_ne | done]).
  destruct (APIResponse.details response) as [details |];
    [rewrite Hif by done |];
    (destruct (APIResponse.error response) as [msg |]; [rewrite Hif by done |]);
    (destruct (APIResponse.data response) as [[| kv d] |] eqn:Hd; try done;
     rewrite assoc_get_dict_update_notin by (by apply Hdata); done).
Qed.

Lemma failure_well_formed (msg : string) (status : nat) :
  status ≠ 200 →
  well_formed_response
    (APIResponse.to_dict
       {| APIResponse.success := false; APIResponse.data := None;
          APIResponse.error := Some msg; APIResponse.details := None |}, status).
Proof.
  intros Hstatus.
  destruct (to_dict_success {| APIResponse.success := false; APIResponse.data := None;
                               APIResponse.error := Some msg; APIResponse.details := None |})
    as (fields & Hfields & Hsuccess); [done |].
  exists fields. simpl. split; [done |]. rewrite Hsuccess. simpl.
  by rewrite (proj2 (Nat.eqb_neq _ _)).
Qed.

(** ** The runs of the handler *)

Lemma traced_bind_call_ok {A B : Type} (ev : event) (a : A) (k : A → traced B) :
  call ev (Ok a) ≫= k = Traced (ev :: trace (k a)) (outcome (k a)).
Proof. reflexivity. Qed.

Lemma traced_bind_call_raise {A B : Type} (ev : event) (e : exn) (k : A → traced B) :
  call ev (Raise e) ≫= k = Traced [ev] (Raise e).
Proof. reflexivity. Qed.

Lemma traced_bind_ret {A B : Type} (a : A) (k : A → traced B) : mret a ≫= k = k a.
Proof. apply traced_bind_quiet_ok. Qed.

(** One step of a run: the next service call or silent computation either
    raises, which ends the run, or hands its value to what follows. *)
Ltac handler_step :=
  match goal with
  | |- context [mbind ?k (quiet ?r)] =>
      let a := fresh "a" in
      let e := fresh "e" in
      destruct r as [a | e];
      [rewrite (traced_bind_quiet_ok a k) | rewrite (traced_bind_quiet_raise e k)]
  | |- context [mbind ?k (call ?ev ?r)] =>
      let a := fresh "a" in
      let e := fresh "e" in
      destruct r as [a | e];
      [rewrite (traced_bind_call_ok ev a k) | rewrite (traced_bind_call_raise ev e k)]
  end.

Lemma dict_set_keys_notin {V : Type} (k k' : string) (v : V) (d : list (string * V)) :
  k ≠ k' → k ∉ d.*1 → k ∉ (dict_set k' v d).*1.
Proof.
  intros Hne. induction d as [| [k0 v0] d IH]; simpl.
  - intros _ Hk. apply elem_of_cons in Hk as [? | Hk]; [done | by apply elem_of_nil in Hk].
  - intros [Hk0 Hd]%not_elem_of_cons. destruct (decide (k0 = k')) as [-> | Hne0]; simpl.
    + by apply not_elem_of_cons.
    + apply not_elem_of_cons. split; [done | by apply IH].
Qed.

Lemma success_well_formed (response_data : list (string * pyval)) :
  "success" ∉ response_data.*1 →
  well_formed_response
    (APIResponse.to_dict
       {| APIResponse.success := true; APIResponse.data := Some response_data;
          APIResponse.error := None; APIResponse.details := None |}, 200).
Proof.
  intros Hkeys.
  destruct (to_dict_success {| APIResponse.success := true;
                               APIResponse.data := Some response_data;
                               APIResponse.error := None; APIResponse.details := None |})
    as (fields & Hfields & Hsuccess); [by intros d [= <-] |].
  exists fields. by split.
Qed.

Lemma unavailable_well_formed `{Environment} (self : StationService.t)
    (nearest_station : option string) (distance : pyfloat) :
  well_formed_response (prediction_routes.unavailable self nearest_station distance)
  ∧ (prediction_routes.unavailable self nearest_station distance).2 = 503.
Proof.
  split; [| done]. unfold prediction_routes.unavailable.
  match goal with
  | |- well_formed_response (APIResponse.to_dict ?r, _) =>
      destruct (to_dict_success r) as (fields & Hfields & Hsuccess); [done |]
  end.
  exists fields. by split.
Qed.

(** What a run of steps 3 to 9 leaves: a record of calls that follows the
    order fetch, preprocess, predict, analyse, and, when it answers, a
    well-formed response with status 500 after three calls or status 200
    after three or four. *)
Lemma serve_spec `{Environment} (self : StationService.t) (data : pyval)
    (weather_request : WeatherDataRequest.t) (nearest_station : string) (distance : pyfloat) :
  let run := prediction_routes.serve self data weather_request nearest_station distance in
  let calls := full_trace (WeatherDataRequest.date weather_request)
                          (WeatherDataRequest.latitude weather_request)
                          (WeatherDataRequest.longitude weather_request) in
  trace run `prefix_of` calls
  ∧ match outcome run with
    | Ok response =>
        well_formed_response response
        ∧ (response.2 = 500 ∧ trace run = take 3 calls
           ∨ response.2 = 200 ∧ (trace run = take 3 calls ∨ trace run = calls))
    | Raise _ => True
    end.
Proof.
  intros run calls. subst run calls. unfold prediction_routes.serve, full_trace. cbv zeta.
  handler_step; [| cbn [trace outcome]; split; [apply prefix_nil | done]].
  handler_step; [| cbn [trace outcome]; split; [by eexists | done]].
  handler_step; [| cbn [trace outcome]; split; [by eexists | done]].
  handler_step; [| cbn [trace outcome]; split; [by eexists | done]].
  destruct (PredictionService.validate_predictions a2).
  2:{ cbn [negb mret traced_ret trace outcome]. split; [by eexists |]. split; [| by left].
      by apply failure_well_formed. }
  cbn [negb].
  destruct (py_truthy (WeatherDataRequest.include_analysis weather_request)).
  - rewrite traced_bind_call_ok. handler_step.
    + cbn [mret traced_ret trace outcome]. split; [by exists [] |]. split; [| right; by auto].
      apply success_well_formed.
      destruct (analyze_predictions a2 data) as [[analysis |] [msg |]]; simpl;
        repeat match goal with
               | |- context [if ?b then _ else _] => destruct b
               end;
        try (apply dict_set_keys_notin; [done |]);
        simpl; apply (bool_decide_unpack _); by vm_compute.
    + cbn [trace outcome]. split; [by exists [] | done].
  - rewrite traced_bind_ret. handler_step.
    + cbn [mret traced_ret trace outcome]. split; [by eexists |]. split; [| right; by auto].
      apply success_well_formed. simpl. apply (bool_decide_unpack _). by vm_compute.
    + cbn [trace outcome]. split; [by eexists | done].
Qed.

Lemma request_init_fields `{Environment} (date : pyval) (latitude longitude : pyfloat)
    (include_analysis analysis_types : pyval) (weather_request : WeatherDataRequest.t) :
  WeatherDataRequest.init date latitude longitude include_analysis analysis_types
  = Ok weather_request →
  date = VStr (WeatherDataRequest.date weather_request)
  ∧ WeatherDataRequest.latitude weather_request = latitude
  ∧ WeatherDataRequest.longitude weather_request = longitude.
Proof.
  unfold WeatherDataRequest.init, WeatherDataRequest._validate_date.
  destruct date as [| | | | date_str | |]; try done.
  destruct (strptime date_str); [| done]. cbn [mbind result_bind rbind].
  destruct (WeatherDataRequest._validate_coordinates latitude longitude); [| done].
  cbn [mbind result_bind rbind mret result_ret]. by intros [= <-].
Qed.

(** The runs of the [try] block: one that never reaches a service either
    raises or answers 503; any other follows the order of the calls, for
    the date and the coordinates of the request. *)
Lemma predict_body_spec `{Environment} (self : StationService.t) (data : pyval) :
  let run := prediction_routes.predict_body self data in
  (trace run = []
   ∧ match outcome run with
     | Ok response => well_formed_response response ∧ response.2 = 503
     | Raise _ => True
     end)
  ∨ ∃ date latitude longitude,
      py_getitem data "date" = Ok (VStr date)
      ∧ py_getitem data "latitude" ≫= py_float = Ok latitude
      ∧ py_getitem data "longitude" ≫= py_float = Ok longitude
      ∧ trace run `prefix_of` full_trace date latitude longitude
      ∧ match outcome run with
        | Ok response =>
            well_formed_response response
            ∧ (response.2 = 500 ∧ trace run = take 3 (full_trace date latitude longitude)
               ∨ response.2 = 200
                 ∧ (trace run = take 3 (full_trace date latitude longitude)
                    ∨ trace run = full_trace date latitude longitude))
        | Raise _ => True
        end.
Proof.
  cbv zeta. unfold prediction_routes.predict_body.
  handler_step; [| by left].
  handler_step; [| by left].
  handler_step; [| by left].
  handler_step; [| by left].
  handler_step; [| by left].
  match goal with
  | |- context [quiet ?r ≫= ?k] =>
      destruct r as [weather_request | e] eqn:Hinit;
      [rewrite (traced_bind_quiet_ok weather_request k) | rewrite (traced_bind_quiet_raise e k)]
  end; [| by left].
  apply request_init_fields in Hinit as (-> & Hlat & Hlon). cbv zeta.
  destruct (StationService.find_nearest_station _ _) as [[nearest_station |] distance];
    cbn [fst snd]; [| left; split; [done | apply unavailable_well_formed]].
  destruct (StationService.is_model_available self nearest_station); cbn [negb];
    [| left; split; [done | apply unavailable_well_formed]].
  right. exists (WeatherDataRequest.date weather_request), a2, a3.
  split; [done |]. split; [done |]. split; [done |].
  rewrite <- Hlat, <- Hlon. apply serve_spec.
Qed.

(** X18. Whatever the request and whatever the services do, [/predict]
    answers a JSON object whose [success] entry is true exactly when the
    status is 200, and the status is one of 200, 400, 500 and 503. *)
Theorem predict_response_well_formed `{Environment} (self : StationService.t) (data : pyval) :
  let answer := prediction_routes.predict self data in
  well_formed_response answer.2 ∧ answer.2.2 ∈ [200; 400; 500; 503].
Proof.
  cbv zeta. unfold prediction_routes.predict.
  pose proof (predict_body_spec self data) as Hrun. cbv zeta in Hrun.
  destruct (outcome (prediction_routes.predict_body self data)) as [response | e].
  - cbn [fst snd].
    destruct Hrun as [[_ [Hwf Hstatus]] | (date & latitude & longitude & _ & _ & _ & _ & Hwf & Hstatus)].
    + split; [done |]. rewrite Hstatus. apply (bool_decide_unpack _). by vm_compute.
    + split; [done |].
      destruct Hstatus as [[-> _] | [-> _]]; apply (bool_decide_unpack _); by vm_compute.
  - destruct (is_ValidationError e); cbn [fst snd].
    + split; [by apply failure_well_formed | apply (bool_decide_unpack _); by vm_compute].
    + split; [by apply failure_well_formed | apply (bool_decide_unpack _); by vm_compute].
Qed.

(** X19. The service calls of [/predict] follow one order: fetch of the
    historical data, preprocessing, prediction, analysis.  A run that
    makes no call does not answer 200; any other fetched the data for the
    date and the coordinates of the request, its calls are an initial part
    of that order, it does not answer 503, and when it answers 200 the
    first three calls were all made. *)
Theorem predict_calls_in_order `{Environment} (self : StationService.t) (data : pyval) :
  let answer := prediction_routes.predict self data in
  (answer.1 = [] ∧ answer.2.2 ≠ 200)
  ∨ ∃ date latitude longitude,
      py_getitem data "date" = Ok (VStr date)
      ∧ py_getitem data "latitude" ≫= py_float = Ok latitude
      ∧ py_getitem data "longitude" ≫= py_float = Ok longitude
      ∧ answer.1 `prefix_of` full_trace date latitude longitude
      ∧ answer.2.2 ≠ 503
      ∧ (answer.2.2 = 200 → take 3 (full_trace date latitude longitude) `prefix_of` answer.1).
Proof.
  cbv zeta. unfold prediction_routes.predict.
  pose proof (predict_body_spec self data) as Hrun. cbv zeta in Hrun.
  destruct (prediction_routes.predict_body self data) as [calls [response | e]];
    cbn [trace outcome] in *.
  - destruct Hrun as [[-> [_ Hstatus]]
                     | (date & latitude & longitude & Hd & Hla & Hlo & Hpre & _ & Hstatus)].
    + left. cbn [fst snd]. rewrite Hstatus. by split.
    + right. exists date, latitude, longitude. cbn [fst snd].
      split; [done |]. split; [done |]. split; [done |]. split; [done |].
      destruct Hstatus as [[-> ->] | [-> Hcalls]].
      * split; [done | by intros ?].
      * split; [done |]. intros _. destruct Hcalls as [-> | ->]; [done | by eexists].
  - assert (∀ failure : pyval,
              ((if is_ValidationError e then (calls, (failure, 400))
                else (calls, (failure, 500))) : list event * (pyval * nat)).1 = calls
              ∧ ((if is_ValidationError e then (calls, (failure, 400))
                  else (calls, (failure, 500))) : list event * (pyval * nat)).2.2 ≠ 200
              ∧ ((if is_ValidationError e then (calls, (failure, 400))
                  else (calls, (failure, 500))) : list event * (pyval * nat)).2.2 ≠ 503)
      as Hfail by (intros failure; by destruct (is_ValidationError e)).
    cbv zeta.
    match goal with
    | |- context [APIResponse.to_dict ?r] =>
        destruct (Hfail (APIResponse.to_dict r)) as (Hcalls & H200 & H503)
    end.
    destruct Hrun as [[-> _] | (date & latitude & longitude & Hd & Hla & Hlo & Hpre & _)].
    + left. by rewrite Hcalls.
    + right. exists date, latitude, longitude. rewrite Hcalls.
      split; [done |]. split; [done |]. split; [done |]. split; [done |]. split; [done |].
      by intros ?.
Qed.

(** ** Statistics of a batch of predictions *)

Lemma pyfloat_lt_le (x y : pyfloat) : PyFloat.lt x y = true → PyFloat.le x y = true.
Proof.
  destruct x, y; simpl; try done. intros Hlt%Rltb_true. apply Rleb_true. lra.
Qed.

Lemma pyfloat_not_lt_le (x y : pyfloat) :
  PyFloat.isnan x = false → PyFloat.isnan y = false →
  PyFloat.lt x y = false → PyFloat.le y x = true.
Proof.
  destruct x, y; simpl; try done. intros _ _ Hlt%Rltb_false. by apply Rleb_true.
Qed.

Lemma pyfloat_le_refl (x : pyfloat) : PyFloat.isnan x = false → PyFloat.le x x = true.
Proof. destruct x; simpl; try done. intros _. apply Rleb_true. lra. Qed.

Lemma pyfloat_le_trans (x y z : pyfloat) :
  PyFloat.le x y = true → PyFloat.le y z = true → PyFloat.le x z = true.
Proof.
  destruct x, y, z; simpl; try done.
  intros Hxy%Rleb_true Hyz%Rleb_true. apply Rleb_true. lra.
Qed.

Lemma py_min_spec (others : list pyfloat) (first : pyfloat) :
  PyFloat.isnan first = false →
  Forall (λ x, PyFloat.isnan x = false) others →
  PredictionStats.py_min first others ∈ first :: others
  ∧ ∀ x, x ∈ first :: others → PyFloat.le (PredictionStats.py_min first others) x = true.
Proof.
  unfold PredictionStats.py_min. revert first.
  induction others as [| item rest IH]; intros first Hfirst Hothers; simpl.
  - split; [by left |]. intros x ->%list_elem_of_singleton. by apply pyfloat_le_refl.
  - apply Forall_cons in Hothers as [Hitem Hrest].
    destruct (PyFloat.lt item first) eqn:Hlt.
    + destruct (IH item Hitem Hrest) as [Hin Hle]. split; [by right |].
      intros x [-> | Hx]%elem_of_cons; [| by apply Hle].
      apply (pyfloat_le_trans _ item); [apply Hle; by left | by apply pyfloat_lt_le].
    + destruct (IH first Hfirst Hrest) as [Hin Hle]. split.
      * apply elem_of_cons in Hin as [-> | Hin]; [by left | by do 2 right].
      * intros x [-> | [-> | Hx]%elem_of_cons]%elem_of_cons.
        -- apply Hle. by left.
        -- apply (pyfloat_le_trans _ first); [apply Hle; by left | by apply pyfloat_not_lt_le].
        -- apply Hle. by right.
Qed.

Lemma py_max_spec (others : list pyfloat) (first : pyfloat) :
  PyFloat.isnan first = false →
  Forall (λ x, PyFloat.isnan x = false) others →
  PredictionStats.py_max first others ∈ first :: others
  ∧ ∀ x, x ∈ first :: others → PyFloat.le x (PredictionStats.py_max first others) = true.
Proof.
  unfold PredictionStats.py_max. revert first.
  induction others as [| item rest IH]; intros first Hfirst Hothers; simpl.
  - split; [by left |]. intros x ->%list_elem_of_singleton. by apply pyfloat_le_refl.
  - apply Forall_cons in Hothers as [Hitem Hrest].
    destruct (PyFloat.lt first item) eqn:Hlt.
    + destruct (IH item Hitem Hrest) as [Hin Hle]. split; [by right |].
      intros x [-> | Hx]%elem_of_cons; [| by apply Hle].
      apply (pyfloat_le_trans _ item); [by apply pyfloat_lt_le | apply Hle; by left].
    + destruct (IH first Hfirst Hrest) as [Hin Hle]. split.
      * apply elem_of_cons in Hin as [-> | Hin]; [by left | by do 2 right].
      * intros x [-> | [-> | Hx]%elem_of_cons]%elem_of_cons.
        -- apply Hle. by left.
        -- apply (pyfloat_le_trans _ first); [by apply pyfloat_not_lt_le | apply Hle; by left].
        -- apply Hle. by right.
Qed.

Lemma extremes_of_values (values : list pyfloat) :
  values ≠ [] →
  Forall (λ x, PyFloat.isnan x = false) values →
  extremes values (PredictionStats.minimum values) (PredictionStats.maximum values).
Proof.
  destruct values as [| first others]; [done |]. intros _ Hall.
  apply Forall_cons in Hall as [Hfirst Hothers].
  destruct (py_min_spec others first Hfirst Hothers) as [Hmin Hle].
  destruct (py_max_spec others first Hfirst Hothers) as [Hmax Hge].
  unfold extremes. simpl. split; [done |]. split; [done |].
  intros x Hx. split; [by apply Hle | by apply Hge].
Qed.

Lemma component_values (col : nat) (predictions : list (list pyfloat)) :
  col < 3 →
  Forall (Forall (λ x, PyFloat.isnan x = false)) predictions →
  Exists (λ pred, 3 ≤ length pred) predictions →
  PredictionStats.component col predictions ≠ []
  ∧ Forall (λ x, PyFloat.isnan x = false) (PredictionStats.component col predictions).
Proof.
  intros Hcol Hall Hlong. split.
  - apply Exists_exists in Hlong as (pred & Hpred & Hlen).
    destruct (lookup_lt_is_Some_2 pred col) as [x Hx]; [lia |].
    assert (x ∈ PredictionStats.component col predictions) as Hin.
    { unfold PredictionStats.component. apply list_elem_of_omap. exists pred. split; [done |].
      by rewrite (proj2 (Nat.leb_le _ _) Hlen). }
    intros Hnil. rewrite Hnil in Hin. by apply elem_of_nil in Hin.
  - apply Forall_forall. intros x Hx. unfold PredictionStats.component in Hx.
    apply list_elem_of_omap in Hx as (pred & Hpred & Hx).
    destruct (3 <=? length pred); [| done].
    rewrite Forall_forall in Hall. specialize (Hall pred Hpred).
    rewrite Forall_forall in Hall. apply Hall. by eapply list_elem_of_lookup_2.
Qed.

(** X20. For a batch without NaN that has a row of at least three
    entries, the statistics are computed; the total counts every row, also
    the shorter ones, and for each of the three features the minimum and
    the maximum are entries of the feature's column that bound every entry
    of it. *)
Theorem prediction_stats_extremes (predictions : list (list pyfloat)) :
  Forall (Forall (λ x, PyFloat.isnan x = false)) predictions →
  Exists (λ pred, 3 ≤ length pred) predictions →
  ∃ stats,
    PredictionService.calculate_prediction_stats predictions = Ok stats
    ∧ PredictionStats.total_predictions stats = length predictions
    ∧ extremes (PredictionStats.component 0 predictions)
               (PredictionStats.min_precipitation stats)
               (PredictionStats.max_precipitation stats)
    ∧ extremes (PredictionStats.component 1 predictions)
               (PredictionStats.min_temperature stats)
               (PredictionStats.max_temperature stats)
    ∧ extremes (PredictionStats.component 2 predictions)
               (PredictionStats.min_humidity stats)
               (PredictionStats.max_humidity stats).
Proof.
  intros Hall Hlong.
  destruct (component_values 0 predictions) as [Hne0 Hnan0]; [lia | done | done |].
  destruct (component_values 1 predictions) as [Hne1 Hnan1]; [lia | done | done |].
  destruct (component_values 2 predictions) as [Hne2 Hnan2]; [lia | done | done |].
  unfold PredictionService.calculate_prediction_stats, PredictionStats.from_predictions.
  destruct predictions as [| pred rest]; [by apply Exists_nil in Hlong |].
  eexists. split; [reflexivity |]. cbv zeta.
  cbn [PredictionStats.total_predictions PredictionStats.min_precipitation
       PredictionStats.max_precipitation PredictionStats.min_temperature
       PredictionStats.max_temperature PredictionStats.min_humidity
       PredictionStats.max_humidity].
  split; [done |]. repeat split; by apply extremes_of_values.
Qed.

Lemma prediction_stats_extremes_witness :
  ∃ stats,
    PredictionService.calculate_prediction_stats
      [[Fin 1; Fin 12; Fin 80]; [Fin 0; Fin 9; Fin 85]; [Fin 7]] = Ok stats
    ∧ PredictionStats.total_predictions stats = 3.
Proof.
  destruct (prediction_stats_extremes
              [[Fin 1; Fin 12; Fin 80]; [Fin 0; Fin 9; Fin 85]; [Fin 7]])
    as (stats & Hstats & Htotal & _).
  - repeat constructor.
  - apply Exists_cons_hd. simpl. lia.
  - by exists stats.
Defined.

(** ** The routes of the stations *)

(** The [try] block of [/nearest_station] on a request that has the two
    coordinates: what is left is their validation and what follows it. *)
Lemma nearest_station_front `{Environment} (self : StationService.t)
    (d : list (string * pyval)) (lat_v lon_v : pyval) (latitude longitude : pyfloat) :
  assoc_get "latitude" d = Some lat_v →
  assoc_get "longitude" d = Some lon_v →
  py_float lat_v = Ok latitude →
  py_float lon_v = Ok longitude →
  station_routes.get_nearest_station_body self (VDict d)
  = (CoordinateValidator.validate_coordinates latitude longitude;;
     let found := StationService.find_nearest_station latitude longitude in
     let all_stations_info := StationService.get_all_stations_info self latitude longitude in
     nearest_info ← station_routes.station_info_of all_stations_info found.1;
     mret (APIResponse.to_dict
             {| APIResponse.success := true;
                APIResponse.data :=
                  Some [ ("input_coordinates",
                          VDict [("latitude", VFloat latitude);
                                 ("longitude", VFloat longitude)]);
                         ("nearest_station", StationInfo.to_dict nearest_info);
                         ("all_stations",
                          VDict ((λ kv, (kv.1, StationInfo.to_dict kv.2))
                                   <$> all_stations_info));
                         ("distance_unit", VStr "grados (lat/lon)") ];
                APIResponse.error := None;
                APIResponse.details := None |})).
Proof.
  intros Hlat Hlon Hflat Hflon. unfold station_routes.get_nearest_station_body.
  rewrite (validate_json_data_dict d "latitude") by (by rewrite Hlat).
  rewrite validate_required_fields_present
    by (constructor; [by rewrite Hlat | constructor; [by rewrite Hlon | constructor]]).
  rewrite !result_bind_ok.
  rewrite (py_getitem_dict d "latitude" lat_v Hlat), result_bind_ok, Hflat, result_bind_ok.
  rewrite (py_getitem_dict d "longitude" lon_v Hlon), result_bind_ok, Hflon, result_bind_ok.
  reflexivity.
Qed.

(** X21. [/nearest_station] answers 400 a request whose coordinates
    convert to floats of which one is out of range (NaN and the infinities
    included): here the validator raises [ValidationError]. *)
Theorem nearest_station_rejects_coordinates `{Environment} (self : StationService.t)
    (d : list (string * pyval)) (lat_v lon_v : pyval) (latitude longitude : pyfloat) :
  assoc_get "latitude" d = Some lat_v →
  assoc_get "longitude" d = Some lon_v →
  py_float lat_v = Ok latitude →
  py_float lon_v = Ok longitude →
  CoordinateValidator.validate_latitude latitude = false
  ∨ CoordinateValidator.validate_longitude longitude = false →
  (station_routes.get_nearest_station self (VDict d)).2 = 400
  ∧ well_formed_response (station_routes.get_nearest_station self (VDict d)).
Proof.
  intros Hlat Hlon Hflat Hflon Hbad. unfold station_routes.get_nearest_station.
  rewrite (nearest_station_front self d lat_v lon_v latitude longitude) by done.
  assert (∃ msg, CoordinateValidator.validate_coordinates latitude longitude
                 = Raise (ValidationError msg)) as [msg ->].
  { unfold CoordinateValidator.validate_coordinates.
    destruct (CoordinateValidator.validate_latitude latitude); simpl; [| by eexists].
    destruct Hbad as [? | ->]; [done | by eexists]. }
  cbn [mbind result_bind rbind is_ValidationError]. cbv zeta. cbn [snd fst exn_str].
  split; [done | by apply failure_well_formed].
Qed.

Lemma nearest_station_rejects_coordinates_witness :
  let env := sample_env [] (Ok VNone) in
  (@station_routes.get_nearest_station env (@StationService.init env)
     (VDict [("latitude", VInt 91); ("longitude", VFloat (Fin (-78.17)))])).2 = 400.
Proof.
  intros env.
  apply (@nearest_station_rejects_coordinates env (@StationService.init env)
           [("latitude", VInt 91); ("longitude", VFloat (Fin (-78.17)))]
           (VInt 91) (VFloat (Fin (-78.17))) (Fin 91) (Fin (-78.17)));
    try reflexivity.
  left. unfold CoordinateValidator.validate_latitude. simpl.
  rewrite (proj2 (Rleb_false 91 90)) by lra. apply andb_false_r.
Defined.

(** The dictionary of [get_all_stations_info] has an entry for each
    configured station, in configured order, which holds what
    [get_station_info] builds for it. *)
Lemma all_stations_info_entries `{Environment} (self : StationService.t)
    (target_lat target_lon : pyfloat) :
  (StationService.get_all_stations_info self target_lat target_lon).*1
  = StationConfig.get_station_names
  ∧ ∀ name, name ∈ StationConfig.get_station_names →
      ∃ info, StationService.get_station_info self name target_lat target_lon = Ok info
              ∧ assoc_get name (StationService.get_all_stations_info self target_lat target_lon)
                = Some info.
Proof.
  split; [reflexivity |].
  intros name Hname. unfold StationConfig.get_station_names in Hname. simpl in Hname.
  repeat (apply elem_of_cons in Hname as [-> | Hname]; [eexists; split; reflexivity |]).
  by apply elem_of_nil in Hname.
Qed.

(** X22. [/nearest_station] answers 200 a request whose coordinates are in
    range; the [nearest_station] entry of the body is the information of
    the station the locator answers, at the distance it answers, and
    [all_stations] lists the configured stations in configured order. *)
Theorem nearest_station_answer `{Environment} (self : StationService.t)
    (d : list (string * pyval)) (lat_v lon_v : pyval) (latitude longitude : pyfloat) :
  assoc_get "latitude" d = Some lat_v →
  assoc_get "longitude" d = Some lon_v →
  py_float lat_v = Ok latitude →
  py_float lon_v = Ok longitude →
  CoordinateValidator.validate_latitude latitude = true →
  CoordinateValidator.validate_longitude longitude = true →
  ∃ name distance info fields,
    StationService.find_nearest_station latitude longitude = (Some name, distance)
    ∧ StationService.get_station_info self name latitude longitude = Ok info
    ∧ StationInfo.distance info = distance
    ∧ station_routes.get_nearest_station self (VDict d) = (VDict fields, 200)
    ∧ assoc_get "success" fields = Some (VBool true)
    ∧ assoc_get "nearest_station" fields = Some (StationInfo.to_dict info)
    ∧ listed_stations (VDict fields) "all_stations" = Some StationConfig.get_station_names.
Proof.
  intros Hlat Hlon Hflat Hflon Hvlat Hvlon.
  destruct (valid_latitude_finite _ Hvlat) as [a ->].
  destruct (valid_longitude_finite _ Hvlon) as [b ->].
  pose proof configured_stations_finite as Hall. rewrite Forall_forall in Hall.
  destruct (nearest_fold a b StationConfig.STATIONS_COORDINATES configured_stations_finite)
    as (i & name & c & Hi & Hfold & _); [done |].
  assert ((name, c) ∈ StationConfig.STATIONS_COORDINATES) as Hin
    by (by eapply list_elem_of_lookup_2).
  assert (name ∈ StationConfig.get_station_names) as Hname.
  { apply list_elem_of_fmap. by exists (name, c). }
  destruct (all_stations_info_entries self (Fin a) (Fin b)) as [Hkeys Hentries].
  destruct (Hentries name Hname) as (info & Hinfo & Hentry).
  exists name, (Fin (real_distance a b c)), info.
  unfold station_routes.get_nearest_station.
  rewrite (nearest_station_front self d lat_v lon_v (Fin a) (Fin b)) by done.
  unfold CoordinateValidator.validate_coordinates. rewrite Hvlat, Hvlon.
  cbn [negb mbind result_bind rbind]. cbv zeta.
  unfold StationService.find_nearest_station, StationService.find_nearest_station_in.
  rewrite Hfold. cbn [fst snd]. unfold station_routes.station_info_of. rewrite Hentry.
  cbn [mbind result_bind rbind mret result_ret].
  eexists. split; [done |]. split; [done |]. split.
  { unfold StationService.get_station_info, StationConfig.get_station_coordinates in Hinfo.
    rewrite (assoc_get_lookup _ i name c station_names_NoDup Hi) in Hinfo.
    injection Hinfo as <-. cbn [StationInfo.distance].
    fold (station_distance (Fin a) (Fin b) c).
    apply station_distance_finite, (Hall (name, c) Hin). }
  split; [reflexivity |]. split; [reflexivity |]. split; [reflexivity |].
  unfold listed_stations. rewrite <- Hkeys.
  generalize (StationService.get_all_stations_info self (Fin a) (Fin b)).
  intros all_stations_info. cbn. f_equal. rewrite <- list_fmap_compose.
  by apply list_fmap_ext.
Qed.

Lemma nearest_station_answer_witness :
  let env := sample_env [] (Ok VNone) in
  ∃ fields,
    @station_routes.get_nearest_station env (@StationService.init env)
      (VDict [("latitude", VFloat (Fin (-0.35))); ("longitude", VFloat (Fin (-78.17)))])
    = (VDict fields, 200).
Proof.
  intros env.
  destruct (@nearest_station_answer env (@StationService.init env)
              [("latitude", VFloat (Fin (-0.35))); ("longitude", VFloat (Fin (-78.17)))]
              (VFloat (Fin (-0.35))) (VFloat (Fin (-78.17))) (Fin (-0.35)) (Fin (-78.17)))
    as (name & distance & info & fields & _ & _ & _ & Hanswer & _); try reflexivity.
  - unfold CoordinateValidator.validate_latitude. simpl.
    rewrite !(proj2 (Rleb_true _ _)) by lra. done.
  - unfold CoordinateValidator.validate_longitude. simpl.
    rewrite !(proj2 (Rleb_true _ _)) by lra. done.
  - by exists fields.
Defined.

Lemma dict_set_keys_new {V : Type} (k : string) (v : V) (d : list (string * V)) :
  k ∉ d.*1 → (dict_set k v d).*1 = d.*1 ++ [k].
Proof.
  induction d as [| [k0 v0] d IH]; [done |]. simpl.
  intros [Hne Hd]%not_elem_of_cons.
  rewrite decide_False by done. simpl. f_equal. by apply IH.
Qed.

(** A dictionary comprehension over keys without repetition: it raises
    nothing when no entry does, and its keys are the keys it ran over. *)
Lemma comprehension_keys (step : result (list (string * pyval)) → string
                                 → result (list (string * pyval)))
    (value : string → pyval) (keys : list string) :
  NoDup keys →
  (∀ entries key, key ∈ keys → step (Ok entries) key = Ok (dict_set key (value key) entries)) →
  ∃ entries, foldl step (Ok []) keys = Ok entries ∧ entries.*1 = keys.
Proof.
  induction keys as [| key keys IH] using rev_ind; intros Hnodup Hstep.
  - by exists [].
  - apply NoDup_app in Hnodup as (Hkeys & Hkey & _).
    destruct IH as (entries & Hfold & Hentries); [done | |].
    { intros entries k Hk. apply Hstep. apply elem_of_app. by left. }
    exists (dict_set key (value key) entries). rewrite foldl_snoc, Hfold. split.
    + apply Hstep. apply elem_of_app. right. by left.
    + rewrite dict_set_keys_new; [by rewrite Hentries |].
      rewrite Hentries. intros Hin. apply (Hkey key Hin). by left.
Qed.

(** X23. After start-up [/stations] answers 200, and its body lists the
    loaded stations as available and the failed ones as unavailable, each
    list in the order of the service's own. *)
Theorem stations_route_after_load `{Environment} :
  let self := StationService.load_all_models StationService.init in
  let answer := station_routes.get_stations_info self in
  answer.2 = 200
  ∧ well_formed_response answer
  ∧ listed_stations answer.1 "available_stations"
    = Some (StationService.loaded_stations self)
  ∧ listed_stations answer.1 "unavailable_stations"
    = Some (StationService.failed_stations self).
Proof.
  intros self answer.
  destruct load_all_models_state as (Hloaded & Hfailed & Havail).
  fold self in Hloaded, Hfailed, Havail.
  assert (∀ station, station ∈ StationConfig.get_station_names →
            ∃ coords, assoc_get station StationConfig.STATIONS_COORDINATES = Some coords)
    as Hconfigured.
  { intros station Hstation.
    destruct (assoc_get station StationConfig.STATIONS_COORDINATES) as [coords |] eqn:Hc;
      [by exists coords |].
    by apply assoc_get_None in Hc. }
  destruct (comprehension_keys
              (λ acc station,
                 entries ← acc;
                 info ← StationService.get_station_info self station (Fin 0) (Fin 0);
                 mret (dict_set station (StationInfo.to_dict info) entries))
              (λ station,
                 match StationService.get_station_info self station (Fin 0) (Fin 0) with
                 | Ok info => StationInfo.to_dict info
                 | Raise _ => VNone
                 end)
              (StationService.get_available_stations self))
    as (available & Havailable & Havailable_keys).
  { rewrite Havail, Hloaded. apply NoDup_filter, station_names_NoDup. }
  { intros entries station Hstation. rewrite Havail, Hloaded in Hstation.
    apply list_elem_of_filter in Hstation as [_ Hstation].
    destruct (Hconfigured station Hstation) as [coords Hcoords].
    unfold StationService.get_station_info, StationConfig.get_station_coordinates.
    by rewrite Hcoords. }
  destruct (comprehension_keys
              (λ acc station,
                 entries ← acc;
                 match assoc_get station StationConfig.STATIONS_COORDINATES with
                 | Some coords =>
                     mret (dict_set station
                             (VDict [("name", VStr station);
                                     ("coordinates", station_routes.coordinates_value coords)])
                             entries)
                 | None => Raise (OtherException station)
                 end)
              (λ station,
                 match assoc_get station StationConfig.STATIONS_COORDINATES with
                 | Some coords =>
                     VDict [("name", VStr station);
                            ("coordinates", station_routes.coordinates_value coords)]
                 | None => VNone
                 end)
              (StationService.failed_stations self))
    as (unavailable & Hunavailable & Hunavailable_keys).
  { rewrite Hfailed. apply NoDup_filter, station_names_NoDup. }
  { intros entries station Hstation. rewrite Hfailed in Hstation.
    apply list_elem_of_filter in Hstation as [_ Hstation].
    destruct (Hconfigured station Hstation) as [coords Hcoords].
    by rewrite Hcoords. }
  subst answer. unfold station_routes.get_stations_info, station_routes.get_stations_info_body.
  cbv zeta. cbn [StationsSummary.available_stations StationsSummary.failed_stations_list
                 StationsSummary.coordinates StationService.get_stations_summary].
  rewrite Havailable, result_bind_ok, Hunavailable, result_bind_ok.
  cbn [mret result_ret fst snd]. split; [done |]. split.
  { apply success_well_formed. simpl. apply (bool_decide_unpack _). by vm_compute. }
  rewrite <- Havail, <- Havailable_keys, <- Hunavailable_keys. by split.
Qed.

(** ** The route of the weather data *)

(** X24. [/weather_data] answers 500, not 400, a request that has the
    three fields and coordinates [float] converts, but a date that is not a
    string [strptime] parses or a coordinate out of range: the request
    model raises [ValueError] (or [TypeError]), which only the route's
    [except Exception] catches. *)
Theorem weather_data_invalid_request `{Environment}
    (d : list (string * pyval)) (date_v lat_v lon_v : pyval) (latitude longitude : pyfloat) :
  assoc_get "date" d = Some date_v →
  assoc_get "latitude" d = Some lat_v →
  assoc_get "longitude" d = Some lon_v →
  py_float lat_v = Ok latitude →
  py_float lon_v = Ok longitude →
  (∀ date_str, date_v = VStr date_str → strptime date_str = None)
  ∨ CoordinateValidator.validate_latitude latitude = false
  ∨ CoordinateValidator.validate_longitude longitude = false →
  (weather_routes.get_weather_data (VDict d)).2 = 500
  ∧ well_formed_response (weather_routes.get_weather_data (VDict d)).
Proof.
  intros Hdate Hlat Hlon Hflat Hflon Hbad.
  unfold weather_routes.get_weather_data, weather_routes.get_weather_data_body.
  destruct (predict_fields_present d _ _ _ Hdate Hlat Hlon) as [-> ->].
  rewrite !result_bind_ok.
  rewrite (py_getitem_dict d "date" date_v Hdate), result_bind_ok.
  rewrite (py_getitem_dict d "latitude" lat_v Hlat), result_bind_ok, Hflat, result_bind_ok.
  rewrite (py_getitem_dict d "longitude" lon_v Hlon), result_bind_ok, Hflon, result_bind_ok.
  destruct (request_init_rejects date_v latitude longitude (VBool true) VNone Hbad)
    as (e & -> & He).
  cbn [mbind result_bind rbind]. cbv zeta. rewrite He. cbn [fst snd].
  split; [done | by apply failure_well_formed].
Qed.

Lemma weather_data_invalid_request_witness :
  let env := sample_env [] (Ok VNone) in
  (@weather_routes.get_weather_data env
     (VDict [ ("date", VStr "2024-06-01");
              ("latitude", VInt 91);
              ("longitude", VFloat (Fin (-78.17))) ])).2 = 500.
Proof.
  intros env.
  apply (@weather_data_invalid_request env
           [ ("date", VStr "2024-06-01");
             ("latitude", VInt 91);
             ("longitude", VFloat (Fin (-78.17))) ]
           (VStr "2024-06-01") (VInt 91) (VFloat (Fin (-78.17))) (Fin 91) (Fin (-78.17)));
    try reflexivity.
  right. left. unfold CoordinateValidator.validate_latitude. simpl.
  rewrite (proj2 (Rleb_false 91 90)) by lra. apply andb_false_r.
Defined.

(** ** Validation of lists *)

(** X25. [validate_list_items] passes exactly when every item is one of
    the valid items, and what it raises otherwise is a
    [ValidationError]. *)
Theorem validate_list_items_spec (items valid_items : list string) :
  (ListValidator.validate_list_items items valid_items = Ok ()
   ↔ ∀ item, item ∈ items → item ∈ valid_items)
  ∧ ∀ e, ListValidator.validate_list_items items valid_items = Raise e →
         is_ValidationError e = true.
Proof.
  unfold ListValidator.validate_list_items. cbv zeta.
  destruct (filter (λ item, item ∉ valid_items) items) as [| bad rest] eqn:Hfilter.
  - split; [| done]. split; [| done]. intros _ item Hitem.
    destruct (decide (item ∈ valid_items)) as [Hvalid | Hinvalid]; [done |].
    assert (item ∈ filter (λ item, item ∉ valid_items) items) as Hin
      by (by apply list_elem_of_filter).
    rewrite Hfilter in Hin. by apply elem_of_nil in Hin.
  - split; [| by intros e [= <-]]. split; [done |]. intros Hall.
    assert (bad ∈ filter (λ item, item ∉ valid_items) items) as Hin
      by (rewrite Hfilter; by left).
    apply list_elem_of_filter in Hin as [Hinvalid Hbad]. destruct Hinvalid. by apply Hall.
Qed.
